(** * Smart changelog generator: a shallow embedding of
      [scripts/update_changelog.py] and the properties of its classifier,
      formatter, section renderer, statistics parser and document splice.

    Python [str] values are modelled as [string]: the sequence of characters
    of the text in its UTF-8 encoding, which is the encoding the script reads
    and writes; offsets count the characters of the encoded text, and the
    emoji of the headings are carried as opaque characters.  The letters
    [re.IGNORECASE] matches and the characters [upper] changes are modelled
    for all of Unicode, and so is the whitespace the formatter removes from
    a commit message ([lstrip_unicode], [strip_unicode]).  [lower], digits
    and the whitespace of what git prints ([lstrip], [rstrip], [strip],
    [isspace]) are modelled on the ASCII range (characters above 127 are
    left alone), so that these are exact on ASCII text.

    What the script obtains from git (the commits, the release date, the
    output of [git show --shortstat]) and from the file system (the content
    of [CHANGELOG.md]) is an argument of the function that uses it. *)

From Stdlib Require Import ZArith Lia Ascii String List Bool DecimalString DecimalPos.
From stdpp Require Import gmap strings.

Local Open Scope Z_scope.

#[local] Arguments String.append !s1 s2 : simpl nomatch.

(** ** Python string primitives *)

Module Py.

Definition nl : string := String "010" "".

(** [c.lower()] on one character. *)
Definition lower_char (c : ascii) : ascii :=
  let n := nat_of_ascii c in
  if ((65 <=? n)%nat && (n <=? 90)%nat)%bool then ascii_of_nat (n + 32) else c.

(** [c.upper()] on one character of the ASCII range. *)
Definition upper_char (c : ascii) : ascii :=
  let n := nat_of_ascii c in
  if ((97 <=? n)%nat && (n <=? 122)%nat)%bool then ascii_of_nat (n - 32) else c.

(** [s.lower()] *)
Fixpoint lower (s : string) : string :=
  match s with
  | EmptyString => EmptyString
  | String c s' => String (lower_char c) (lower s')
  end.

(** [c.isspace()] on the ASCII range, which is also what [\s] matches
    there. *)
Definition isspace (c : ascii) : bool :=
  let n := nat_of_ascii c in
  (((9 <=? n)%nat && (n <=? 13)%nat) || ((28 <=? n)%nat && (n <=? 32)%nat))%bool.

(** [c.isdigit()] on the ASCII range, which is what [\d] matches there. *)
Definition isdigit (c : ascii) : bool :=
  let n := nat_of_ascii c in ((48 <=? n)%nat && (n <=? 57)%nat)%bool.

(** [c.isascii()] *)
Definition isascii (c : ascii) : bool := (nat_of_ascii c <? 128)%nat.

(** [s.startswith(p)] *)
Definition startswith (s p : string) : bool := String.prefix p s.

(** [sub in s] *)
Fixpoint contains (sub s : string) : bool :=
  (String.prefix sub s ||
   match s with
   | EmptyString => false
   | String _ s' => contains sub s'
   end)%bool.

(** [any(word in s for word in words)] *)
Definition any_in (words : list string) (s : string) : bool :=
  existsb (fun word => contains word s) words.

(** [s.lstrip()], for the whitespace of the ASCII range. *)
Fixpoint lstrip (s : string) : string :=
  match s with
  | EmptyString => EmptyString
  | String c s' => if isspace c then lstrip s' else s
  end.

(** [s.rstrip()], for the whitespace of the ASCII range. *)
Fixpoint rstrip (s : string) : string :=
  match s with
  | EmptyString => EmptyString
  | String c s' =>
      match rstrip s' with
      | EmptyString => if isspace c then EmptyString else String c EmptyString
      | r => String c r
      end
  end.

(** [s.strip()], for the whitespace of the ASCII range. *)
Definition strip (s : string) : string := rstrip (lstrip s).

(** [s[n:]] for [n >= 0] *)
Fixpoint drop (n : nat) (s : string) : string :=
  match n, s with
  | O, _ => s
  | S _, EmptyString => EmptyString
  | S n', String _ s' => drop n' s'
  end.

(** [s[:n]] for [n >= 0] *)
Fixpoint take (n : nat) (s : string) : string :=
  match n, s with
  | O, _ => EmptyString
  | S _, EmptyString => EmptyString
  | S n', String c s' => String c (take n' s')
  end.

(** [sep.join(parts)] *)
Fixpoint join (sep : string) (parts : list string) : string :=
  match parts with
  | [] => ""
  | [x] => x
  | x :: rest => x +:+ sep +:+ join sep rest
  end.

(** [str(n)] and the [{n}] of an f-string, for an [int]. *)
Definition str_of_int (n : Z) : string := NilZero.string_of_int (Z.to_int n).

Definition byte (n : Z) : ascii := ascii_of_N (Z.to_N n).

(** [chr(n)], in the UTF-8 encoding of the text. *)
Definition chr (n : Z) : string :=
  if n <? 0x80 then String (byte n) ""
  else if n <? 0x800 then
    String (byte (0xC0 + n / 64)) (String (byte (0x80 + n mod 64)) "")
  else if n <? 0x10000 then
    String (byte (0xE0 + n / 4096))
      (String (byte (0x80 + (n / 64) mod 64)) (String (byte (0x80 + n mod 64)) ""))
  else
    String (byte (0xF0 + n / 262144))
      (String (byte (0x80 + (n / 4096) mod 64))
         (String (byte (0x80 + (n / 64) mod 64)) (String (byte (0x80 + n mod 64)) ""))).

(** [''.join(map(chr, codes))] *)
Fixpoint text_of (codes : list Z) : string :=
  match codes with
  | [] => ""
  | n :: rest => chr n +:+ text_of rest
  end.

(** [s.endswith(p)] *)
Definition endswith (s p : string) : bool :=
  ((String.length p <=? String.length s)%nat &&
   String.eqb (drop (String.length s - String.length p) s) p)%bool.

(** The characters for which [c.isspace()] holds, in ASCII and outside; they
    are also those [\s] matches in a [str] pattern and [strip] removes. *)
Definition WHITESPACE : list Z :=
  [ 0x0009; 0x000A; 0x000B; 0x000C; 0x000D; 0x001C; 0x001D; 0x001E; 0x001F; 0x0020;
    0x0085; 0x00A0; 0x1680; 0x2000; 0x2001; 0x2002; 0x2003; 0x2004; 0x2005; 0x2006;
    0x2007; 0x2008; 0x2009; 0x200A; 0x2028; 0x2029; 0x202F; 0x205F; 0x3000 ].

(** The whitespace character [s] starts with is passed: what follows it. *)
Definition skip_space (s : string) : option string :=
  match List.find (fun code => startswith s (chr code)) WHITESPACE with
  | Some code => Some (drop (String.length (chr code)) s)
  | None => None
  end.

(** The whitespace character [s] ends with is dropped: what precedes it. *)
Definition drop_space (s : string) : option string :=
  match List.find (fun code => endswith s (chr code)) WHITESPACE with
  | Some code => Some (take (String.length s - String.length (chr code)) s)
  | None => None
  end.

(** At most [n] whitespace characters are passed at the start of [s]. *)
Fixpoint lstrip_steps (n : nat) (s : string) : string :=
  match n with
  | O => s
  | S n' =>
      match skip_space s with
      | Some rest => lstrip_steps n' rest
      | None => s
      end
  end.

(** At most [n] whitespace characters are dropped at the end of [s]. *)
Fixpoint rstrip_steps (n : nat) (s : string) : string :=
  match n with
  | O => s
  | S n' =>
      match drop_space s with
      | Some rest => rstrip_steps n' rest
      | None => s
      end
  end.

(** [s.lstrip()] with the whitespace of all of Unicode, which is also what
    a greedy [\s*] takes at the start of [s]: whitespace characters are
    passed one by one, and a text has no more of them than its length. *)
Definition lstrip_unicode (s : string) : string := lstrip_steps (String.length s) s.

(** [s.rstrip()] with the whitespace of all of Unicode. *)
Definition rstrip_unicode (s : string) : string := rstrip_steps (String.length s) s.

(** [s.strip()] with the whitespace of all of Unicode. *)
Definition strip_unicode (s : string) : string := rstrip_unicode (lstrip_unicode s).

(** [c.upper()] outside ASCII: every character [upper] changes, with the
    characters it gives (Unicode 14.0, the character database of
    CPython 3.11).  A character that is not listed is left as it is. *)
Definition UPPER_OUTSIDE_ASCII : list (Z * list Z) :=
  [ (0x00B5, [0x039C]); (0x00DF, [0x0053; 0x0053]); (0x00E0, [0x00C0]); (0x00E1, [0x00C1]);
    (0x00E2, [0x00C2]); (0x00E3, [0x00C3]); (0x00E4, [0x00C4]); (0x00E5, [0x00C5]);
    (0x00E6, [0x00C6]); (0x00E7, [0x00C7]); (0x00E8, [0x00C8]); (0x00E9, [0x00C9]);
    (0x00EA, [0x00CA]); (0x00EB, [0x00CB]); (0x00EC, [0x00CC]); (0x00ED, [0x00CD]);
    (0x00EE, [0x00CE]); (0x00EF, [0x00CF]); (0x00F0, [0x00D0]); (0x00F1, [0x00D1]);
    (0x00F2, [0x00D2]); (0x00F3, [0x00D3]); (0x00F4, [0x00D4]); (0x00F5, [0x00D5]);
    (0x00F6, [0x00D6]); (0x00F8, [0x00D8]); (0x00F9, [0x00D9]); (0x00FA, [0x00DA]);
    (0x00FB, [0x00DB]); (0x00FC, [0x00DC]); (0x00FD, [0x00DD]); (0x00FE, [0x00DE]);
    (0x00FF, [0x0178]); (0x0101, [0x0100]); (0x0103, [0x0102]); (0x0105, [0x0104]);
    (0x0107, [0x0106]); (0x0109, [0x0108]); (0x010B, [0x010A]); (0x010D, [0x010C]);
    (0x010F, [0x010E]); (0x0111, [0x0110]); (0x0113, [0x0112]); (0x0115, [0x0114]);
    (0x0117, [0x0116]); (0x0119, [0x0118]); (0x011B, [0x011A]); (0x011D, [0x011C]);
    (0x011F, [0x011E]); (0x0121, [0x0120]); (0x0123, [0x0122]); (0x0125, [0x0124]);
    (0x0127, [0x0126]); (0x0129, [0x0128]); (0x012B, [0x012A]); (0x012D, [0x012C]);
    (0x012F, [0x012E]); (0x0131, [0x0049]); (0x0133, [0x0132]); (0x0135, [0x0134]);
    (0x0137, [0x0136]); (0x013A, [0x0139]); (0x013C, [0x013B]); (0x013E, [0x013D]);
    (0x0140, [0x013F]); (0x0142, [0x0141]); (0x0144, [0x0143]); (0x0146, [0x0145]);
    (0x0148, [0x0147]); (0x0149, [0x02BC; 0x004E]); (0x014B, [0x014A]); (0x014D, [0x014C]);
    (0x014F, [0x014E]); (0x0151, [0x0150]); (0x0153, [0x0152]); (0x0155, [0x0154]);
    (0x0157, [0x0156]); (0x0159, [0x0158]); (0x015B, [0x015A]); (0x015D, [0x015C]);
    (0x015F, [0x015E]); (0x0161, [0x0160]); (0x0163, [0x0162]); (0x0165, [0x0164]);
    (0x0167, [0x0166]); (0x0169, [0x0168]); (0x016B, [0x016A]); (0x016D, [0x016C]);
    (0x016F, [0x016E]); (0x0171, [0x0170]); (0x0173, [0x0172]); (0x0175, [0x0174]);
    (0x0177, [0x0176]); (0x017A, [0x0179]); (0x017C, [0x017B]); (0x017E, [0x017D]);
    (0x017F, [0x0053]); (0x0180, [0x0243]); (0x0183, [0x0182]); (0x0185, [0x0184]);
    (0x0188, [0x0187]); (0x018C, [0x018B]); (0x0192, [0x0191]); (0x0195, [0x01F6]);
    (0x0199, [0x0198]); (0x019A, [0x023D]); (0x019E, [0x0220]); (0x01A1, [0x01A0]);
    (0x01A3, [0x01A2]); (0x01A5, [0x01A4]); (0x01A8, [0x01A7]); (0x01AD, [0x01AC]);
    (0x01B0, [0x01AF]); (0x01B4, [0x01B3]); (0x01B6, [0x01B5]); (0x01B9, [0x01B8]);
    (0x01BD, [0x01BC]); (0x01BF, [0x01F7]); (0x01C5, [0x01C4]); (0x01C6, [0x01C4]);
    (0x01C8, [0x01C7]); (0x01C9, [0x01C7]); (0x01CB, [0x01CA]); (0x01CC, [0x01CA]);
    (0x01CE, [0x01CD]); (0x01D0, [0x01CF]); (0x01D2, [0x01D1]); (0x01D4, [0x01D3]);
    (0x01D6, [0x01D5]); (0x01D8, [0x01D7]); (0x01DA, [0x01D9]); (0x01DC, [0x01DB]);
    (0x01DD, [0x018E]); (0x01DF, [0x01DE]); (0x01E1, [0x01E0]); (0x01E3, [0x01E2]);
    (0x01E5, [0x01E4]); (0x01E7, [0x01E6]); (0x01E9, [0x01E8]); (0x01EB, [0x01EA]);
    (0x01ED, [0x01EC]); (0x01EF, [0x01EE]); (0x01F0, [0x004A; 0x030C]); (0x01F2, [0x01F1]);
    (0x01F3, [0x01F1]); (0x01F5, [0x01F4]); (0x01F9, [0x01F8]); (0x01FB, [0x01FA]);
    (0x01FD, [0x01FC]); (0x01FF, [0x01FE]); (0x0201, [0x0200]); (0x0203, [0x0202]);
    (0x0205, [0x0204]); (0x0207, [0x0206]); (0x0209, [0x0208]); (0x020B, [0x020A]);
    (0x020D, [0x020C]); (0x020F, [0x020E]); (0x0211, [0x0210]); (0x0213, [0x0212]);
    (0x0215, [0x0214]); (0x0217, [0x0216]); (0x0219, [0x0218]); (0x021B, [0x021A]);
    (0x021D, [0x021C]); (0x021F, [0x021E]); (0x0223, [0x0222]); (0x0225, [0x0224]);
    (0x0227, [0x0226]); (0x0229, [0x0228]); (0x022B, [0x022A]); (0x022D, [0x022C]);
    (0x022F, [0x022E]); (0x0231, [0x0230]); (0x0233, [0x0232]); (0x023C, [0x023B]);
    (0x023F, [0x2C7E]); (0x0240, [0x2C7F]); (0x0242, [0x0241]); (0x0247, [0x0246]);
    (0x0249, [0x0248]); (0x024B, [0x024A]); (0x024D, [0x024C]); (0x024F, [0x024E]);
    (0x0250, [0x2C6F]); (0x0251, [0x2C6D]); (0x0252, [0x2C70]); (0x0253, [0x0181]);
    (0x0254, [0x0186]); (0x0256, [0x0189]); (0x0257, [0x018A]); (0x0259, [0x018F]);
    (0x025B, [0x0190]); (0x025C, [0xA7AB]); (0x0260, [0x0193]); (0x0261, [0xA7AC]);
    (0x0263, [0x0194]); (0x0265, [0xA78D]); (0x0266, [0xA7AA]); (0x0268, [0x0197]);
    (0x0269, [0x0196]); (0x026A, [0xA7AE]); (0x026B, [0x2C62]); (0x026C, [0xA7AD]);
    (0x026F, [0x019C]); (0x0271, [0x2C6E]); (0x0272, [0x019D]); (0x0275, [0x019F]);
    (0x027D, [0x2C64]); (0x0280, [0x01A6]); (0x0282, [0xA7C5]); (0x0283, [0x01A9]);
    (0x0287, [0xA7B1]); (0x0288, [0x01AE]); (0x0289, [0x0244]); (0x028A, [0x01B1]);
    (0x028B, [0x01B2]); (0x028C, [0x0245]); (0x0292, [0x01B7]); (0x029D, [0xA7B2]);
    (0x029E, [0xA7B0]); (0x0345, [0x0399]); (0x0371, [0x0370]); (0x0373, [0x0372]);
    (0x0377, [0x0376]); (0x037B, [0x03FD]); (0x037C, [0x03FE]); (0x037D, [0x03FF]);
    (0x0390, [0x0399; 0x0308; 0x0301]); (0x03AC, [0x0386]); (0x03AD, [0x0388]);
    (0x03AE, [0x0389]); (0x03AF, [0x038A]); (0x03B0, [0x03A5; 0x0308; 0x0301]);
    (0x03B1, [0x0391]); (0x03B2, [0x0392]); (0x03B3, [0x0393]); (0x03B4, [0x0394]);
    (0x03B5, [0x0395]); (0x03B6, [0x0396]); (0x03B7, [0x0397]); (0x03B8, [0x0398]);
    (0x03B9, [0x0399]); (0x03BA, [0x039A]); (0x03BB, [0x039B]); (0x03BC, [0x039C]);
    (0x03BD, [0x039D]); (0x03BE, [0x039E]); (0x03BF, [0x039F]); (0x03C0, [0x03A0]);
    (0x03C1, [0x03A1]); (0x03C2, [0x03A3]); (0x03C3, [0x03A3]); (0x03C4, [0x03A4]);
    (0x03C5, [0x03A5]); (0x03C6, [0x03A6]); (0x03C7, [0x03A7]); (0x03C8, [0x03A8]);
    (0x03C9, [0x03A9]); (0x03CA, [0x03AA]); (0x03CB, [0x03AB]); (0x03CC, [0x038C]);
    (0x03CD, [0x038E]); (0x03CE, [0x038F]); (0x03D0, [0x0392]); (0x03D1, [0x0398]);
    (0x03D5, [0x03A6]); (0x03D6, [0x03A0]); (0x03D7, [0x03CF]); (0x03D9, [0x03D8]);
    (0x03DB, [0x03DA]); (0x03DD, [0x03DC]); (0x03DF, [0x03DE]); (0x03E1, [0x03E0]);
    (0x03E3, [0x03E2]); (0x03E5, [0x03E4]); (0x03E7, [0x03E6]); (0x03E9, [0x03E8]);
    (0x03EB, [0x03EA]); (0x03ED, [0x03EC]); (0x03EF, [0x03EE]); (0x03F0, [0x039A]);
    (0x03F1, [0x03A1]); (0x03F2, [0x03F9]); (0x03F3, [0x037F]); (0x03F5, [0x0395]);
    (0x03F8, [0x03F7]); (0x03FB, [0x03FA]); (0x0430, [0x0410]); (0x0431, [0x0411]);
    (0x0432, [0x0412]); (0x0433, [0x0413]); (0x0434, [0x0414]); (0x0435, [0x0415]);
    (0x0436, [0x0416]); (0x0437, [0x0417]); (0x0438, [0x0418]); (0x0439, [0x0419]);
    (0x043A, [0x041A]); (0x043B, [0x041B]); (0x043C, [0x041C]); (0x043D, [0x041D]);
    (0x043E, [0x041E]); (0x043F, [0x041F]); (0x0440, [0x0420]); (0x0441, [0x0421]);
    (0x0442, [0x0422]); (0x0443, [0x0423]); (0x0444, [0x0424]); (0x0445, [0x0425]);
    (0x0446, [0x0426]); (0x0447, [0x0427]); (0x0448, [0x0428]); (0x0449, [0x0429]);
    (0x044A, [0x042A]); (0x044B, [0x042B]); (0x044C, [0x042C]); (0x044D, [0x042D]);
    (0x044E, [0x042E]); (0x044F, [0x042F]); (0x0450, [0x0400]); (0x0451, [0x0401]);
    (0x0452, [0x0402]); (0x0453, [0x0403]); (0x0454, [0x0404]); (0x0455, [0x0405]);
    (0x0456, [0x0406]); (0x0457, [0x0407]); (0x0458, [0x0408]); (0x0459, [0x0409]);
    (0x045A, [0x040A]); (0x045B, [0x040B]); (0x045C, [0x040C]); (0x045D, [0x040D]);
    (0x045E, [0x040E]); (0x045F, [0x040F]); (0x0461, [0x0460]); (0x0463, [0x0462]);
    (0x0465, [0x0464]); (0x0467, [0x0466]); (0x0469, [0x0468]); (0x046B, [0x046A]);
    (0x046D, [0x046C]); (0x046F, [0x046E]); (0x0471, [0x0470]); (0x0473, [0x0472]);
    (0x0475, [0x0474]); (0x0477, [0x0476]); (0x0479, [0x0478]); (0x047B, [0x047A]);
    (0x047D, [0x047C]); (0x047F, [0x047E]); (0x0481, [0x0480]); (0x048B, [0x048A]);
    (0x048D, [0x048C]); (0x048F, [0x048E]); (0x0491, [0x0490]); (0x0493, [0x0492]);
    (0x0495, [0x0494]); (0x0497, [0x0496]); (0x0499, [0x0498]); (0x049B, [0x049A]);
    (0x049D, [0x049C]); (0x049F, [0x049E]); (0x04A1, [0x04A0]); (0x04A3, [0x04A2]);
    (0x04A5, [0x04A4]); (0x04A7, [0x04A6]); (0x04A9, [0x04A8]); (0x04AB, [0x04AA]);
    (0x04AD, [0x04AC]); (0x04AF, [0x04AE]); (0x04B1, [0x04B0]); (0x04B3, [0x04B2]);
    (0x04B5, [0x04B4]); (0x04B7, [0x04B6]); (0x04B9, [0x04B8]); (0x04BB, [0x04BA]);
    (0x04BD, [0x04BC]); (0x04BF, [0x04BE]); (0x04C2, [0x04C1]); (0x04C4, [0x04C3]);
    (0x04C6, [0x04C5]); (0x04C8, [0x04C7]); (0x04CA, [0x04C9]); (0x04CC, [0x04CB]);
    (0x04CE, [0x04CD]); (0x04CF, [0x04C0]); (0x04D1, [0x04D0]); (0x04D3, [0x04D2]);
    (0x04D5, [0x04D4]); (0x04D7, [0x04D6]); (0x04D9, [0x04D8]); (0x04DB, [0x04DA]);
    (0x04DD, [0x04DC]); (0x04DF, [0x04DE]); (0x04E1, [0x04E0]); (0x04E3, [0x04E2]);
    (0x04E5, [0x04E4]); (0x04E7, [0x04E6]); (0x04E9, [0x04E8]); (0x04EB, [0x04EA]);
    (0x04ED, [0x04EC]); (0x04EF, [0x04EE]); (0x04F1, [0x04F0]); (0x04F3, [0x04F2]);
    (0x04F5, [0x04F4]); (0x04F7, [0x04F6]); (0x04F9, [0x04F8]); (0x04FB, [0x04FA]);
    (0x04FD, [0x04FC]); (0x04FF, [0x04FE]); (0x0501, [0x0500]); (0x0503, [0x0502]);
    (0x0505, [0x0504]); (0x0507, [0x0506]); (0x0509, [0x0508]); (0x050B, [0x050A]);
    (0x050D, [0x050C]); (0x050F, [0x050E]); (0x0511, [0x0510]); (0x0513, [0x0512]);
    (0x0515, [0x0514]); (0x0517, [0x0516]); (0x0519, [0x0518]); (0x051B, [0x051A]);
    (0x051D, [0x051C]); (0x051F, [0x051E]); (0x0521, [0x0520]); (0x0523, [0x0522]);
    (0x0525, [0x0524]); (0x0527, [0x0526]); (0x0529, [0x0528]); (0x052B, [0x052A]);
    (0x052D, [0x052C]); (0x052F, [0x052E]); (0x0561, [0x0531]); (0x0562, [0x0532]);
    (0x0563, [0x0533]); (0x0564, [0x0534]); (0x0565, [0x0535]); (0x0566, [0x0536]);
    (0x0567, [0x0537]); (0x0568, [0x0538]); (0x0569, [0x0539]); (0x056A, [0x053A]);
    (0x056B, [0x053B]); (0x056C, [0x053C]); (0x056D, [0x053D]); (0x056E, [0x053E]);
    (0x056F, [0x053F]); (0x0570, [0x0540]); (0x0571, [0x0541]); (0x0572, [0x0542]);
    (0x0573, [0x0543]); (0x0574, [0x0544]); (0x0575, [0x0545]); (0x0576, [0x0546]);
    (0x0577, [0x0547]); (0x0578, [0x0548]); (0x0579, [0x0549]); (0x057A, [0x054A]);
    (0x057B, [0x054B]); (0x057C, [0x054C]); (0x057D, [0x054D]); (0x057E, [0x054E]);
    (0x057F, [0x054F]); (0x0580, [0x0550]); (0x0581, [0x0551]); (0x0582, [0x0552]);
    (0x0583, [0x0553]); (0x0584, [0x0554]); (0x0585, [0x0555]); (0x0586, [0x0556]);
    (0x0587, [0x0535; 0x0552]); (0x10D0, [0x1C90]); (0x10D1, [0x1C91]); (0x10D2, [0x1C92]);
    (0x10D3, [0x1C93]); (0x10D4, [0x1C94]); (0x10D5, [0x1C95]); (0x10D6, [0x1C96]);
    (0x10D7, [0x1C97]); (0x10D8, [0x1C98]); (0x10D9, [0x1C99]); (0x10DA, [0x1C9A]);
    (0x10DB, [0x1C9B]); (0x10DC, [0x1C9C]); (0x10DD, [0x1C9D]); (0x10DE, [0x1C9E]);
    (0x10DF, [0x1C9F]); (0x10E0, [0x1CA0]); (0x10E1, [0x1CA1]); (0x10E2, [0x1CA2]);
    (0x10E3, [0x1CA3]); (0x10E4, [0x1CA4]); (0x10E5, [0x1CA5]); (0x10E6, [0x1CA6]);
    (0x10E7, [0x1CA7]); (0x10E8, [0x1CA8]); (0x10E9, [0x1CA9]); (0x10EA, [0x1CAA]);
    (0x10EB, [0x1CAB]); (0x10EC, [0x1CAC]); (0x10ED, [0x1CAD]); (0x10EE, [0x1CAE]);
    (0x10EF, [0x1CAF]); (0x10F0, [0x1CB0]); (0x10F1, [0x1CB1]); (0x10F2, [0x1CB2]);
    (0x10F3, [0x1CB3]); (0x10F4, [0x1CB4]); (0x10F5, [0x1CB5]); (0x10F6, [0x1CB6]);
    (0x10F7, [0x1CB7]); (0x10F8, [0x1CB8]); (0x10F9, [0x1CB9]); (0x10FA, [0x1CBA]);
    (0x10FD, [0x1CBD]); (0x10FE, [0x1CBE]); (0x10FF, [0x1CBF]); (0x13F8, [0x13F0]);
    (0x13F9, [0x13F1]); (0x13FA, [0x13F2]); (0x13FB, [0x13F3]); (0x13FC, [0x13F4]);
    (0x13FD, [0x13F5]); (0x1C80, [0x0412]); (0x1C81, [0x0414]); (0x1C82, [0x041E]);
    (0x1C83, [0x0421]); (0x1C84, [0x0422]); (0x1C85, [0x0422]); (0x1C86, [0x042A]);
    (0x1C87, [0x0462]); (0x1C88, [0xA64A]); (0x1D79, [0xA77D]); (0x1D7D, [0x2C63]);
    (0x1D8E, [0xA7C6]); (0x1E01, [0x1E00]); (0x1E03, [0x1E02]); (0x1E05, [0x1E04]);
    (0x1E07, [0x1E06]); (0x1E09, [0x1E08]); (0x1E0B, [0x1E0A]); (0x1E0D, [0x1E0C]);
    (0x1E0F, [0x1E0E]); (0x1E11, [0x1E10]); (0x1E13, [0x1E12]); (0x1E15, [0x1E14]);
    (0x1E17, [0x1E16]); (0x1E19, [0x1E18]); (0x1E1B, [0x1E1A]); (0x1E1D, [0x1E1C]);
    (0x1E1F, [0x1E1E]); (0x1E21, [0x1E20]); (0x1E23, [0x1E22]); (0x1E25, [0x1E24]);
    (0x1E27, [0x1E26]); (0x1E29, [0x1E28]); (0x1E2B, [0x1E2A]); (0x1E2D, [0x1E2C]);
    (0x1E2F, [0x1E2E]); (0x1E31, [0x1E30]); (0x1E33, [0x1E32]); (0x1E35, [0x1E34]);
    (0x1E37, [0x1E36]); (0x1E39, [0x1E38]); (0x1E3B, [0x1E3A]); (0x1E3D, [0x1E3C]);
    (0x1E3F, [0x1E3E]); (0x1E41, [0x1E40]); (0x1E43, [0x1E42]); (0x1E45, [0x1E44]);
    (0x1E47, [0x1E46]); (0x1E49, [0x1E48]); (0x1E4B, [0x1E4A]); (0x1E4D, [0x1E4C]);
    (0x1E4F, [0x1E4E]); (0x1E51, [0x1E50]); (0x1E53, [0x1E52]); (0x1E55, [0x1E54]);
    (0x1E57, [0x1E56]); (0x1E59, [0x1E58]); (0x1E5B, [0x1E5A]); (0x1E5D, [0x1E5C]);
    (0x1E5F, [0x1E5E]); (0x1E61, [0x1E60]); (0x1E63, [0x1E62]); (0x1E65, [0x1E64]);
    (0x1E67, [0x1E66]); (0x1E69, [0x1E68]); (0x1E6B, [0x1E6A]); (0x1E6D, [0x1E6C]);
    (0x1E6F, [0x1E6E]); (0x1E71, [0x1E70]); (0x1E73, [0x1E72]); (0x1E75, [0x1E74]);
    (0x1E77, [0x1E76]); (0x1E79, [0x1E78]); (0x1E7B, [0x1E7A]); (0x1E7D, [0x1E7C]);
    (0x1E7F, [0x1E7E]); (0x1E81, [0x1E80]); (0x1E83, [0x1E82]); (0x1E85, [0x1E84]);
    (0x1E87, [0x1E86]); (0x1E89, [0x1E88]); (0x1E8B, [0x1E8A]); (0x1E8D, [0x1E8C]);
    (0x1E8F, [0x1E8E]); (0x1E91, [0x1E90]); (0x1E93, [0x1E92]); (0x1E95, [0x1E94]);
    (0x1E96, [0x0048; 0x0331]); (0x1E97, [0x0054; 0x0308]); (0x1E98, [0x0057; 0x030A]);
    (0x1E99, [0x0059; 0x030A]); (0x1E9A, [0x0041; 0x02BE]); (0x1E9B, [0x1E60]);
    (0x1EA1, [0x1EA0]); (0x1EA3, [0x1EA2]); (0x1EA5, [0x1EA4]); (0x1EA7, [0x1EA6]);
    (0x1EA9, [0x1EA8]); (0x1EAB, [0x1EAA]); (0x1EAD, [0x1EAC]); (0x1EAF, [0x1EAE]);
    (0x1EB1, [0x1EB0]); (0x1EB3, [0x1EB2]); (0x1EB5, [0x1EB4]); (0x1EB7, [0x1EB6]);
    (0x1EB9, [0x1EB8]); (0x1EBB, [0x1EBA]); (0x1EBD, [0x1EBC]); (0x1EBF, [0x1EBE]);
    (0x1EC1, [0x1EC0]); (0x1EC3, [0x1EC2]); (0x1EC5, [0x1EC4]); (0x1EC7, [0x1EC6]);
    (0x1EC9, [0x1EC8]); (0x1ECB, [0x1ECA]); (0x1ECD, [0x1ECC]); (0x1ECF, [0x1ECE]);
    (0x1ED1, [0x1ED0]); (0x1ED3, [0x1ED2]); (0x1ED5, [0x1ED4]); (0x1ED7, [0x1ED6]);
    (0x1ED9, [0x1ED8]); (0x1EDB, [0x1EDA]); (0x1EDD, [0x1EDC]); (0x1EDF, [0x1EDE]);
    (0x1EE1, [0x1EE0]); (0x1EE3, [0x1EE2]); (0x1EE5, [0x1EE4]); (0x1EE7, [0x1EE6]);
    (0x1EE9, [0x1EE8]); (0x1EEB, [0x1EEA]); (0x1EED, [0x1EEC]); (0x1EEF, [0x1EEE]);
    (0x1EF1, [0x1EF0]); (0x1EF3, [0x1EF2]); (0x1EF5, [0x1EF4]); (0x1EF7, [0x1EF6]);
    (0x1EF9, [0x1EF8]); (0x1EFB, [0x1EFA]); (0x1EFD, [0x1EFC]); (0x1EFF, [0x1EFE]);
    (0x1F00, [0x1F08]); (0x1F01, [0x1F09]); (0x1F02, [0x1F0A]); (0x1F03, [0x1F0B]);
    (0x1F04, [0x1F0C]); (0x1F05, [0x1F0D]); (0x1F06, [0x1F0E]); (0x1F07, [0x1F0F]);
    (0x1F10, [0x1F18]); (0x1F11, [0x1F19]); (0x1F12, [0x1F1A]); (0x1F13, [0x1F1B]);
    (0x1F14, [0x1F1C]); (0x1F15, [0x1F1D]); (0x1F20, [0x1F28]); (0x1F21, [0x1F29]);
    (0x1F22, [0x1F2A]); (0x1F23, [0x1F2B]); (0x1F24, [0x1F2C]); (0x1F25, [0x1F2D]);
    (0x1F26, [0x1F2E]); (0x1F27, [0x1F2F]); (0x1F30, [0x1F38]); (0x1F31, [0x1F39]);
    (0x1F32, [0x1F3A]); (0x1F33, [0x1F3B]); (0x1F34, [0x1F3C]); (0x1F35, [0x1F3D]);
    (0x1F36, [0x1F3E]); (0x1F37, [0x1F3F]); (0x1F40, [0x1F48]); (0x1F41, [0x1F49]);
    (0x1F42, [0x1F4A]); (0x1F43, [0x1F4B]); (0x1F44, [0x1F4C]); (0x1F45, [0x1F4D]);
    (0x1F50, [0x03A5; 0x0313]); (0x1F51, [0x1F59]); (0x1F52, [0x03A5; 0x0313; 0x0300]);
    (0x1F53, [0x1F5B]); (0x1F54, [0x03A5; 0x0313; 0x0301]); (0x1F55, [0x1F5D]);
    (0x1F56, [0x03A5; 0x0313; 0x0342]); (0x1F57, [0x1F5F]); (0x1F60, [0x1F68]);
    (0x1F61, [0x1F69]); (0x1F62, [0x1F6A]); (0x1F63, [0x1F6B]); (0x1F64, [0x1F6C]);
    (0x1F65, [0x1F6D]); (0x1F66, [0x1F6E]); (0x1F67, [0x1F6F]); (0x1F70, [0x1FBA]);
    (0x1F71, [0x1FBB]); (0x1F72, [0x1FC8]); (0x1F73, [0x1FC9]); (0x1F74, [0x1FCA]);
    (0x1F75, [0x1FCB]); (0x1F76, [0x1FDA]); (0x1F77, [0x1FDB]); (0x1F78, [0x1FF8]);
    (0x1F79, [0x1FF9]); (0x1F7A, [0x1FEA]); (0x1F7B, [0x1FEB]); (0x1F7C, [0x1FFA]);
    (0x1F7D, [0x1FFB]); (0x1F80, [0x1F08; 0x0399]); (0x1F81, [0x1F09; 0x0399]);
    (0x1F82, [0x1F0A; 0x0399]); (0x1F83, [0x1F0B; 0x0399]); (0x1F84, [0x1F0C; 0x0399]);
    (0x1F85, [0x1F0D; 0x0399]); (0x1F86, [0x1F0E; 0x0399]); (0x1F87, [0x1F0F; 0x0399]);
    (0x1F88, [0x1F08; 0x0399]); (0x1F89, [0x1F09; 0x0399]); (0x1F8A, [0x1F0A; 0x0399]);
    (0x1F8B, [0x1F0B; 0x0399]); (0x1F8C, [0x1F0C; 0x0399]); (0x1F8D, [0x1F0D; 0x0399]);
    (0x1F8E, [0x1F0E; 0x0399]); (0x1F8F, [0x1F0F; 0x0399]); (0x1F90, [0x1F28; 0x0399]);
    (0x1F91, [0x1F29; 0x0399]); (0x1F92, [0x1F2A; 0x0399]); (0x1F93, [0x1F2B; 0x0399]);
    (0x1F94, [0x1F2C; 0x0399]); (0x1F95, [0x1F2D; 0x0399]); (0x1F96, [0x1F2E; 0x0399]);
    (0x1F97, [0x1F2F; 0x0399]); (0x1F98, [0x1F28; 0x0399]); (0x1F99, [0x1F29; 0x0399]);
    (0x1F9A, [0x1F2A; 0x0399]); (0x1F9B, [0x1F2B; 0x0399]); (0x1F9C, [0x1F2C; 0x0399]);
    (0x1F9D, [0x1F2D; 0x0399]); (0x1F9E, [0x1F2E; 0x0399]); (0x1F9F, [0x1F2F; 0x0399]);
    (0x1FA0, [0x1F68; 0x0399]); (0x1FA1, [0x1F69; 0x0399]); (0x1FA2, [0x1F6A; 0x0399]);
    (0x1FA3, [0x1F6B; 0x0399]); (0x1FA4, [0x1F6C; 0x0399]); (0x1FA5, [0x1F6D; 0x0399]);
    (0x1FA6, [0x1F6E; 0x0399]); (0x1FA7, [0x1F6F; 0x0399]); (0x1FA8, [0x1F68; 0x0399]);
    (0x1FA9, [0x1F69; 0x0399]); (0x1FAA, [0x1F6A; 0x0399]); (0x1FAB, [0x1F6B; 0x0399]);
    (0x1FAC, [0x1F6C; 0x0399]); (0x1FAD, [0x1F6D; 0x0399]); (0x1FAE, [0x1F6E; 0x0399]);
    (0x1FAF, [0x1F6F; 0x0399]); (0x1FB0, [0x1FB8]); (0x1FB1, [0x1FB9]);
    (0x1FB2, [0x1FBA; 0x0399]); (0x1FB3, [0x0391; 0x0399]); (0x1FB4, [0x0386; 0x0399]);
    (0x1FB6, [0x0391; 0x0342]); (0x1FB7, [0x0391; 0x0342; 0x0399]); (0x1FBC, [0x0391; 0x0399]);
    (0x1FBE, [0x0399]); (0x1FC2, [0x1FCA; 0x0399]); (0x1FC3, [0x0397; 0x0399]);
    (0x1FC4, [0x0389; 0x0399]); (0x1FC6, [0x0397; 0x0342]); (0x1FC7, [0x0397; 0x0342; 0x0399]);
    (0x1FCC, [0x0397; 0x0399]); (0x1FD0, [0x1FD8]); (0x1FD1, [0x1FD9]);
    (0x1FD2, [0x0399; 0x0308; 0x0300]); (0x1FD3, [0x0399; 0x0308; 0x0301]);
    (0x1FD6, [0x0399; 0x0342]); (0x1FD7, [0x0399; 0x0308; 0x0342]); (0x1FE0, [0x1FE8]);
    (0x1FE1, [0x1FE9]); (0x1FE2, [0x03A5; 0x0308; 0x0300]); (0x1FE3, [0x03A5; 0x0308; 0x0301]);
    (0x1FE4, [0x03A1; 0x0313]); (0x1FE5, [0x1FEC]); (0x1FE6, [0x03A5; 0x0342]);
    (0x1FE7, [0x03A5; 0x0308; 0x0342]); (0x1FF2, [0x1FFA; 0x0399]); (0x1FF3, [0x03A9; 0x0399]);
    (0x1FF4, [0x038F; 0x0399]); (0x1FF6, [0x03A9; 0x0342]); (0x1FF7, [0x03A9; 0x0342; 0x0399]);
    (0x1FFC, [0x03A9; 0x0399]); (0x214E, [0x2132]); (0x2170, [0x2160]); (0x2171, [0x2161]);
    (0x2172, [0x2162]); (0x2173, [0x2163]); (0x2174, [0x2164]); (0x2175, [0x2165]);
    (0x2176, [0x2166]); (0x2177, [0x2167]); (0x2178, [0x2168]); (0x2179, [0x2169]);
    (0x217A, [0x216A]); (0x217B, [0x216B]); (0x217C, [0x216C]); (0x217D, [0x216D]);
    (0x217E, [0x216E]); (0x217F, [0x216F]); (0x2184, [0x2183]); (0x24D0, [0x24B6]);
    (0x24D1, [0x24B7]); (0x24D2, [0x24B8]); (0x24D3, [0x24B9]); (0x24D4, [0x24BA]);
    (0x24D5, [0x24BB]); (0x24D6, [0x24BC]); (0x24D7, [0x24BD]); (0x24D8, [0x24BE]);
    (0x24D9, [0x24BF]); (0x24DA, [0x24C0]); (0x24DB, [0x24C1]); (0x24DC, [0x24C2]);
    (0x24DD, [0x24C3]); (0x24DE, [0x24C4]); (0x24DF, [0x24C5]); (0x24E0, [0x24C6]);
    (0x24E1, [0x24C7]); (0x24E2, [0x24C8]); (0x24E3, [0x24C9]); (0x24E4, [0x24CA]);
    (0x24E5, [0x24CB]); (0x24E6, [0x24CC]); (0x24E7, [0x24CD]); (0x24E8, [0x24CE]);
    (0x24E9, [0x24CF]); (0x2C30, [0x2C00]); (0x2C31, [0x2C01]); (0x2C32, [0x2C02]);
    (0x2C33, [0x2C03]); (0x2C34, [0x2C04]); (0x2C35, [0x2C05]); (0x2C36, [0x2C06]);
    (0x2C37, [0x2C07]); (0x2C38, [0x2C08]); (0x2C39, [0x2C09]); (0x2C3A, [0x2C0A]);
    (0x2C3B, [0x2C0B]); (0x2C3C, [0x2C0C]); (0x2C3D, [0x2C0D]); (0x2C3E, [0x2C0E]);
    (0x2C3F, [0x2C0F]); (0x2C40, [0x2C10]); (0x2C41, [0x2C11]); (0x2C42, [0x2C12]);
    (0x2C43, [0x2C13]); (0x2C44, [0x2C14]); (0x2C45, [0x2C15]); (0x2C46, [0x2C16]);
    (0x2C47, [0x2C17]); (0x2C48, [0x2C18]); (0x2C49, [0x2C19]); (0x2C4A, [0x2C1A]);
    (0x2C4B, [0x2C1B]); (0x2C4C, [0x2C1C]); (0x2C4D, [0x2C1D]); (0x2C4E, [0x2C1E]);
    (0x2C4F, [0x2C1F]); (0x2C50, [0x2C20]); (0x2C51, [0x2C21]); (0x2C52, [0x2C22]);
    (0x2C53, [0x2C23]); (0x2C54, [0x2C24]); (0x2C55, [0x2C25]); (0x2C56, [0x2C26]);
    (0x2C57, [0x2C27]); (0x2C58, [0x2C28]); (0x2C59, [0x2C29]); (0x2C5A, [0x2C2A]);
    (0x2C5B, [0x2C2B]); (0x2C5C, [0x2C2C]); (0x2C5D, [0x2C2D]); (0x2C5E, [0x2C2E]);
    (0x2C5F, [0x2C2F]); (0x2C61, [0x2C60]); (0x2C65, [0x023A]); (0x2C66, [0x023E]);
    (0x2C68, [0x2C67]); (0x2C6A, [0x2C69]); (0x2C6C, [0x2C6B]); (0x2C73, [0x2C72]);
    (0x2C76, [0x2C75]); (0x2C81, [0x2C80]); (0x2C83, [0x2C82]); (0x2C85, [0x2C84]);
    (0x2C87, [0x2C86]); (0x2C89, [0x2C88]); (0x2C8B, [0x2C8A]); (0x2C8D, [0x2C8C]);
    (0x2C8F, [0x2C8E]); (0x2C91, [0x2C90]); (0x2C93, [0x2C92]); (0x2C95, [0x2C94]);
    (0x2C97, [0x2C96]); (0x2C99, [0x2C98]); (0x2C9B, [0x2C9A]); (0x2C9D, [0x2C9C]);
    (0x2C9F, [0x2C9E]); (0x2CA1, [0x2CA0]); (0x2CA3, [0x2CA2]); (0x2CA5, [0x2CA4]);
    (0x2CA7, [0x2CA6]); (0x2CA9, [0x2CA8]); (0x2CAB, [0x2CAA]); (0x2CAD, [0x2CAC]);
    (0x2CAF, [0x2CAE]); (0x2CB1, [0x2CB0]); (0x2CB3, [0x2CB2]); (0x2CB5, [0x2CB4]);
    (0x2CB7, [0x2CB6]); (0x2CB9, [0x2CB8]); (0x2CBB, [0x2CBA]); (0x2CBD, [0x2CBC]);
    (0x2CBF, [0x2CBE]); (0x2CC1, [0x2CC0]); (0x2CC3, [0x2CC2]); (0x2CC5, [0x2CC4]);
    (0x2CC7, [0x2CC6]); (0x2CC9, [0x2CC8]); (0x2CCB, [0x2CCA]); (0x2CCD, [0x2CCC]);
    (0x2CCF, [0x2CCE]); (0x2CD1, [0x2CD0]); (0x2CD3, [0x2CD2]); (0x2CD5, [0x2CD4]);
    (0x2CD7, [0x2CD6]); (0x2CD9, [0x2CD8]); (0x2CDB, [0x2CDA]); (0x2CDD, [0x2CDC]);
    (0x2CDF, [0x2CDE]); (0x2CE1, [0x2CE0]); (0x2CE3, [0x2CE2]); (0x2CEC, [0x2CEB]);
    (0x2CEE, [0x2CED]); (0x2CF3, [0x2CF2]); (0x2D00, [0x10A0]); (0x2D01, [0x10A1]);
    (0x2D02, [0x10A2]); (0x2D03, [0x10A3]); (0x2D04, [0x10A4]); (0x2D05, [0x10A5]);
    (0x2D06, [0x10A6]); (0x2D07, [0x10A7]); (0x2D08, [0x10A8]); (0x2D09, [0x10A9]);
    (0x2D0A, [0x10AA]); (0x2D0B, [0x10AB]); (0x2D0C, [0x10AC]); (0x2D0D, [0x10AD]);
    (0x2D0E, [0x10AE]); (0x2D0F, [0x10AF]); (0x2D10, [0x10B0]); (0x2D11, [0x10B1]);
    (0x2D12, [0x10B2]); (0x2D13, [0x10B3]); (0x2D14, [0x10B4]); (0x2D15, [0x10B5]);
    (0x2D16, [0x10B6]); (0x2D17, [0x10B7]); (0x2D18, [0x10B8]); (0x2D19, [0x10B9]);
    (0x2D1A, [0x10BA]); (0x2D1B, [0x10BB]); (0x2D1C, [0x10BC]); (0x2D1D, [0x10BD]);
    (0x2D1E, [0x10BE]); (0x2D1F, [0x10BF]); (0x2D20, [0x10C0]); (0x2D21, [0x10C1]);
    (0x2D22, [0x10C2]); (0x2D23, [0x10C3]); (0x2D24, [0x10C4]); (0x2D25, [0x10C5]);
    (0x2D27, [0x10C7]); (0x2D2D, [0x10CD]); (0xA641, [0xA640]); (0xA643, [0xA642]);
    (0xA645, [0xA644]); (0xA647, [0xA646]); (0xA649, [0xA648]); (0xA64B, [0xA64A]);
    (0xA64D, [0xA64C]); (0xA64F, [0xA64E]); (0xA651, [0xA650]); (0xA653, [0xA652]);
    (0xA655, [0xA654]); (0xA657, [0xA656]); (0xA659, [0xA658]); (0xA65B, [0xA65A]);
    (0xA65D, [0xA65C]); (0xA65F, [0xA65E]); (0xA661, [0xA660]); (0xA663, [0xA662]);
    (0xA665, [0xA664]); (0xA667, [0xA666]); (0xA669, [0xA668]); (0xA66B, [0xA66A]);
    (0xA66D, [0xA66C]); (0xA681, [0xA680]); (0xA683, [0xA682]); (0xA685, [0xA684]);
    (0xA687, [0xA686]); (0xA689, [0xA688]); (0xA68B, [0xA68A]); (0xA68D, [0xA68C]);
    (0xA68F, [0xA68E]); (0xA691, [0xA690]); (0xA693, [0xA692]); (0xA695, [0xA694]);
    (0xA697, [0xA696]); (0xA699, [0xA698]); (0xA69B, [0xA69A]); (0xA723, [0xA722]);
    (0xA725, [0xA724]); (0xA727, [0xA726]); (0xA729, [0xA728]); (0xA72B, [0xA72A]);
    (0xA72D, [0xA72C]); (0xA72F, [0xA72E]); (0xA733, [0xA732]); (0xA735, [0xA734]);
    (0xA737, [0xA736]); (0xA739, [0xA738]); (0xA73B, [0xA73A]); (0xA73D, [0xA73C]);
    (0xA73F, [0xA73E]); (0xA741, [0xA740]); (0xA743, [0xA742]); (0xA745, [0xA744]);
    (0xA747, [0xA746]); (0xA749, [0xA748]); (0xA74B, [0xA74A]); (0xA74D, [0xA74C]);
    (0xA74F, [0xA74E]); (0xA751, [0xA750]); (0xA753, [0xA752]); (0xA755, [0xA754]);
    (0xA757, [0xA756]); (0xA759, [0xA758]); (0xA75B, [0xA75A]); (0xA75D, [0xA75C]);
    (0xA75F, [0xA75E]); (0xA761, [0xA760]); (0xA763, [0xA762]); (0xA765, [0xA764]);
    (0xA767, [0xA766]); (0xA769, [0xA768]); (0xA76B, [0xA76A]); (0xA76D, [0xA76C]);
    (0xA76F, [0xA76E]); (0xA77A, [0xA779]); (0xA77C, [0xA77B]); (0xA77F, [0xA77E]);
    (0xA781, [0xA780]); (0xA783, [0xA782]); (0xA785, [0xA784]); (0xA787, [0xA786]);
    (0xA78C, [0xA78B]); (0xA791, [0xA790]); (0xA793, [0xA792]); (0xA794, [0xA7C4]);
    (0xA797, [0xA796]); (0xA799, [0xA798]); (0xA79B, [0xA79A]); (0xA79D, [0xA79C]);
    (0xA79F, [0xA79E]); (0xA7A1, [0xA7A0]); (0xA7A3, [0xA7A2]); (0xA7A5, [0xA7A4]);
    (0xA7A7, [0xA7A6]); (0xA7A9, [0xA7A8]); (0xA7B5, [0xA7B4]); (0xA7B7, [0xA7B6]);
    (0xA7B9, [0xA7B8]); (0xA7BB, [0xA7BA]); (0xA7BD, [0xA7BC]); (0xA7BF, [0xA7BE]);
    (0xA7C1, [0xA7C0]); (0xA7C3, [0xA7C2]); (0xA7C8, [0xA7C7]); (0xA7CA, [0xA7C9]);
    (0xA7D1, [0xA7D0]); (0xA7D7, [0xA7D6]); (0xA7D9, [0xA7D8]); (0xA7F6, [0xA7F5]);
    (0xAB53, [0xA7B3]); (0xAB70, [0x13A0]); (0xAB71, [0x13A1]); (0xAB72, [0x13A2]);
    (0xAB73, [0x13A3]); (0xAB74, [0x13A4]); (0xAB75, [0x13A5]); (0xAB76, [0x13A6]);
    (0xAB77, [0x13A7]); (0xAB78, [0x13A8]); (0xAB79, [0x13A9]); (0xAB7A, [0x13AA]);
    (0xAB7B, [0x13AB]); (0xAB7C, [0x13AC]); (0xAB7D, [0x13AD]); (0xAB7E, [0x13AE]);
    (0xAB7F, [0x13AF]); (0xAB80, [0x13B0]); (0xAB81, [0x13B1]); (0xAB82, [0x13B2]);
    (0xAB83, [0x13B3]); (0xAB84, [0x13B4]); (0xAB85, [0x13B5]); (0xAB86, [0x13B6]);
    (0xAB87, [0x13B7]); (0xAB88, [0x13B8]); (0xAB89, [0x13B9]); (0xAB8A, [0x13BA]);
    (0xAB8B, [0x13BB]); (0xAB8C, [0x13BC]); (0xAB8D, [0x13BD]); (0xAB8E, [0x13BE]);
    (0xAB8F, [0x13BF]); (0xAB90, [0x13C0]); (0xAB91, [0x13C1]); (0xAB92, [0x13C2]);
    (0xAB93, [0x13C3]); (0xAB94, [0x13C4]); (0xAB95, [0x13C5]); (0xAB96, [0x13C6]);
    (0xAB97, [0x13C7]); (0xAB98, [0x13C8]); (0xAB99, [0x13C9]); (0xAB9A, [0x13CA]);
    (0xAB9B, [0x13CB]); (0xAB9C, [0x13CC]); (0xAB9D, [0x13CD]); (0xAB9E, [0x13CE]);
    (0xAB9F, [0x13CF]); (0xABA0, [0x13D0]); (0xABA1, [0x13D1]); (0xABA2, [0x13D2]);
    (0xABA3, [0x13D3]); (0xABA4, [0x13D4]); (0xABA5, [0x13D5]); (0xABA6, [0x13D6]);
    (0xABA7, [0x13D7]); (0xABA8, [0x13D8]); (0xABA9, [0x13D9]); (0xABAA, [0x13DA]);
    (0xABAB, [0x13DB]); (0xABAC, [0x13DC]); (0xABAD, [0x13DD]); (0xABAE, [0x13DE]);
    (0xABAF, [0x13DF]); (0xABB0, [0x13E0]); (0xABB1, [0x13E1]); (0xABB2, [0x13E2]);
    (0xABB3, [0x13E3]); (0xABB4, [0x13E4]); (0xABB5, [0x13E5]); (0xABB6, [0x13E6]);
    (0xABB7, [0x13E7]); (0xABB8, [0x13E8]); (0xABB9, [0x13E9]); (0xABBA, [0x13EA]);
    (0xABBB, [0x13EB]); (0xABBC, [0x13EC]); (0xABBD, [0x13ED]); (0xABBE, [0x13EE]);
    (0xABBF, [0x13EF]); (0xFB00, [0x0046; 0x0046]); (0xFB01, [0x0046; 0x0049]);
    (0xFB02, [0x0046; 0x004C]); (0xFB03, [0x0046; 0x0046; 0x0049]);
    (0xFB04, [0x0046; 0x0046; 0x004C]); (0xFB05, [0x0053; 0x0054]); (0xFB06, [0x0053; 0x0054]);
    (0xFB13, [0x0544; 0x0546]); (0xFB14, [0x0544; 0x0535]); (0xFB15, [0x0544; 0x053B]);
    (0xFB16, [0x054E; 0x0546]); (0xFB17, [0x0544; 0x053D]); (0xFF41, [0xFF21]);
    (0xFF42, [0xFF22]); (0xFF43, [0xFF23]); (0xFF44, [0xFF24]); (0xFF45, [0xFF25]);
    (0xFF46, [0xFF26]); (0xFF47, [0xFF27]); (0xFF48, [0xFF28]); (0xFF49, [0xFF29]);
    (0xFF4A, [0xFF2A]); (0xFF4B, [0xFF2B]); (0xFF4C, [0xFF2C]); (0xFF4D, [0xFF2D]);
    (0xFF4E, [0xFF2E]); (0xFF4F, [0xFF2F]); (0xFF50, [0xFF30]); (0xFF51, [0xFF31]);
    (0xFF52, [0xFF32]); (0xFF53, [0xFF33]); (0xFF54, [0xFF34]); (0xFF55, [0xFF35]);
    (0xFF56, [0xFF36]); (0xFF57, [0xFF37]); (0xFF58, [0xFF38]); (0xFF59, [0xFF39]);
    (0xFF5A, [0xFF3A]); (0x10428, [0x10400]); (0x10429, [0x10401]); (0x1042A, [0x10402]);
    (0x1042B, [0x10403]); (0x1042C, [0x10404]); (0x1042D, [0x10405]); (0x1042E, [0x10406]);
    (0x1042F, [0x10407]); (0x10430, [0x10408]); (0x10431, [0x10409]); (0x10432, [0x1040A]);
    (0x10433, [0x1040B]); (0x10434, [0x1040C]); (0x10435, [0x1040D]); (0x10436, [0x1040E]);
    (0x10437, [0x1040F]); (0x10438, [0x10410]); (0x10439, [0x10411]); (0x1043A, [0x10412]);
    (0x1043B, [0x10413]); (0x1043C, [0x10414]); (0x1043D, [0x10415]); (0x1043E, [0x10416]);
    (0x1043F, [0x10417]); (0x10440, [0x10418]); (0x10441, [0x10419]); (0x10442, [0x1041A]);
    (0x10443, [0x1041B]); (0x10444, [0x1041C]); (0x10445, [0x1041D]); (0x10446, [0x1041E]);
    (0x10447, [0x1041F]); (0x10448, [0x10420]); (0x10449, [0x10421]); (0x1044A, [0x10422]);
    (0x1044B, [0x10423]); (0x1044C, [0x10424]); (0x1044D, [0x10425]); (0x1044E, [0x10426]);
    (0x1044F, [0x10427]); (0x104D8, [0x104B0]); (0x104D9, [0x104B1]); (0x104DA, [0x104B2]);
    (0x104DB, [0x104B3]); (0x104DC, [0x104B4]); (0x104DD, [0x104B5]); (0x104DE, [0x104B6]);
    (0x104DF, [0x104B7]); (0x104E0, [0x104B8]); (0x104E1, [0x104B9]); (0x104E2, [0x104BA]);
    (0x104E3, [0x104BB]); (0x104E4, [0x104BC]); (0x104E5, [0x104BD]); (0x104E6, [0x104BE]);
    (0x104E7, [0x104BF]); (0x104E8, [0x104C0]); (0x104E9, [0x104C1]); (0x104EA, [0x104C2]);
    (0x104EB, [0x104C3]); (0x104EC, [0x104C4]); (0x104ED, [0x104C5]); (0x104EE, [0x104C6]);
    (0x104EF, [0x104C7]); (0x104F0, [0x104C8]); (0x104F1, [0x104C9]); (0x104F2, [0x104CA]);
    (0x104F3, [0x104CB]); (0x104F4, [0x104CC]); (0x104F5, [0x104CD]); (0x104F6, [0x104CE]);
    (0x104F7, [0x104CF]); (0x104F8, [0x104D0]); (0x104F9, [0x104D1]); (0x104FA, [0x104D2]);
    (0x104FB, [0x104D3]); (0x10597, [0x10570]); (0x10598, [0x10571]); (0x10599, [0x10572]);
    (0x1059A, [0x10573]); (0x1059B, [0x10574]); (0x1059C, [0x10575]); (0x1059D, [0x10576]);
    (0x1059E, [0x10577]); (0x1059F, [0x10578]); (0x105A0, [0x10579]); (0x105A1, [0x1057A]);
    (0x105A3, [0x1057C]); (0x105A4, [0x1057D]); (0x105A5, [0x1057E]); (0x105A6, [0x1057F]);
    (0x105A7, [0x10580]); (0x105A8, [0x10581]); (0x105A9, [0x10582]); (0x105AA, [0x10583]);
    (0x105AB, [0x10584]); (0x105AC, [0x10585]); (0x105AD, [0x10586]); (0x105AE, [0x10587]);
    (0x105AF, [0x10588]); (0x105B0, [0x10589]); (0x105B1, [0x1058A]); (0x105B3, [0x1058C]);
    (0x105B4, [0x1058D]); (0x105B5, [0x1058E]); (0x105B6, [0x1058F]); (0x105B7, [0x10590]);
    (0x105B8, [0x10591]); (0x105B9, [0x10592]); (0x105BB, [0x10594]); (0x105BC, [0x10595]);
    (0x10CC0, [0x10C80]); (0x10CC1, [0x10C81]); (0x10CC2, [0x10C82]); (0x10CC3, [0x10C83]);
    (0x10CC4, [0x10C84]); (0x10CC5, [0x10C85]); (0x10CC6, [0x10C86]); (0x10CC7, [0x10C87]);
    (0x10CC8, [0x10C88]); (0x10CC9, [0x10C89]); (0x10CCA, [0x10C8A]); (0x10CCB, [0x10C8B]);
    (0x10CCC, [0x10C8C]); (0x10CCD, [0x10C8D]); (0x10CCE, [0x10C8E]); (0x10CCF, [0x10C8F]);
    (0x10CD0, [0x10C90]); (0x10CD1, [0x10C91]); (0x10CD2, [0x10C92]); (0x10CD3, [0x10C93]);
    (0x10CD4, [0x10C94]); (0x10CD5, [0x10C95]); (0x10CD6, [0x10C96]); (0x10CD7, [0x10C97]);
    (0x10CD8, [0x10C98]); (0x10CD9, [0x10C99]); (0x10CDA, [0x10C9A]); (0x10CDB, [0x10C9B]);
    (0x10CDC, [0x10C9C]); (0x10CDD, [0x10C9D]); (0x10CDE, [0x10C9E]); (0x10CDF, [0x10C9F]);
    (0x10CE0, [0x10CA0]); (0x10CE1, [0x10CA1]); (0x10CE2, [0x10CA2]); (0x10CE3, [0x10CA3]);
    (0x10CE4, [0x10CA4]); (0x10CE5, [0x10CA5]); (0x10CE6, [0x10CA6]); (0x10CE7, [0x10CA7]);
    (0x10CE8, [0x10CA8]); (0x10CE9, [0x10CA9]); (0x10CEA, [0x10CAA]); (0x10CEB, [0x10CAB]);
    (0x10CEC, [0x10CAC]); (0x10CED, [0x10CAD]); (0x10CEE, [0x10CAE]); (0x10CEF, [0x10CAF]);
    (0x10CF0, [0x10CB0]); (0x10CF1, [0x10CB1]); (0x10CF2, [0x10CB2]); (0x118C0, [0x118A0]);
    (0x118C1, [0x118A1]); (0x118C2, [0x118A2]); (0x118C3, [0x118A3]); (0x118C4, [0x118A4]);
    (0x118C5, [0x118A5]); (0x118C6, [0x118A6]); (0x118C7, [0x118A7]); (0x118C8, [0x118A8]);
    (0x118C9, [0x118A9]); (0x118CA, [0x118AA]); (0x118CB, [0x118AB]); (0x118CC, [0x118AC]);
    (0x118CD, [0x118AD]); (0x118CE, [0x118AE]); (0x118CF, [0x118AF]); (0x118D0, [0x118B0]);
    (0x118D1, [0x118B1]); (0x118D2, [0x118B2]); (0x118D3, [0x118B3]); (0x118D4, [0x118B4]);
    (0x118D5, [0x118B5]); (0x118D6, [0x118B6]); (0x118D7, [0x118B7]); (0x118D8, [0x118B8]);
    (0x118D9, [0x118B9]); (0x118DA, [0x118BA]); (0x118DB, [0x118BB]); (0x118DC, [0x118BC]);
    (0x118DD, [0x118BD]); (0x118DE, [0x118BE]); (0x118DF, [0x118BF]); (0x16E60, [0x16E40]);
    (0x16E61, [0x16E41]); (0x16E62, [0x16E42]); (0x16E63, [0x16E43]); (0x16E64, [0x16E44]);
    (0x16E65, [0x16E45]); (0x16E66, [0x16E46]); (0x16E67, [0x16E47]); (0x16E68, [0x16E48]);
    (0x16E69, [0x16E49]); (0x16E6A, [0x16E4A]); (0x16E6B, [0x16E4B]); (0x16E6C, [0x16E4C]);
    (0x16E6D, [0x16E4D]); (0x16E6E, [0x16E4E]); (0x16E6F, [0x16E4F]); (0x16E70, [0x16E50]);
    (0x16E71, [0x16E51]); (0x16E72, [0x16E52]); (0x16E73, [0x16E53]); (0x16E74, [0x16E54]);
    (0x16E75, [0x16E55]); (0x16E76, [0x16E56]); (0x16E77, [0x16E57]); (0x16E78, [0x16E58]);
    (0x16E79, [0x16E59]); (0x16E7A, [0x16E5A]); (0x16E7B, [0x16E5B]); (0x16E7C, [0x16E5C]);
    (0x16E7D, [0x16E5D]); (0x16E7E, [0x16E5E]); (0x16E7F, [0x16E5F]); (0x1E922, [0x1E900]);
    (0x1E923, [0x1E901]); (0x1E924, [0x1E902]); (0x1E925, [0x1E903]); (0x1E926, [0x1E904]);
    (0x1E927, [0x1E905]); (0x1E928, [0x1E906]); (0x1E929, [0x1E907]); (0x1E92A, [0x1E908]);
    (0x1E92B, [0x1E909]); (0x1E92C, [0x1E90A]); (0x1E92D, [0x1E90B]); (0x1E92E, [0x1E90C]);
    (0x1E92F, [0x1E90D]); (0x1E930, [0x1E90E]); (0x1E931, [0x1E90F]); (0x1E932, [0x1E910]);
    (0x1E933, [0x1E911]); (0x1E934, [0x1E912]); (0x1E935, [0x1E913]); (0x1E936, [0x1E914]);
    (0x1E937, [0x1E915]); (0x1E938, [0x1E916]); (0x1E939, [0x1E917]); (0x1E93A, [0x1E918]);
    (0x1E93B, [0x1E919]); (0x1E93C, [0x1E91A]); (0x1E93D, [0x1E91B]); (0x1E93E, [0x1E91C]);
    (0x1E93F, [0x1E91D]); (0x1E940, [0x1E91E]); (0x1E941, [0x1E91F]); (0x1E942, [0x1E920]);
    (0x1E943, [0x1E921]) ].

End Py.

(** ** The commit record and the category table *)

Record commit := {
  hash : string;
  message : string;
  author : string;
  date : string;
  body : string;
  insertions : Z;
  deletions : Z
}.

(** [COMMIT_TYPES]: an insertion-ordered dict, kept as the ordered list of
    its items [(key, (emoji, description))]. *)
Definition COMMIT_TYPES : list (string * (string * string)) :=
  [ ("feat", ("✨ Added", "New features and enhancements"));
    ("fix", ("🐛 Fixed", "Bug fixes and improvements"));
    ("docs", ("📚 Documentation", "Documentation updates"));
    ("style", ("🎨 Changed", "Code style and formatting changes"));
    ("refactor", ("🔧 Changed", "Code refactoring and restructuring"));
    ("perf", ("🚀 Performance", "Performance improvements"));
    ("test", ("🧪 Testing", "Test additions and improvements"));
    ("chore", ("🔧 Changed", "Maintenance tasks and chores"));
    ("security", ("🛡️ Security", "Security improvements"));
    ("build", ("🔧 Changed", "Build system changes"));
    ("ci", ("🔧 Changed", "CI/CD pipeline changes"));
    ("revert", ("🔄 Changed", "Reverted changes"));
    ("remove", ("🗑️ Removed", "Removed features and cleanup"));
    ("deps", ("📦 Changed", "Dependency updates")) ].

(** ** Classifier *)

(** The loop [for commit_type, (emoji, description) in COMMIT_TYPES.items()]
    of [categorize_commit], returning at the first key whose ["<key>:"] the
    lower-cased message starts with. *)
Fixpoint conventional_prefix (message : string)
    (types : list (string * (string * string))) : option (string * string * string) :=
  match types with
  | [] => None
  | (commit_type, (emoji, description)) :: rest =>
      if Py.startswith message (commit_type +:+ ":")
      then Some (commit_type, emoji, description)
      else conventional_prefix message rest
  end.

Definition categorize_commit (commit_data : commit) : string * string * string :=
  let message := Py.lower (message commit_data) in
  match conventional_prefix message COMMIT_TYPES with
  | Some r => r
  | None =>
    if Py.any_in ["add"; "new"; "feature"; "implement"; "create"; "introduce"; "calculator"; "chart"] message
    then ("feat", "✨ Added", "New features and enhancements")
    else if Py.any_in ["fix"; "bug"; "issue"; "error"; "resolve"; "crash"] message
    then ("fix", "🐛 Fixed", "Bug fixes and improvements")
    else if Py.any_in ["doc"; "readme"; "comment"; "changelog"; "update readme"] message
    then ("docs", "📚 Documentation", "Documentation updates")
    else if Py.any_in ["style"; "format"; "indent"; "ui"; "ux"; "css"; "styling"; "tailwind"] message
    then ("style", "🎨 Changed", "Code style and formatting changes")
    else if Py.any_in ["refactor"; "restructure"; "clean"; "optimize"; "enhance"] message
    then ("refactor", "🔧 Changed", "Code refactoring and restructuring")
    else if Py.any_in ["perf"; "performance"; "speed"; "optimize"] message
    then ("perf", "🚀 Performance", "Performance improvements")
    else if Py.any_in ["test"; "spec"; "coverage"; "testing"] message
    then ("test", "🧪 Testing", "Test additions and improvements")
    else if Py.any_in ["security"; "vulnerability"; "auth"; "protect"] message
    then ("security", "🛡️ Security", "Security improvements")
    else if Py.any_in ["remove"; "delete"; "cleanup"; "deprecate"; "drop"] message
    then ("remove", "🗑️ Removed", "Removed features and cleanup")
    else if Py.any_in ["deps"; "dependency"; "package"; "npm"; "yarn"; "install"] message
    then ("deps", "📦 Changed", "Dependency updates")
    else if Py.any_in ["update"; "change"; "modify"; "improve"; "enhance"] message
    then ("chore", "🔧 Changed", "Maintenance tasks and chores")
    else ("chore", "🔧 Changed", "Maintenance tasks and chores")
  end.


(** ** Formatter *)

(** The alternatives of the pattern
    [^(feat|fix|docs|style|refactor|perf|test|chore|security|build|ci|revert|remove|deps):\s*]
    in the order the pattern lists them. *)
Definition PREFIX_ALTERNATIVES : list string :=
  ["feat"; "fix"; "docs"; "style"; "refactor"; "perf"; "test"; "chore";
   "security"; "build"; "ci"; "revert"; "remove"; "deps"].

(** The characters outside ASCII that a letter of a pattern matches under
    [re.IGNORECASE], besides the letter itself in either case: U+0130 and
    U+0131 for [i], U+017F for [s], U+212A for [k]. *)
Definition IGNORECASE_ALSO : list (ascii * Z) :=
  [ ("i"%char, 0x0130); ("i"%char, 0x0131); ("s"%char, 0x017F); ("k"%char, 0x212A) ].

(** One character [p] of a literal of the pattern matched at the start of
    [s] under [re.IGNORECASE]: what follows the matched character in [s]. *)
Definition imatch_char (p : ascii) (s : string) : option string :=
  match s with
  | EmptyString => None
  | String c s' =>
      if Ascii.eqb (Py.lower_char p) (Py.lower_char c) then Some s'
      else
        match List.find
                (fun also => (Ascii.eqb (fst also) (Py.lower_char p) &&
                              Py.startswith s (Py.chr (snd also)))%bool)
                IGNORECASE_ALSO with
        | Some (_, code) => Some (Py.drop (String.length (Py.chr code)) s)
        | None => None
        end
  end.

(** A literal of the pattern matched at the start of [s] under
    [re.IGNORECASE], character by character: what follows the match in [s]. *)
Fixpoint imatch (literal s : string) : option string :=
  match literal with
  | EmptyString => Some s
  | String p literal' =>
      match imatch_char p s with
      | Some s' => imatch literal' s'
      | None => None
      end
  end.

(** [re.sub(pattern, '', message, flags=re.IGNORECASE)] for the pattern above.
    The pattern is anchored by [^] (no [re.MULTILINE]), so it matches at
    offset 0 or nowhere and at most one match is replaced; the alternatives
    are tried in order, each followed by the colon; [\s*] is greedy and
    nothing follows it, so it takes the whole run of whitespace. *)
Fixpoint re_sub_prefix (alternatives : list string) (message : string) : string :=
  match alternatives with
  | [] => message
  | alt :: rest =>
      match imatch (alt +:+ ":") message with
      | Some after => Py.lstrip_unicode after
      | None => re_sub_prefix rest message
      end
  end.

Definition prefixes_to_remove : list string :=
  ["feat:"; "fix:"; "docs:"; "style:"; "refactor:"; "test:"; "chore:";
   "feat("; "fix("; "docs("; "style("; "refactor("; "test("; "chore("].

(** The loop over [prefixes_to_remove], with its [break].  The prefixes are
    ASCII text, and no character outside ASCII is lower-cased to a text that
    completes one of them (U+0130 becomes [i] followed by U+0307, U+212A
    becomes [k]), so the test is decided by the ASCII letters. *)
Fixpoint remove_common_prefix (prefixes : list string) (message : string) : string :=
  match prefixes with
  | [] => message
  | prefix :: rest =>
      if Py.startswith (Py.lower message) (Py.lower prefix)
      then Py.strip_unicode (Py.drop (String.length prefix) message)
      else remove_common_prefix rest message
  end.

(** [message[0].upper() + message[1:]] when [message] is not empty.  The
    first character is one ASCII character, or the character outside ASCII
    whose encoding the text starts with. *)
Definition capitalize_first (message : string) : string :=
  match message with
  | EmptyString => EmptyString
  | String c rest =>
      if Py.isascii c then String (Py.upper_char c) rest
      else
        match List.find (fun entry => Py.startswith message (Py.chr (fst entry)))
                Py.UPPER_OUTSIDE_ASCII with
        | Some (code, upper) =>
            Py.text_of upper +:+ Py.drop (String.length (Py.chr code)) message
        | None => message
        end
  end.

Definition clean_commit_message (message : string) : string :=
  let message := re_sub_prefix PREFIX_ALTERNATIVES message in
  let message := remove_common_prefix prefixes_to_remove message in
  capitalize_first message.

Definition format_commit_with_stats (message : string) (insertions deletions : Z) : string :=
  let clean_msg := clean_commit_message message in
  if ((insertions >? 0) || (deletions >? 0))%bool then
    let stats_parts := [] in
    let stats_parts :=
      if insertions >? 0 then stats_parts ++ ["+" +:+ Py.str_of_int insertions]
      else stats_parts in
    let stats_parts :=
      if deletions >? 0 then stats_parts ++ ["-" +:+ Py.str_of_int deletions]
      else stats_parts in
    let stats_badge := " `" +:+ Py.join ", " stats_parts +:+ "`" in
    clean_msg +:+ stats_badge
  else clean_msg.

(** ** Section renderer *)

(** [categorized[commit_type].append(commit)] on a [defaultdict(list)]. *)
Definition dict_append (categorized : gmap string (list commit))
    (commit_type : string) (c : commit) : gmap string (list commit) :=
  <[commit_type := default [] (categorized !! commit_type) ++ [c]]> categorized.

(** The first loop of [generate_release_section]. *)
Definition categorize_all (commits : list commit) : gmap string (list commit) :=
  fold_left
    (fun categorized c =>
       let '(commit_type, _, _) := categorize_commit c in
       dict_append categorized commit_type c)
    commits ∅.

(** The inner loop: one bullet per commit of a group, appended to [section]. *)
Definition emit_bullets (group : list commit) (section : string) : string :=
  fold_left
    (fun section c =>
       let formatted_msg :=
         format_commit_with_stats (message c) (insertions c) (deletions c) in
       section +:+ "- " +:+ formatted_msg +:+ Py.nl)
    group section.

(** The loop over [COMMIT_TYPES.items()], threading the text built so far. *)
Fixpoint emit_groups (types : list (string * (string * string)))
    (categorized : gmap string (list commit)) (section : string) : string :=
  match types with
  | [] => section
  | (commit_type, (emoji, description)) :: rest =>
      match categorized !! commit_type with
      | Some group =>
          let section := section +:+ "### " +:+ emoji +:+ " " +:+ description +:+ Py.nl in
          let section := emit_bullets group section in
          emit_groups rest categorized (section +:+ Py.nl)
      | None => emit_groups rest categorized section
      end
  end.

Definition generate_release_section (tag : string) (commits : list commit)
    (release_date : string) : string :=
  match commits with
  | [] =>
      "## [" +:+ tag +:+ "] - " +:+ release_date +:+ Py.nl +:+ Py.nl +:+
      "### ✨ Added" +:+ Py.nl +:+ "- N/A" +:+ Py.nl +:+ Py.nl +:+
      "### 🔧 Changed" +:+ Py.nl +:+ "- N/A" +:+ Py.nl +:+ Py.nl +:+
      "### 🐛 Fixed" +:+ Py.nl +:+ "- N/A" +:+ Py.nl +:+ Py.nl +:+
      "---" +:+ Py.nl +:+ Py.nl
  | _ :: _ =>
      let categorized := categorize_all commits in
      let section := "## [" +:+ tag +:+ "] - " +:+ release_date +:+ Py.nl +:+ Py.nl in
      let section := emit_groups COMMIT_TYPES categorized section in
      let total_commits := Z.of_nat (List.length commits) in
      let section :=
        section +:+ "**Total Changes:** " +:+ Py.str_of_int total_commits +:+
        " commits" +:+ Py.nl +:+ Py.nl in
      section +:+ "---" +:+ Py.nl +:+ Py.nl
  end.

(** ** Per-commit statistics *)

(** [s.split('\n')] *)
Fixpoint split_lines (s : string) : list string :=
  match s with
  | EmptyString => [""]
  | String c s' =>
      if Ascii.eqb c "010" then "" :: split_lines s'
      else match split_lines s' with
           | [] => [String c ""]
           | line :: lines => String c line :: lines
           end
  end.

(** The loop that looks for the line with the file changes, with its [break]. *)
Fixpoint find_stats_line (lines : list string) : option string :=
  match lines with
  | [] => None
  | line :: rest =>
      if (Py.contains "files changed" line || Py.contains "file changed" line)%bool
      then Some line
      else find_stats_line rest
  end.

(** The longest run of characters satisfying [p] at the start of [s], and
    what follows it: a greedy [\d+] or [\s+] before backtracking. *)
Fixpoint span (p : ascii -> bool) (s : string) : string * string :=
  match s with
  | EmptyString => (EmptyString, EmptyString)
  | String c s' =>
      if p c then let '(run, rest) := span p s' in (String c run, rest)
      else (EmptyString, s)
  end.

(** [(\d+)\s+<word>] matched at the start of [s], giving group 1.  The
    pattern [insertions?] matches as soon as [insertion] does.  Giving back
    digits or whitespace by backtracking never helps: the character that
    would have to match next is then a digit or a whitespace. *)
Definition match_count_here (word s : string) : option string :=
  let '(digits, rest) := span Py.isdigit s in
  match digits with
  | EmptyString => None
  | String _ _ =>
      let '(spaces, rest') := span Py.isspace rest in
      match spaces with
      | EmptyString => None
      | String _ _ => if Py.startswith rest' word then Some digits else None
      end
  end.

(** [re.search(r'(\d+)\s+<word>s?', s)]: the leftmost match, if any. *)
Fixpoint re_search_count (word s : string) : option string :=
  match match_count_here word s with
  | Some digits => Some digits
  | None =>
      match s with
      | EmptyString => None
      | String _ s' => re_search_count word s'
      end
  end.

Definition digit_value (c : ascii) : Z := Z.of_nat (nat_of_ascii c) - 48.

(** The integer a string of decimal digits writes. *)
Definition int_of_digits (digits : string) : Z :=
  fold_left (fun acc c => 10 * acc + digit_value c) (list_ascii_of_string digits) 0.

(** [sys.get_int_max_str_digits()]: the longest numeral [int] converts,
    4300 digits unless the interpreter is started with another limit. *)
Definition INT_MAX_STR_DIGITS : nat := 4300.

(** [int(digits)] for a string of decimal digits: [None] when it raises
    [ValueError], which it does for a numeral of more digits than the
    limit, leading zeros included. *)
Definition int_of_str (digits : string) : option Z :=
  if (String.length digits <=? INT_MAX_STR_DIGITS)%nat
  then Some (int_of_digits digits)
  else None.

(** [get_commit_stats], as a function of what
    [run_git_command(['git', 'show', '--shortstat', commit_hash])] returned.
    The inner [option] is the body of the [try]: [None] is an exception
    raised by [int], which [except Exception] turns into [(0, 0)]. *)
Definition get_commit_stats (stats : string) : Z * Z :=
  match stats with
  | EmptyString => (0, 0)
  | String _ _ =>
      let lines := split_lines (Py.strip stats) in
      match find_stats_line lines with
      | None => (0, 0)
      | Some EmptyString => (0, 0)
      | Some stats_line =>
          let attempt :=
            let insertions := Some 0 in
            let deletions := Some 0 in
            let insertions :=
              match re_search_count "insertion" stats_line with
              | Some group1 => int_of_str group1
              | None => insertions
              end in
            match insertions with
            | None => None
            | Some insertions =>
                let deletions :=
                  match re_search_count "deletion" stats_line with
                  | Some group1 => int_of_str group1
                  | None => deletions
                  end in
                match deletions with
                | None => None
                | Some deletions => Some (insertions, deletions)
                end
            end in
          match attempt with
          | Some result => result
          | None => (0, 0)
          end
      end
  end.

(** ** Splicing the release section into the changelog *)

(** [s.find(sub, start)] *)
Definition find (s sub : string) (start : Z) : Z :=
  let n := Z.of_nat (String.length s) in
  let start := if start <? 0 then Z.max 0 (start + n) else start in
  match String.index (Z.to_nat start) sub s with
  | Some i => Z.of_nat i
  | None => -1
  end.

(** [s[:i]] *)
Definition slice_to (s : string) (i : Z) : string :=
  let n := Z.of_nat (String.length s) in
  Py.take (Z.to_nat (if i <? 0 then Z.max 0 (i + n) else i)) s.

(** [s[i:]] *)
Definition slice_from (s : string) (i : Z) : string :=
  let n := Z.of_nat (String.length s) in
  Py.drop (Z.to_nat (if i <? 0 then Z.max 0 (i + n) else i)) s.

(** The skeleton document used when [CHANGELOG.md] does not exist. *)
Definition DEFAULT_CHANGELOG : string :=
  "# Changelog" +:+ Py.nl +:+
  Py.nl +:+
  "All notable changes to the LifeSmart Calculator project will be documented in this file." +:+ Py.nl +:+
  Py.nl +:+
  "The format is based on [Keep a Changelog](https://keepachangelog.com/en/1.0.0/)," +:+ Py.nl +:+
  "and this project adheres to [Semantic Versioning](https://semver.org/spec/v2.0.0.html)." +:+ Py.nl +:+
  Py.nl +:+
  "## [Unreleased]" +:+ Py.nl +:+
  Py.nl +:+
  "### ✨ Added" +:+ Py.nl +:+
  "- N/A" +:+ Py.nl +:+
  Py.nl +:+
  "### 🔧 Changed" +:+ Py.nl +:+
  "- N/A" +:+ Py.nl +:+
  Py.nl +:+
  "### 🐛 Fixed" +:+ Py.nl +:+
  "- N/A" +:+ Py.nl +:+
  Py.nl +:+
  "---" +:+ Py.nl +:+
  Py.nl.

Definition UNRELEASED_HEADING : string := "## [Unreleased]".
Definition RULE_MARKER : string := "---" +:+ Py.nl +:+ Py.nl.

(** The text [new_content] that [update_changelog_for_tag] computes from
    [existing_content] and [release_section]. *)
Definition new_content (existing_content release_section : string) : string :=
  let unreleased_section_end :=
    find existing_content RULE_MARKER (find existing_content UNRELEASED_HEADING 0) in
  if unreleased_section_end =? -1 then
    existing_content +:+ Py.nl +:+ release_section
  else
    let insert_pos := unreleased_section_end + 6 in
    slice_to existing_content insert_pos +:+ release_section +:+
    slice_from existing_content insert_pos.

(** [update_changelog_for_tag], as a function of what it reads: the commits
    since the last tag and the release date, which come from git, and the
    content of [CHANGELOG.md], [None] when the file does not exist.  The
    result is the content written back to the file. *)
Definition update_changelog_for_tag (new_tag : string) (unreleased_commits : list commit)
    (release_date : string) (changelog : option string) : string :=
  let release_section := generate_release_section new_tag unreleased_commits release_date in
  let existing_content :=
    match changelog with
    | Some content => content
    | None => DEFAULT_CHANGELOG
    end in
  new_content existing_content release_section.

(** ** Predicates on texts *)

(** [sub] occurs somewhere in [s]. *)
Definition occurs_in (sub s : string) : Prop :=
  exists pre post, s = pre +:+ sub +:+ post.

(** No two elements of [l] have keys of which one starts the other: at most
    one of the keys can start a given text. *)
Definition prefix_free_on {A : Type} `{EqDecision A} (key : A -> string) (l : list A) : bool :=
  forallb
    (fun x => forallb (fun y => implb (String.prefix (key x) (key y)) (bool_decide (x = y))) l)
    l.

(** Every character of [s] satisfies [p]. *)
Fixpoint string_forall (p : ascii -> bool) (s : string) : bool :=
  match s with
  | EmptyString => true
  | String c s' => (p c && string_forall p s')%bool
  end.

(** [s] is empty or starts with a character that fails [p]. *)
Definition starts_without (p : ascii -> bool) (s : string) : Prop :=
  match s with
  | EmptyString => True
  | String c _ => p c = false
  end.

(** [text] writes [literal] in a way [re.IGNORECASE] accepts: each
    character of the literal is written as itself in either case, or as one
    of the characters outside ASCII the flag lets it match. *)
Inductive written_as : string -> string -> Prop :=
  | written_nil : written_as "" ""
  | written_letter (p c : ascii) (literal text : string) :
      Py.lower_char c = Py.lower_char p ->
      written_as literal text ->
      written_as (String p literal) (String c text)
  | written_also (p : ascii) (code : Z) (literal text : string) :
      In (Py.lower_char p, code) IGNORECASE_ALSO ->
      written_as literal text ->
      written_as (String p literal) (Py.chr code +:+ text).

(** [s] is a run of whitespace characters, of ASCII or not. *)
Inductive whitespace_run : string -> Prop :=
  | run_nil : whitespace_run ""
  | run_cons (code : Z) (s : string) :
      In code Py.WHITESPACE -> whitespace_run s -> whitespace_run (Py.chr code +:+ s).

(** ** The keyword heuristic as the specification words it

    The categories of the heuristic in their priority order (feature, fix,
    docs, style, refactor, performance, test, security, remove,
    dependency-update, generic-change), each with its trigger words.  The
    generic-change rule yields the maintenance category [chore]. *)
Definition KEYWORD_PRIORITY : list (string * list string) :=
  [ ("feat", ["add"; "new"; "feature"; "implement"; "create"; "introduce"; "calculator"; "chart"]);
    ("fix", ["fix"; "bug"; "issue"; "error"; "resolve"; "crash"]);
    ("docs", ["doc"; "readme"; "comment"; "changelog"; "update readme"]);
    ("style", ["style"; "format"; "indent"; "ui"; "ux"; "css"; "styling"; "tailwind"]);
    ("refactor", ["refactor"; "restructure"; "clean"; "optimize"; "enhance"]);
    ("perf", ["perf"; "performance"; "speed"; "optimize"]);
    ("test", ["test"; "spec"; "coverage"; "testing"]);
    ("security", ["security"; "vulnerability"; "auth"; "protect"]);
    ("remove", ["remove"; "delete"; "cleanup"; "deprecate"; "drop"]);
    ("deps", ["deps"; "dependency"; "package"; "npm"; "yarn"; "install"]);
    ("chore", ["update"; "change"; "modify"; "improve"; "enhance"]) ].

(** Some word of [words] occurs somewhere in [s]. *)
Definition triggers (words : list string) (s : string) : Prop :=
  exists word, In word words /\ occurs_in word s.

(** The message starts with ["<type>:"] for no key of the category table. *)
Definition no_conventional_prefix (s : string) : Prop :=
  forall commit_type emoji description,
    In (commit_type, (emoji, description)) COMMIT_TYPES ->
    Py.startswith s (commit_type +:+ ":") = false.

(** A commit that carries only a message. *)
Definition commit_of_message (m : string) : commit :=
  {| hash := ""; message := m; author := ""; date := ""; body := "";
     insertions := 0; deletions := 0 |}.

(** The category the keyword heuristic of the specification selects: the
    first rule of the priority list one of whose words occurs in the text. *)
Definition first_keyword_rule (rules : list (string * list string)) (s : string)
    : option string :=
  option_map fst (List.find (fun rule => Py.any_in (snd rule) s) rules).

(** The entry of the category table for a key, as [categorize_commit]
    returns it. *)
Definition category_entry (commit_type : string) : option (string * string * string) :=
  option_map (fun item => (fst item, fst (snd item), snd (snd item)))
    (List.find (fun item => String.eqb (fst item) commit_type) COMMIT_TYPES).

(** The lines that follow the title of the section rendered for an empty
    list of commits. *)
Definition EMPTY_SECTION_LINES : list string :=
  [ "### ✨ Added"; "- N/A"; "";
    "### 🔧 Changed"; "- N/A"; "";
    "### 🐛 Fixed"; "- N/A"; "";
    "---"; ""; "" ].

(** ** The rendered section as the specification words it *)

(** [''.join(parts)] *)
Definition concat_all (parts : list string) : string :=
  fold_right String.append "" parts.

(** The key under which a commit is classified. *)
Definition commit_type_of (c : commit) : string := fst (fst (categorize_commit c)).

(** The commits of one category, in the order in which they arrived. *)
Definition group_of (commit_type : string) (commits : list commit) : list commit :=
  List.filter (fun c => String.eqb (commit_type_of c) commit_type) commits.

(** The heading line of a category: its emoji label and its description. *)
Definition heading_line (item : string * (string * string)) : string :=
  "### " +:+ fst (snd item) +:+ " " +:+ snd (snd item).

(** The bullet line of a commit. *)
Definition bullet_line (c : commit) : string :=
  "- " +:+ format_commit_with_stats (message c) (insertions c) (deletions c).

(** What one category contributes: nothing when it has no commit, else its
    heading line, one bullet line per commit and a blank line. *)
Definition group_block (commits : list commit) (item : string * (string * string)) : string :=
  match group_of (fst item) commits with
  | [] => ""
  | group =>
      heading_line item +:+ Py.nl +:+
      concat_all (map (fun c => bullet_line c +:+ Py.nl) group) +:+
      Py.nl
  end.

(** The section for a non-empty list of commits: title, the blocks of the
    categories in the order of the table, the total line, the rule. *)
Definition render_section (tag : string) (commits : list commit) (release_date : string)
    : string :=
  "## [" +:+ tag +:+ "] - " +:+ release_date +:+ Py.nl +:+ Py.nl +:+
  concat_all (map (group_block commits) COMMIT_TYPES) +:+
  "**Total Changes:** " +:+ Py.str_of_int (Z.of_nat (List.length commits)) +:+
  " commits" +:+ Py.nl +:+ Py.nl +:+
  "---" +:+ Py.nl +:+ Py.nl.

(** The categories that have a group in the rendered section, top to bottom. *)
Definition rendered_groups (commits : list commit) : list (string * (string * string)) :=
  List.filter (fun item => negb (Nat.eqb (List.length (group_of (fst item) commits)) 0))
    COMMIT_TYPES.

(** The block of a category that has commits. *)
Definition full_block (commits : list commit) (item : string * (string * string)) : string :=
  heading_line item +:+ Py.nl +:+
  concat_all (map (fun c => bullet_line c +:+ Py.nl) (group_of (fst item) commits)) +:+
  Py.nl.

(** The heading lines of the groups a rendered section holds, top to bottom. *)
Definition rendered_headings (commits : list commit) : list string :=
  map heading_line (rendered_groups commits).

(** ** The statistics patterns, declaratively *)

(** The pattern [(\d+)\s+<word>] matches at the start of [s] with group 1
    equal to [digits]: a non-empty run of digits, a non-empty run of
    whitespace, then the word. *)
Definition count_match (word s digits : string) : Prop :=
  exists spaces rest,
    s = digits +:+ spaces +:+ word +:+ rest /\
    digits <> "" /\ string_forall Py.isdigit digits = true /\
    spaces <> "" /\ string_forall Py.isspace spaces = true.

(** The pattern matches nowhere in [line]. *)
Definition no_count (word line : string) : Prop :=
  forall pre suf digits, line = pre +:+ suf -> ~ count_match word suf digits.

(** The leftmost match of the pattern in [line] has group 1 equal to
    [digits]. *)
Definition first_count (word line digits : string) : Prop :=
  exists pre suf,
    line = pre +:+ suf /\ count_match word suf digits /\
    forall a b digits', pre = a +:+ b -> b <> "" -> ~ count_match word (b +:+ suf) digits'.

(** The line names the changed files. *)
Definition has_marker (line : string) : Prop :=
  occurs_in "files changed" line \/ occurs_in "file changed" line.

(** The pattern [(\d+)\s+<word>] matches at none of the offsets of [pre] in
    [pre +:+ suf]. *)
Fixpoint tails_unmatched (word pre suf : string) : bool :=
  match pre with
  | EmptyString => true
  | String _ pre' =>
      (match match_count_here word (pre +:+ suf) with
       | Some _ => false
       | None => true
       end && tails_unmatched word pre' suf)%bool
  end.

(** What the pattern reads in [line]: nothing when it matches nowhere,
    otherwise group 1 of its leftmost match. *)
Definition count_read (word line : string) (group1 : option string) : Prop :=
  match group1 with
  | None => no_count word line
  | Some digits => first_count word line digits
  end.

(** The count a reading stands for. *)
Definition count_value (group1 : option string) : Z :=
  match group1 with
  | None => 0
  | Some digits => int_of_digits digits
  end.

(** The reading is one [int] converts: it has no more digits than the
    limit. *)
Definition convertible (group1 : option string) : Prop :=
  match group1 with
  | None => True
  | Some digits => (String.length digits <= INT_MAX_STR_DIGITS)%nat
  end.

(** [s * n] *)
Fixpoint repeat_string (s : string) (n : nat) : string :=
  match n with
  | O => ""
  | S n' => s +:+ repeat_string s n'
  end.

(** A shortstat line whose insertion count has 4301 digits. *)
Definition long_count : string := repeat_string "7" 4301.

Definition long_count_stats : string :=
  "1 file changed, " +:+ long_count +:+ " insertions(+)".

(** ** Occurrences of a text in a document *)

(** [sub] occurs in [s] at offset [i]. *)
Definition occurs_at (sub s : string) (i : nat) : Prop :=
  exists pre post, s = pre +:+ sub +:+ post /\ String.length pre = i.

(** [p] is the first offset from [start] on at which [sub] occurs in [s]. *)
Definition first_at (sub s : string) (start p : nat) : Prop :=
  (start <= p)%nat /\ occurs_at sub s p /\
  forall q, (start <= q)%nat -> (q < p)%nat -> ~ occurs_at sub s q.

(** [sub] occurs in [s] at no offset from [start] on. *)
Definition absent_from (sub s : string) (start : nat) : Prop :=
  forall q, (start <= q)%nat -> ~ occurs_at sub s q.

(** The offsets at which [sub] occurs in [s], counted from [i]. *)
Fixpoint occurrences_from (i : nat) (sub s : string) : list nat :=
  (if String.prefix sub s then [i] else []) ++
  match s with
  | EmptyString => []
  | String _ s' => occurrences_from (S i) sub s'
  end.

Definition occurrences (sub s : string) : list nat := occurrences_from 0 sub s.

(** ** Running git *)

(** What [subprocess.run] gives back, as far as [run_git_command] reads it. *)
Record completed_process := {
  returncode : Z;
  stdout : string;
  stderr : string
}.

(** [run_git_command], as a function of the outcome of [subprocess.run]:
    [None] when the call raises.  The diagnostics it prints are left out. *)
Definition run_git_command (outcome : option completed_process) : string :=
  match outcome with
  | None => ""
  | Some result =>
      if negb (returncode result =? 0) then ""
      else match stdout result with
           | EmptyString => ""
           | String _ _ => Py.strip (stdout result)
           end
  end.

(** The repository as the script sees it: the outcome of [subprocess.run]
    for each command line. *)
Definition repository : Type := list string -> option completed_process.

(** [run_git_command(command)] in a repository. *)
Definition git (repo : repository) (command : list string) : string :=
  run_git_command (repo command).

(** ** Commit fetcher *)

(** [get_commit_stats(commit_hash)] in a repository. *)
Definition get_commit_stats_of (repo : repository) (commit_hash : string) : Z * Z :=
  get_commit_stats (git repo ["git"; "show"; "--shortstat"; commit_hash]).

(** [s.split(sep, maxsplit)] for a separator of one character. *)
Fixpoint split_max (sep : ascii) (s : string) (maxsplit : nat) : list string :=
  match s with
  | EmptyString => [""]
  | String c s' =>
      match maxsplit with
      | O => [s]
      | S n =>
          if Ascii.eqb c sep then "" :: split_max sep s' n
          else match split_max sep s' maxsplit with
               | [] => [String c ""]
               | part :: parts => String c part :: parts
               end
      end
  end.

(** The loop [for commit in commits.split('\n')] of [get_commits_for_tag] and
    [get_commits_between_tags], over the lines still to read. *)
Fixpoint commit_list (repo : repository) (lines : list string) : list commit :=
  match lines with
  | [] => []
  | commit :: rest =>
      match Py.strip commit with
      | EmptyString => commit_list repo rest
      | String _ _ =>
          match split_max "|" commit 4 with
          | hash :: message :: author :: date :: body :: _ =>
              let '(insertions, deletions) := get_commit_stats_of repo hash in
              {| hash := hash; message := message; author := author; date := date;
                 body := body; insertions := insertions; deletions := deletions |}
              :: commit_list repo rest
          | _ => commit_list repo rest
          end
      end
  end.

Definition format_str : string := "%H|%s|%an|%ad|%b".

Definition get_commits_for_tag (repo : repository) (tag : string) : list commit :=
  match git repo ["git"; "rev-parse"; tag] with
  | EmptyString => []
  | tag_hash =>
      match git repo ["git"; "log"; "--pretty=format:" +:+ format_str; "--reverse"; tag_hash] with
      | EmptyString => []
      | commits => commit_list repo (split_lines commits)
      end
  end.

Definition get_commits_between_tags (repo : repository) (from_tag to_tag : string)
    : list commit :=
  match from_tag with
  | EmptyString => get_commits_for_tag repo to_tag
  | String _ _ =>
      let from_hash := git repo ["git"; "rev-parse"; from_tag] in
      let to_hash := git repo ["git"; "rev-parse"; to_tag] in
      match from_hash, to_hash with
      | EmptyString, _ | _, EmptyString => []
      | _, _ =>
          match git repo ["git"; "log"; "--pretty=format:" +:+ format_str; "--reverse";
                          from_hash +:+ ".." +:+ to_hash] with
          | EmptyString => []
          | commits => commit_list repo (split_lines commits)
          end
      end
  end.

(** ** The tags of the repository *)

(** [l.remove(x)] for an [x] that is in [l]: the first occurrence goes. *)
Fixpoint list_remove (x : string) (l : list string) : list string :=
  match l with
  | [] => []
  | y :: rest => if String.eqb y x then rest else y :: list_remove x rest
  end.

(** The list [existing_tags] of [update_changelog_for_tag] as the list
    comprehension builds it from the output of [git tag]. *)
Definition listed_tags (repo : repository) : list string :=
  let tags_output := git repo ["git"; "tag"; "--sort=-version:refname"] in
  match tags_output with
  | EmptyString => []
  | String _ _ =>
      map Py.strip
        (List.filter (fun tag => negb (String.eqb (Py.strip tag) ""))
           (split_lines tags_output))
  end.

(** The same list once the new tag has been removed from it. *)
Definition existing_tags (repo : repository) (new_tag : string) : list string :=
  let existing_tags := listed_tags repo in
  if existsb (String.eqb new_tag) existing_tags
  then list_remove new_tag existing_tags
  else existing_tags.

(** The commits [unreleased_commits] of [update_changelog_for_tag]. *)
Definition unreleased_commits (repo : repository) (new_tag : string) : list commit :=
  match existing_tags repo new_tag with
  | last_tag :: _ => get_commits_between_tags repo last_tag "HEAD"
  | [] => get_commits_for_tag repo "HEAD"
  end.

(** ** The shortstat line *)

Definition plural (many : bool) : string := if many then "s" else "".

(** The line the comment in [get_commit_stats] describes
    (["2 files changed, 15 insertions(+), 3 deletions(-)"]), for any counts
    and either number of each noun. *)
Definition shortstat_line (files ins dels : Z) (many_files many_ins many_dels : bool)
    : string :=
  Py.str_of_int files +:+ " file" +:+ plural many_files +:+ " changed, " +:+
  Py.str_of_int ins +:+ " insertion" +:+ plural many_ins +:+ "(+), " +:+
  Py.str_of_int dels +:+ " deletion" +:+ plural many_dels +:+ "(-)".

(** After a run of digits, [\s+<word>] matches at the start of [s]. *)
Definition count_follows (word s : string) : bool :=
  let '(spaces, rest) := span Py.isspace s in
  match spaces with
  | EmptyString => false
  | String _ _ => Py.startswith rest word
  end.

Definition not_digit (c : ascii) : bool := negb (Py.isdigit c).

(** ** The lines of the commit log *)

(** The character [c] does not occur in [s]. *)
Definition no_char (c : ascii) (s : string) : bool :=
  string_forall (fun x => negb (Ascii.eqb x c)) s.

(** The number of occurrences of the character [c] in [s]. *)
Fixpoint count_char (c : ascii) (s : string) : nat :=
  match s with
  | EmptyString => O
  | String x s' => ((if Ascii.eqb x c then 1 else 0) + count_char c s')%nat
  end.

(** The line that [format_str] asks [git log] to print for a commit: hash,
    subject, author, date and body, separated by [|]. *)
Definition commit_line (c : commit) : string :=
  hash c +:+ "|" +:+ message c +:+ "|" +:+ author c +:+ "|" +:+ date c +:+ "|" +:+ body c.

(** A commit whose four leading fields hold neither [|] nor a line break,
    and whose body holds no line break. *)
Definition one_line_fields (c : commit) : Prop :=
  no_char "|" (hash c) = true /\ no_char "010" (hash c) = true /\
  no_char "|" (message c) = true /\ no_char "010" (message c) = true /\
  no_char "|" (author c) = true /\ no_char "010" (author c) = true /\
  no_char "|" (date c) = true /\ no_char "010" (date c) = true /\
  no_char "010" (body c) = true.

(** The commit with the counts the repository gives for its hash. *)
Definition with_stats (repo : repository) (c : commit) : commit :=
  {| hash := hash c; message := message c; author := author c; date := date c;
     body := body c;
     insertions := fst (get_commit_stats_of repo (hash c));
     deletions := snd (get_commit_stats_of repo (hash c)) |}.

(** The command line of [git log] that both fetchers run for a revision or
    a range of revisions. *)
Definition log_command (revision : string) : list string :=
  ["git"; "log"; "--pretty=format:" +:+ format_str; "--reverse"; revision].

(** What every fetched record satisfies. *)
Definition fetched_record (repo : repository) (c : commit) : Prop :=
  no_char "|" (hash c) = true /\ no_char "|" (message c) = true /\
  no_char "|" (author c) = true /\ no_char "|" (date c) = true /\
  no_char "010" (commit_line c) = true /\
  (insertions c, deletions c) = get_commit_stats_of repo (hash c) /\
  0 <= insertions c /\ 0 <= deletions c.

(** A repository with two tags and two commits after the newer tag, whose
    [git log] for the range between that tag and [HEAD] prints [log]. *)
Definition repository_with_log (log : string) : repository :=
  fun command =>
    let ok (out : string) := Some {| returncode := 0; stdout := out; stderr := "" |} in
    if bool_decide (command = ["git"; "tag"; "--sort=-version:refname"])
    then ok ("v1.0.0" +:+ Py.nl +:+ "v0.9.0" +:+ Py.nl)
    else if bool_decide (command = ["git"; "rev-parse"; "v1.0.0"])
    then ok ("1111" +:+ Py.nl)
    else if bool_decide (command = ["git"; "rev-parse"; "HEAD"])
    then ok ("2222" +:+ Py.nl)
    else if bool_decide (command = log_command "1111..2222")
    then ok log
    else if bool_decide (command = ["git"; "show"; "--shortstat"; "a1"])
    then ok ("commit a1" +:+ Py.nl +:+ Py.nl +:+ "    feat: add chart" +:+ Py.nl +:+ Py.nl +:+
             " 2 files changed, 15 insertions(+), 3 deletions(-)" +:+ Py.nl)
    else if bool_decide (command = ["git"; "show"; "--shortstat"; "b2"])
    then ok ("commit b2" +:+ Py.nl +:+ Py.nl +:+ "    Fix crash" +:+ Py.nl +:+ Py.nl +:+
             " 1 file changed, 1 insertion(+)" +:+ Py.nl)
    else Some {| returncode := 128; stdout := ""; stderr := "fatal: bad revision" |}.

(** Two commits as [git log] reports them, before their counts are read. *)
Definition example_commits : list commit :=
  [ {| hash := "a1"; message := "feat: add chart"; author := "Ann"; date := "Mon May 6";
       body := ""; insertions := 0; deletions := 0 |};
    {| hash := "b2"; message := "Fix crash"; author := "Bob"; date := "Tue May 7";
       body := "see #12 | urgent"; insertions := 0; deletions := 0 |} ].

(** The same repository when the body of the second commit has a second
    line. *)
Definition example_repository : repository :=
  repository_with_log
    (Py.join Py.nl (map commit_line example_commits) +:+ Py.nl +:+
     "second line of the body").

(** What of a commit reaches the rendered section. *)
Definition shown (c : commit) : string * Z * Z := (message c, insertions c, deletions c).

(** * Properties *)

(** Case analysis on a membership [H : In x l] in a list that is given by
    its elements, closing each case with [tac]. *)
Ltac each_member H tac :=
  cbn in H; repeat (destruct H as [<-|H]; [tac|]); destruct H.

(** The same for a list of pairs, whose components are then known. *)
Ltac each_pair H tac :=
  cbn in H;
  repeat (let Heq := fresh "Heq" in
          destruct H as [Heq|H]; [injection Heq as <- <-; tac|]);
  destruct H.

(** ** Strings *)

Section StringFacts.

Lemma append_nil_r (s : string) : s +:+ "" = s.
Proof. induction s as [|c s IH]; [reflexivity|]. cbn. now rewrite IH. Qed.

Lemma append_assoc (a b c : string) : (a +:+ b) +:+ c = a +:+ b +:+ c.
Proof. induction a as [|x a IH]; [reflexivity|]. cbn. now rewrite IH. Qed.

Lemma append_cons (x : ascii) (a b : string) : String x a +:+ b = String x (a +:+ b).
Proof. reflexivity. Qed.

Lemma length_append (a b : string) :
  String.length (a +:+ b) = (String.length a + String.length b)%nat.
Proof. induction a as [|x a IH]; [reflexivity|]. cbn. now rewrite IH. Qed.

Lemma prefix_nil (s : string) : String.prefix "" s = true.
Proof. now destruct s. Qed.

Lemma prefix_cons (x y : ascii) (p s : string) :
  String.prefix (String x p) (String y s) = (Ascii.eqb x y && String.prefix p s)%bool.
Proof.
  cbn. destruct (ascii_dec x y) as [->|Hne].
  - now rewrite Ascii.eqb_refl.
  - apply Ascii.eqb_neq in Hne. now rewrite Hne.
Qed.

Lemma prefix_spec (p s : string) :
  String.prefix p s = true <-> exists rest, s = p +:+ rest.
Proof.
  revert s. induction p as [|x p IH]; intros s.
  - rewrite prefix_nil. split; [intros _; now exists s | reflexivity].
  - destruct s as [|y s].
    + split; [discriminate | intros [rest H]; discriminate].
    + rewrite prefix_cons, andb_true_iff, Ascii.eqb_eq, IH. split.
      * intros [-> [rest ->]]. now exists rest.
      * intros [rest H]. rewrite append_cons in H. injection H as -> ->. eauto.
Qed.

Lemma prefix_app (p rest : string) : String.prefix p (p +:+ rest) = true.
Proof. apply prefix_spec. now exists rest. Qed.

(** Two prefixes of one string are comparable. *)
Lemma prefix_comparable (a b s : string) :
  String.prefix a s = true -> String.prefix b s = true ->
  String.prefix a b = true \/ String.prefix b a = true.
Proof.
  revert a b. induction s as [|y s IH]; intros a b Ha Hb.
  - destruct a; [left; apply prefix_nil | discriminate].
  - destruct a as [|xa a]; [left; apply prefix_nil|].
    destruct b as [|xb b]; [right; apply prefix_nil|].
    rewrite prefix_cons, andb_true_iff, Ascii.eqb_eq in Ha, Hb.
    destruct Ha as [-> Ha], Hb as [-> Hb].
    rewrite !prefix_cons, Ascii.eqb_refl. cbn. now apply IH.
Qed.

Lemma contains_spec (sub s : string) :
  Py.contains sub s = true <-> occurs_in sub s.
Proof.
  unfold occurs_in. induction s as [|y s IH].
  - cbn [Py.contains]. rewrite orb_false_r, prefix_spec. split.
    + intros [rest H]. now exists "", rest.
    + intros [pre [post H]]. destruct pre; [now exists post|discriminate].
  - cbn [Py.contains]. rewrite orb_true_iff, IH, prefix_spec. split.
    + intros [[rest H]|[pre [post H]]].
      * now exists "", rest.
      * exists (String y pre), post. now rewrite H.
    + intros [[|x pre] [post H]].
      * left. now exists post.
      * right. rewrite append_cons in H. injection H as -> ->. now exists pre, post.
Qed.

Lemma any_in_spec (words : list string) (s : string) :
  Py.any_in words s = true <-> triggers words s.
Proof.
  unfold Py.any_in, triggers. rewrite existsb_exists.
  split; intros [w [Hin H]]; exists w; split; auto; now apply contains_spec.
Qed.

Lemma any_in_false (words : list string) (s : string) :
  Py.any_in words s = false <-> ~ triggers words s.
Proof. rewrite <- any_in_spec. now destruct (Py.any_in words s). Qed.

End StringFacts.

(** ** Classifier *)

Section Classifier.

Lemma conventional_prefix_None (s : string) (types : list (string * (string * string))) :
  conventional_prefix s types = None <->
  (forall commit_type emoji description,
     In (commit_type, (emoji, description)) types ->
     Py.startswith s (commit_type +:+ ":") = false).
Proof.
  induction types as [|[k [e d]] types IH]; cbn [conventional_prefix].
  - split; [intros _ ? ? ? []|reflexivity].
  - destruct (Py.startswith s (k +:+ ":")) eqn:Hk.
    + split; [discriminate|]. intros H. specialize (H k e d (or_introl eq_refl)).
      congruence.
    + rewrite IH. split.
      * intros H ty e' d' [Heq|Hin]; [injection Heq as <- <- <-; exact Hk|eauto].
      * intros H ty e' d' Hin. apply (H ty e' d'). now right.
Qed.

Lemma conventional_prefix_In (s : string) (types : list (string * (string * string)))
    (commit_type emoji description : string) :
  (forall x y, In x types -> In y types ->
     String.prefix (fst x +:+ ":") (fst y +:+ ":") = true -> x = y) ->
  In (commit_type, (emoji, description)) types ->
  Py.startswith s (commit_type +:+ ":") = true ->
  conventional_prefix s types = Some (commit_type, emoji, description).
Proof.
  intros Hfree Hin Hs. induction types as [|[k [e d]] types IH]; [destruct Hin|].
  cbn [conventional_prefix]. destruct (Py.startswith s (k +:+ ":")) eqn:Hk.
  - assert (Heq : (k, (e, d)) = (commit_type, (emoji, description))).
    { destruct (prefix_comparable _ _ _ Hk Hs) as [H|H].
      - apply Hfree; [now left|exact Hin|exact H].
      - symmetry. apply Hfree; [exact Hin|now left|exact H]. }
    now injection Heq as -> -> ->.
  - destruct Hin as [Heq|Hin].
    + injection Heq as -> -> ->. congruence.
    + apply IH; [|exact Hin]. intros x y Hx Hy. apply Hfree; now right.
Qed.

Lemma prefix_free_on_spec {A : Type} `{EqDecision A} (key : A -> string) (l : list A) :
  prefix_free_on key l = true ->
  forall x y, In x l -> In y l -> String.prefix (key x) (key y) = true -> x = y.
Proof.
  unfold prefix_free_on. rewrite forallb_forall. intros H x y Hx Hy Hp.
  specialize (H x Hx). rewrite forallb_forall in H.
  specialize (H y Hy). rewrite Hp in H. cbn in H. now apply bool_decide_eq_true in H.
Qed.

Lemma prefix_free_COMMIT_TYPES :
  forall x y, In x COMMIT_TYPES -> In y COMMIT_TYPES ->
    String.prefix (fst x +:+ ":") (fst y +:+ ":") = true -> x = y.
Proof.
  apply (prefix_free_on_spec (fun x => fst x +:+ ":")). vm_compute. reflexivity.
Qed.

(** C1: a message whose lower-cased form starts with ["<type>:"] for a key of
    the category table is given exactly that key's entry, whatever else the
    message contains. *)
Theorem categorize_commit_conventional_prefix :
  forall (c : commit) (commit_type emoji description : string),
    In (commit_type, (emoji, description)) COMMIT_TYPES ->
    Py.startswith (Py.lower (message c)) (commit_type +:+ ":") = true ->
    categorize_commit c = (commit_type, emoji, description).
Proof.
  intros c ty e d Hin Hs. unfold categorize_commit.
  now rewrite (conventional_prefix_In _ _ ty e d prefix_free_COMMIT_TYPES Hin Hs).
Qed.

Lemma categorize_commit_conventional_prefix_witness :
  categorize_commit (commit_of_message "Fix: add new feature docs") =
  ("fix", "🐛 Fixed", "Bug fixes and improvements").
Proof.
  apply categorize_commit_conventional_prefix.
  - cbn. tauto.
  - vm_compute. reflexivity.
Defined.

(** Without a conventional prefix, [categorize_commit] is the keyword
    heuristic: the first rule of the priority list that fires, [chore] when
    none does, with the entry the category table has for that key. *)
Lemma categorize_commit_keyword (c : commit) :
  conventional_prefix (Py.lower (message c)) COMMIT_TYPES = None ->
  Some (categorize_commit c) =
  category_entry
    (default "chore" (first_keyword_rule KEYWORD_PRIORITY (Py.lower (message c)))).
Proof.
  intros Hnone. unfold categorize_commit. rewrite Hnone.
  unfold first_keyword_rule, KEYWORD_PRIORITY. cbn [List.find snd].
  repeat (match goal with
          | |- context [if Py.any_in ?ws ?m then _ else _] =>
              destruct (Py.any_in ws m); [reflexivity|]
          end).
  reflexivity.
Qed.

Lemma find_split {A : Type} (f : A -> bool) (before after : list A) (x : A) :
  (forall y, In y before -> f y = false) -> f x = true ->
  List.find f (before ++ x :: after) = Some x.
Proof.
  intros Hb Hx. induction before as [|y before IH]; cbn.
  - now rewrite Hx.
  - rewrite (Hb y (or_introl eq_refl)). apply IH. intros z Hz. apply Hb. now right.
Qed.

Lemma category_entry_In (commit_type emoji description : string) :
  In (commit_type, (emoji, description)) COMMIT_TYPES ->
  category_entry commit_type = Some (commit_type, emoji, description).
Proof.
  intros Hin. cbn in Hin.
  repeat (destruct Hin as [Heq|Hin]; [injection Heq as <- <- <-; reflexivity|]).
  destruct Hin.
Qed.

(** C2: for a message without a conventional prefix, the result is the first
    category of the priority list feature, fix, docs, style, refactor,
    performance, test, security, remove, dependency-update, generic-change one
    of whose trigger words occurs in the lower-cased message.  Only whether a
    word occurs matters, not where: the order of the categories decides. *)
Theorem categorize_commit_keyword_priority :
  forall (c : commit) (before after : list (string * list string))
         (commit_type : string) (words : list string) (emoji description : string),
    no_conventional_prefix (Py.lower (message c)) ->
    KEYWORD_PRIORITY = before ++ (commit_type, words) :: after ->
    (forall ty ws, In (ty, ws) before -> ~ triggers ws (Py.lower (message c))) ->
    triggers words (Py.lower (message c)) ->
    In (commit_type, (emoji, description)) COMMIT_TYPES ->
    categorize_commit c = (commit_type, emoji, description).
Proof.
  intros c before after ty words e d Hno Hsplit Hbefore Hwords Hin.
  apply (proj2 (conventional_prefix_None _ _)) in Hno.
  pose proof (categorize_commit_keyword c Hno) as H.
  unfold first_keyword_rule in H. rewrite Hsplit in H.
  rewrite (find_split _ before after (ty, words)) in H.
  - cbn [option_map fst default from_option id] in H. rewrite (category_entry_In ty e d Hin) in H.
    now injection H.
  - intros [ty' ws'] Hy. cbn [snd]. apply any_in_false. eauto.
  - cbn [snd]. now apply any_in_spec.
Qed.

Lemma categorize_commit_keyword_priority_witness :
  categorize_commit (commit_of_message "Readme typo and crash") =
  ("fix", "🐛 Fixed", "Bug fixes and improvements").
Proof.
  apply (categorize_commit_keyword_priority _
           (firstn 1 KEYWORD_PRIORITY) (skipn 2 KEYWORD_PRIORITY)
           "fix" ["fix"; "bug"; "issue"; "error"; "resolve"; "crash"]).
  - refine (proj1 (conventional_prefix_None _ _) _). vm_compute. reflexivity.
  - reflexivity.
  - intros ty ws Hin. apply any_in_false.
    destruct Hin as [Heq|[]]. injection Heq as <- <-. vm_compute. reflexivity.
  - apply any_in_spec. vm_compute. reflexivity.
  - cbn. tauto.
Defined.

(** C6: every message gets exactly one result, an entry of the category
    table; a message with no conventional prefix and no trigger word, the
    empty message among them, gets the maintenance category [chore]. *)
Theorem categorize_commit_total :
  forall c : commit,
    exists commit_type emoji description,
      (forall r, r = categorize_commit c <-> r = (commit_type, emoji, description)) /\
      In (commit_type, (emoji, description)) COMMIT_TYPES /\
      (no_conventional_prefix (Py.lower (message c)) ->
       (forall ty ws, In (ty, ws) KEYWORD_PRIORITY ->
                      ~ triggers ws (Py.lower (message c))) ->
       commit_type = "chore").
Proof.
  intros c.
  destruct (conventional_prefix (Py.lower (message c)) COMMIT_TYPES)
    as [[[ty e] d]|] eqn:Hp.
  - exists ty, e, d.
    assert (Hin : In (ty, (e, d)) COMMIT_TYPES /\
                  Py.startswith (Py.lower (message c)) (ty +:+ ":") = true).
    { revert Hp. generalize COMMIT_TYPES as types.
      induction types as [|[k [e' d']] types IH]; cbn [conventional_prefix]; [discriminate|].
      destruct (Py.startswith (Py.lower (message c)) (k +:+ ":")) eqn:Hk.
      - intros H. injection H as -> -> ->. split; [now left|exact Hk].
      - intros H. destruct (IH H). split; [now right|assumption]. }
    destruct Hin as [Hin Hs]. split; [|split].
    + intros r. unfold categorize_commit. rewrite Hp. reflexivity.
    + exact Hin.
    + intros Hno _. rewrite (Hno ty e d Hin) in Hs. discriminate.
  - pose proof (categorize_commit_keyword c Hp) as H.
    destruct (first_keyword_rule KEYWORD_PRIORITY (Py.lower (message c))) as [ty|] eqn:Hk.
    + unfold first_keyword_rule in Hk.
      destruct (List.find _ KEYWORD_PRIORITY) as [[ty' ws]|] eqn:Hf; [|discriminate].
      injection Hk as ->. apply find_some in Hf. destruct Hf as [Hin Hany].
      cbn [snd] in Hany. cbn [default from_option id] in H.
      assert (Hex : exists e d, In (ty, (e, d)) COMMIT_TYPES).
      { each_pair Hin ltac:(do 2 eexists; cbn; tauto). }
      destruct Hex as [e [d Hin']]. exists ty, e, d.
      rewrite (category_entry_In ty e d Hin') in H. injection H as H.
      split; [|split].
      * intros r. now rewrite H.
      * exact Hin'.
      * intros _ Hnone. exfalso. apply (Hnone ty ws Hin). now apply any_in_spec.
    + cbn [default from_option id] in H. exists "chore", "🔧 Changed", "Maintenance tasks and chores".
      injection H as H. split; [|split].
      * intros r. now rewrite H.
      * cbn. tauto.
      * reflexivity.
Qed.

Lemma categorize_commit_total_witness :
  categorize_commit (commit_of_message "") =
  ("chore", "🔧 Changed", "Maintenance tasks and chores").
Proof.
  destruct (categorize_commit_total (commit_of_message ""))
    as [ty [e [d [Hr [Hin Hchore]]]]].
  assert (Hty : ty = "chore").
  { apply Hchore.
    - refine (proj1 (conventional_prefix_None _ _) _). vm_compute. reflexivity.
    - intros ty' ws Hin'. apply any_in_false.
      each_pair Hin' ltac:(vm_compute; reflexivity). }
  subst ty. cbn in Hin.
  repeat (destruct Hin as [Heq|Hin]; [try discriminate Heq|]).
  - injection Heq as <- <-. now apply Hr.
  - destruct Hin.
Defined.

End Classifier.

(** ** Formatter: the statistics annotation *)

Section Formatter.

(** C5: with both counts zero the result is the cleaned message and nothing
    else; with a positive count the cleaned message is followed by a space and
    the annotation in backticks: [+n] for positive insertions, [-m] for
    positive deletions, joined by a comma and a space when both are there. *)
Theorem format_commit_with_stats_annotation :
  forall (msg : string) (n m : Z),
    format_commit_with_stats msg 0 0 = clean_commit_message msg /\
    (n > 0 -> m > 0 ->
     format_commit_with_stats msg n m =
     clean_commit_message msg +:+ " `+" +:+ Py.str_of_int n +:+ ", -" +:+ Py.str_of_int m +:+ "`") /\
    (n > 0 -> m <= 0 ->
     format_commit_with_stats msg n m =
     clean_commit_message msg +:+ " `+" +:+ Py.str_of_int n +:+ "`") /\
    (n <= 0 -> m > 0 ->
     format_commit_with_stats msg n m =
     clean_commit_message msg +:+ " `-" +:+ Py.str_of_int m +:+ "`").
Proof.
  intros msg n m. unfold format_commit_with_stats. repeat split.
  - intros Hn Hm.
    destruct (Z.gtb_spec n 0); [|lia]. destruct (Z.gtb_spec m 0); [|lia].
    cbn. now rewrite ?append_assoc.
  - intros Hn Hm.
    destruct (Z.gtb_spec n 0); [|lia]. destruct (Z.gtb_spec m 0); [lia|].
    cbn. now rewrite ?append_assoc.
  - intros Hn Hm.
    destruct (Z.gtb_spec n 0); [lia|]. destruct (Z.gtb_spec m 0); [|lia].
    cbn. now rewrite ?append_assoc.
Qed.

Lemma format_commit_with_stats_annotation_witness :
  format_commit_with_stats "fix: crash" 15 3 = "Crash `+15, -3`" /\
  format_commit_with_stats "fix: crash" 15 0 = "Crash `+15`" /\
  format_commit_with_stats "fix: crash" 0 3 = "Crash `-3`".
Proof.
  split; [|split].
  - destruct (format_commit_with_stats_annotation "fix: crash" 15 3) as [_ [H _]].
    rewrite H; [reflexivity|lia|lia].
  - destruct (format_commit_with_stats_annotation "fix: crash" 15 0) as [_ [_ [H _]]].
    rewrite H; [reflexivity|lia|lia].
  - destruct (format_commit_with_stats_annotation "fix: crash" 0 3) as [_ [_ [_ H]]].
    rewrite H; [reflexivity|lia|lia].
Defined.

End Formatter.

(** ** Section renderer: the empty release *)

Section EmptyRelease.

Lemma occurs_nl_cons (c : ascii) (s : string) :
  occurs_in Py.nl (String c s) <-> c = "010"%char \/ occurs_in Py.nl s.
Proof.
  unfold occurs_in, Py.nl. split.
  - intros [[|x pre] [post H]].
    + left. cbn in H. now injection H.
    + right. rewrite append_cons in H. injection H as -> ->. now exists pre, post.
  - intros [->|[pre [post ->]]].
    + now exists "", s.
    + now exists (String c pre), post.
Qed.

Lemma occurs_nl_app (a b : string) :
  occurs_in Py.nl (a +:+ b) <-> occurs_in Py.nl a \/ occurs_in Py.nl b.
Proof.
  induction a as [|c a IH].
  - cbn. split; [now right|]. intros [[pre [post H]]|H]; [|exact H].
    destruct pre; discriminate.
  - rewrite append_cons, !occurs_nl_cons, IH. tauto.
Qed.

Lemma split_lines_line (a b : string) :
  ~ occurs_in Py.nl a ->
  split_lines (a +:+ Py.nl +:+ b) = a :: split_lines b.
Proof.
  induction a as [|c a IH]; intros Hno.
  - reflexivity.
  - rewrite occurs_nl_cons in Hno. rewrite append_cons. cbn [split_lines].
    destruct (Ascii.eqb_spec c "010"); [tauto|].
    rewrite IH by tauto. reflexivity.
Qed.

(** C7: for an empty list of commits the section is the title followed by
    the fixed template; when the tag and the date hold no line break its lines
    are the title, a blank line, and the three headings Added, Changed and
    Fixed, each followed by the line [- N/A], then the rule.  There is no
    total-commit line. *)
Theorem generate_release_section_empty :
  forall tag release_date : string,
    generate_release_section tag [] release_date =
    "## [" +:+ tag +:+ "] - " +:+ release_date +:+ Py.nl +:+ Py.nl +:+
    Py.join Py.nl EMPTY_SECTION_LINES /\
    (~ occurs_in Py.nl tag -> ~ occurs_in Py.nl release_date ->
     split_lines (generate_release_section tag [] release_date) =
     ("## [" +:+ tag +:+ "] - " +:+ release_date) :: "" :: EMPTY_SECTION_LINES).
Proof.
  intros tag release_date. split.
  - unfold generate_release_section. cbn [Py.join EMPTY_SECTION_LINES].
    now rewrite !append_nil_r.
  - intros Htag Hdate. unfold generate_release_section.
    assert (Htitle : ~ occurs_in Py.nl ("## [" +:+ tag +:+ "] - " +:+ release_date)).
    { rewrite !occurs_nl_app. intros [H|[H|[H|H]]]; try tauto.
      - apply contains_spec in H. vm_compute in H. discriminate.
      - apply contains_spec in H. vm_compute in H. discriminate. }
    replace ("## [" +:+ tag +:+ "] - " +:+ release_date +:+ Py.nl +:+ Py.nl +:+
             "### ✨ Added" +:+ Py.nl +:+ "- N/A" +:+ Py.nl +:+ Py.nl +:+
             "### 🔧 Changed" +:+ Py.nl +:+ "- N/A" +:+ Py.nl +:+ Py.nl +:+
             "### 🐛 Fixed" +:+ Py.nl +:+ "- N/A" +:+ Py.nl +:+ Py.nl +:+
             "---" +:+ Py.nl +:+ Py.nl)
      with (("## [" +:+ tag +:+ "] - " +:+ release_date) +:+ Py.nl +:+
            Py.join Py.nl ("" :: EMPTY_SECTION_LINES)).
    + rewrite split_lines_line by exact Htitle. f_equal.
    + cbn [Py.join EMPTY_SECTION_LINES]. now rewrite !append_assoc, ?append_nil_r.
Qed.

Lemma generate_release_section_empty_witness :
  split_lines (generate_release_section "v1.2.3" [] "2024-05-01") =
  "## [v1.2.3] - 2024-05-01" :: "" :: EMPTY_SECTION_LINES.
Proof.
  apply (generate_release_section_empty "v1.2.3" "2024-05-01");
    intros H; apply contains_spec in H; vm_compute in H; discriminate.
Defined.

End EmptyRelease.

(** ** Section renderer: grouping and order *)

Section Renderer.

Lemma fold_dict_append_lookup (commits : list commit) (m : gmap string (list commit))
    (commit_type : string) :
  fold_left
    (fun categorized c =>
       let '(ty, _, _) := categorize_commit c in dict_append categorized ty c)
    commits m !! commit_type =
  match group_of commit_type commits with
  | [] => m !! commit_type
  | group => Some (default [] (m !! commit_type) ++ group)
  end.
Proof.
  revert m. induction commits as [|c commits IH]; intros m; [reflexivity|].
  cbn [fold_left group_of List.filter]. fold (group_of commit_type commits).
  rewrite IH. unfold commit_type_of.
  destruct (categorize_commit c) as [[ty e] d]. cbn [fst].
  unfold dict_append. destruct (String.eqb_spec ty commit_type) as [->|Hne].
  - rewrite lookup_insert_eq. cbn [default from_option id].
    destruct (group_of commit_type commits); [reflexivity|].
    now rewrite <- List.app_assoc.
  - now rewrite lookup_insert_ne.
Qed.

Lemma categorize_all_lookup (commits : list commit) (commit_type : string) :
  categorize_all commits !! commit_type =
  match group_of commit_type commits with
  | [] => None
  | group => Some group
  end.
Proof.
  unfold categorize_all. rewrite fold_dict_append_lookup, lookup_empty.
  now destruct (group_of commit_type commits).
Qed.

Lemma emit_bullets_append (group : list commit) (section : string) :
  emit_bullets group section =
  section +:+ concat_all (map (fun c => bullet_line c +:+ Py.nl) group).
Proof.
  unfold emit_bullets. revert section.
  induction group as [|c group IH]; intros section; cbn [fold_left map concat_all fold_right].
  - now rewrite append_nil_r.
  - rewrite IH. unfold bullet_line. now rewrite !append_assoc.
Qed.

Lemma emit_groups_append (types : list (string * (string * string)))
    (commits : list commit) (section : string) :
  emit_groups types (categorize_all commits) section =
  section +:+ concat_all (map (group_block commits) types).
Proof.
  revert section.
  induction types as [|[ty [e d]] types IH]; intros section;
    cbn [emit_groups map concat_all fold_right].
  - now rewrite append_nil_r.
  - rewrite categorize_all_lookup. unfold group_block at 1. cbn [fst].
    destruct (group_of ty commits) as [|c group].
    + now rewrite IH.
    + rewrite IH, emit_bullets_append. unfold heading_line. cbn [fst snd].
      now rewrite !append_assoc.
Qed.

Lemma generate_release_section_render (tag : string) (commits : list commit)
    (release_date : string) :
  commits <> [] ->
  generate_release_section tag commits release_date =
  render_section tag commits release_date.
Proof.
  intros Hne. destruct commits as [|c commits]; [congruence|].
  unfold generate_release_section, render_section.
  rewrite emit_groups_append. now rewrite !append_assoc.
Qed.

Lemma conventional_prefix_Some (s : string) (types : list (string * (string * string)))
    (r : string * string * string) :
  conventional_prefix s types = Some r ->
  In (fst (fst r), (snd (fst r), snd r)) types.
Proof.
  induction types as [|[k [e d]] types IH]; cbn [conventional_prefix]; [discriminate|].
  destruct (Py.startswith s (k +:+ ":")).
  - intros H. injection H as <-. now left.
  - intros H. right. now apply IH.
Qed.

Lemma commit_type_of_In (c : commit) :
  In (commit_type_of c) (map fst COMMIT_TYPES).
Proof.
  unfold commit_type_of, categorize_commit.
  destruct (conventional_prefix (Py.lower (message c)) COMMIT_TYPES) as [r|] eqn:Hp.
  - apply conventional_prefix_Some in Hp.
    apply (in_map fst) in Hp. exact Hp.
  - repeat (match goal with
            | |- context [if Py.any_in ?ws ?m then _ else _] =>
                destruct (Py.any_in ws m); [cbn; tauto|]
            end).
    cbn; tauto.
Qed.

Lemma length_group_of_cons (commit_type : string) (c : commit) (commits : list commit) :
  List.length (group_of commit_type (c :: commits)) =
  ((if String.eqb (commit_type_of c) commit_type then 1 else 0) +
   List.length (group_of commit_type commits))%nat.
Proof.
  unfold group_of. cbn [List.filter].
  now destruct (String.eqb (commit_type_of c) commit_type).
Qed.

(** Every commit lies in the group of exactly one category of the table. *)
Lemma groups_cover (commits : list commit) :
  list_sum (map (fun item => List.length (group_of (fst item) commits)) COMMIT_TYPES) =
  List.length commits.
Proof.
  induction commits as [|c commits IH]; [reflexivity|].
  cbn [List.length]. rewrite <- IH. clear IH.
  pose proof (commit_type_of_In c) as Hin.
  unfold COMMIT_TYPES in *. cbn [map fst list_sum] in *.
  rewrite !length_group_of_cons.
  each_member Hin ltac:(cbn; lia).
Qed.

(** C8: for a non-empty list of commits the section is the title, then for
    each category of the table, in the order of the table, the block of its
    group when the group is not empty (heading line, one bullet per commit of
    the group in the order of arrival, blank line), then the total line with
    the number of commits, then the rule; every commit is in exactly one
    group. *)
Theorem generate_release_section_groups :
  forall (tag : string) (commits : list commit) (release_date : string),
    commits <> [] ->
    generate_release_section tag commits release_date =
    "## [" +:+ tag +:+ "] - " +:+ release_date +:+ Py.nl +:+ Py.nl +:+
    concat_all (map (group_block commits) COMMIT_TYPES) +:+
    "**Total Changes:** " +:+ Py.str_of_int (Z.of_nat (List.length commits)) +:+
    " commits" +:+ Py.nl +:+ Py.nl +:+
    "---" +:+ Py.nl +:+ Py.nl /\
    list_sum (map (fun item => List.length (group_of (fst item) commits)) COMMIT_TYPES) =
    List.length commits.
Proof.
  intros tag commits release_date Hne. split.
  - now apply generate_release_section_render.
  - apply groups_cover.
Qed.

Lemma generate_release_section_groups_witness :
  generate_release_section "v1.0.0"
    [ {| hash := "a1"; message := "docs: describe the chart"; author := "a";
         date := "d1"; body := ""; insertions := 4; deletions := 0 |};
      {| hash := "b2"; message := "Fix crash on empty input"; author := "a";
         date := "d2"; body := ""; insertions := 2; deletions := 7 |};
      {| hash := "c3"; message := "fix: rounding"; author := "b";
         date := "d3"; body := ""; insertions := 0; deletions := 0 |} ]
    "2024-05-01" =
  Py.join Py.nl
    [ "## [v1.0.0] - 2024-05-01"; "";
      "### 🐛 Fixed Bug fixes and improvements";
      "- Fix crash on empty input `+2, -7`";
      "- Rounding"; "";
      "### 📚 Documentation Documentation updates";
      "- Describe the chart `+4`"; "";
      "**Total Changes:** 3 commits"; "";
      "---"; ""; "" ].
Proof.
  refine (eq_trans (proj1 (generate_release_section_groups _ _ _ _)) _).
  - discriminate.
  - vm_compute. reflexivity.
Defined.

Lemma NoDup_map_filter {A B : Type} (g : A -> B) (f : A -> bool) (l : list A) :
  NoDup (map g l) -> NoDup (map g (List.filter f l)).
Proof.
  induction l as [|x l IH]; cbn; [auto|].
  intros H. inversion H as [|? ? Hnotin Hnd]; subst.
  destruct (f x); [|auto]. cbn. constructor; [|auto].
  intros Hin. apply Hnotin. apply list_elem_of_In in Hin. apply list_elem_of_In.
  apply in_map_iff in Hin. destruct Hin as [y [Hy Hin]].
  apply filter_In in Hin. apply in_map_iff. exists y. tauto.
Qed.

Lemma NoDup_map_inj {A B : Type} (g : A -> B) (l : list A) :
  NoDup (map g l) ->
  forall x y, In x l -> In y l -> g x = g y -> x = y.
Proof.
  induction l as [|a l IH]; cbn; intros Hnd x y Hx Hy Heq; [destruct Hx|].
  inversion Hnd as [|? ? Hnotin Hnd']; subst.
  destruct Hx as [->|Hx], Hy as [->|Hy]; auto.
  - exfalso. apply Hnotin. rewrite Heq. apply list_elem_of_In. now apply in_map.
  - exfalso. apply Hnotin. rewrite <- Heq. apply list_elem_of_In. now apply in_map.
Qed.

Lemma heading_lines_NoDup : NoDup (map heading_line COMMIT_TYPES).
Proof.
  apply (bool_decide_unpack (NoDup (map heading_line COMMIT_TYPES))).
  vm_compute. exact I.
Qed.

Lemma blocks_of_rendered_groups (commits : list commit)
    (types : list (string * (string * string))) :
  concat_all (map (group_block commits) types) =
  concat_all
    (map (full_block commits)
       (List.filter
          (fun item => negb (Nat.eqb (List.length (group_of (fst item) commits)) 0))
          types)).
Proof.
  induction types as [|item types IH]; [reflexivity|].
  cbn [map concat_all fold_right List.filter]. fold (concat_all (map (group_block commits) types)).
  rewrite IH. unfold group_block at 1, full_block.
  destruct (group_of (fst item) commits) eqn:Hg; cbn [List.length Nat.eqb negb].
  - reflexivity.
  - cbn [map concat_all fold_right]. unfold full_block. now rewrite Hg.
Qed.

(** C10, as the code has it: [refactor], [chore], [build] and [ci] share the
    label "🔧 Changed" ([style] has "🎨 Changed"), but a heading line is the
    label followed by the description of the category, and no two categories
    have the same heading line: the groups of a rendered section, which are
    the blocks of the categories that have commits, have pairwise different
    heading lines. *)
Theorem rendered_headings_distinct :
  (forall commit_type, In commit_type ["refactor"; "chore"; "build"; "ci"] ->
     exists description, In (commit_type, ("🔧 Changed", description)) COMMIT_TYPES) /\
  NoDup (map heading_line COMMIT_TYPES) /\
  (forall (tag : string) (commits : list commit) (release_date : string),
     commits <> [] ->
     generate_release_section tag commits release_date =
     "## [" +:+ tag +:+ "] - " +:+ release_date +:+ Py.nl +:+ Py.nl +:+
     concat_all (map (full_block commits) (rendered_groups commits)) +:+
     "**Total Changes:** " +:+ Py.str_of_int (Z.of_nat (List.length commits)) +:+
     " commits" +:+ Py.nl +:+ Py.nl +:+
     "---" +:+ Py.nl +:+ Py.nl /\
     NoDup (rendered_headings commits)).
Proof.
  split; [|split].
  - intros ty Hin. each_member Hin ltac:(eexists; cbn; tauto).
  - exact heading_lines_NoDup.
  - intros tag commits release_date Hne. split.
    + rewrite generate_release_section_render by exact Hne.
      unfold render_section, rendered_groups. now rewrite blocks_of_rendered_groups.
    + apply NoDup_map_filter, heading_lines_NoDup.
Qed.

Lemma rendered_headings_distinct_witness :
  rendered_headings [commit_of_message "refactor: split parser";
                     commit_of_message "chore: bump version"] =
  [ "### 🔧 Changed Code refactoring and restructuring";
    "### 🔧 Changed Maintenance tasks and chores" ] /\
  NoDup (rendered_headings [commit_of_message "refactor: split parser";
                            commit_of_message "chore: bump version"]).
Proof.
  split.
  - vm_compute. reflexivity.
  - destruct rendered_headings_distinct as [_ [_ H]].
    refine (proj2 (H "v1" _ "2024-05-01" _)). discriminate.
Defined.

(** C10 as stated fails: the label of [style] is not "🔧 Changed", and no two
    categories of the table have the same heading line. *)
Lemma shared_heading_counterexample :
  (exists description,
     In ("style", ("🎨 Changed", description)) COMMIT_TYPES /\
     "🎨 Changed" <> "🔧 Changed") /\
  ~ (exists x y, In x COMMIT_TYPES /\ In y COMMIT_TYPES /\ x <> y /\
                 heading_line x = heading_line y).
Proof.
  split.
  - eexists. split; [cbn; tauto|discriminate].
  - intros [x [y [Hx [Hy [Hne Heq]]]]]. apply Hne.
    exact (NoDup_map_inj heading_line COMMIT_TYPES heading_lines_NoDup x y Hx Hy Heq).
Qed.

End Renderer.

(** ** Formatter: cleaning the message *)

Section Cleaning.

Lemma lower_append (a b : string) : Py.lower (a +:+ b) = Py.lower a +:+ Py.lower b.
Proof. induction a as [|c a IH]; [reflexivity|]. cbn. now rewrite IH. Qed.

Lemma length_lower (s : string) : String.length (Py.lower s) = String.length s.
Proof. induction s as [|c s IH]; [reflexivity|]. cbn. now rewrite IH. Qed.

Lemma drop_append (a b : string) : Py.drop (String.length a) (a +:+ b) = b.
Proof. induction a as [|c a IH]; [now destruct b|]. cbn. exact IH. Qed.

Lemma lstrip_spaces (spaces rest : string) :
  string_forall Py.isspace spaces = true ->
  Py.lstrip (spaces +:+ rest) = Py.lstrip rest.
Proof.
  induction spaces as [|c spaces IH]; [reflexivity|].
  cbn [string_forall]. rewrite andb_true_iff. intros [Hc Hs].
  rewrite append_cons. cbn [Py.lstrip]. rewrite Hc. now apply IH.
Qed.

Lemma isascii_lower_char (c : ascii) : Py.isascii (Py.lower_char c) = Py.isascii c.
Proof. destruct c as [[] [] [] [] [] [] [] []]; reflexivity. Qed.

Lemma lower_char_idempotent (c : ascii) :
  Py.lower_char (Py.lower_char c) = Py.lower_char c.
Proof. destruct c as [[] [] [] [] [] [] [] []]; reflexivity. Qed.

(** The characters the flag adds are written with characters outside
    ASCII, and none of these writings starts another. *)
Lemma IGNORECASE_ALSO_cases (letter : ascii) (code : Z) :
  In (letter, code) IGNORECASE_ALSO ->
  exists c tail,
    Py.chr code = String c tail /\ Py.isascii c = false /\
    forall letter' code' rest rest',
      In (letter', code') IGNORECASE_ALSO ->
      Py.chr code +:+ rest = Py.chr code' +:+ rest' ->
      letter' = letter /\ code' = code /\ rest' = rest.
Proof.
  intros Hin.
  repeat (destruct Hin as [Hin|Hin];
          [injection Hin as <- <-; eexists _, _;
           split; [vm_compute; reflexivity|];
           split; [reflexivity|];
           intros letter' code' rest rest' Hin' Heq;
           repeat (destruct Hin' as [Hin'|Hin'];
                   [injection Hin' as <- <-; vm_compute in Heq;
                    first [discriminate Heq
                          |injection Heq as ->; now repeat split]|]);
           destruct Hin'|]).
  destruct Hin.
Qed.

(** What [imatch_char] accepts. *)
Lemma imatch_char_sound (p : ascii) (s s' : string) :
  imatch_char p s = Some s' ->
  (exists c, s = String c s' /\ Py.lower_char c = Py.lower_char p) \/
  (exists code, In (Py.lower_char p, code) IGNORECASE_ALSO /\ s = Py.chr code +:+ s').
Proof.
  unfold imatch_char. destruct s as [|c s0]; [discriminate|].
  destruct (Ascii.eqb (Py.lower_char p) (Py.lower_char c)) eqn:Hpc.
  - intros H. injection H as <-. left. exists c. split; [reflexivity|].
    symmetry. now apply Ascii.eqb_eq.
  - destruct (List.find _ IGNORECASE_ALSO) as [[letter code]|] eqn:Hfind; [|discriminate].
    intros H. injection H as <-. right. exists code.
    apply find_some in Hfind. destruct Hfind as [Hin Htest].
    cbn [fst snd] in Htest. apply andb_true_iff in Htest. destruct Htest as [Hl Hs].
    apply Ascii.eqb_eq in Hl. subst letter. split; [exact Hin|].
    unfold Py.startswith in Hs. apply prefix_spec in Hs. destruct Hs as [rest Hs].
    rewrite Hs at 2. now rewrite drop_append.
Qed.

Lemma imatch_char_letter (p c : ascii) (s : string) :
  Py.lower_char c = Py.lower_char p -> imatch_char p (String c s) = Some s.
Proof.
  intros H. unfold imatch_char. rewrite H. now rewrite Ascii.eqb_refl.
Qed.

Lemma imatch_char_also (p : ascii) (code : Z) (s : string) :
  Py.isascii p = true ->
  In (Py.lower_char p, code) IGNORECASE_ALSO ->
  imatch_char p (Py.chr code +:+ s) = Some s.
Proof.
  intros Hp Hin.
  destruct (IGNORECASE_ALSO_cases _ _ Hin) as [c [tail [Hchr [Hc Huniq]]]].
  unfold imatch_char. rewrite Hchr, append_cons.
  destruct (Ascii.eqb (Py.lower_char p) (Py.lower_char c)) eqn:Hpc.
  - apply Ascii.eqb_eq in Hpc.
    pose proof (isascii_lower_char p) as H1. pose proof (isascii_lower_char c) as H2.
    rewrite Hpc in H1. congruence.
  - rewrite <- append_cons, <- Hchr.
    destruct (List.find _ IGNORECASE_ALSO) as [[letter code']|] eqn:Hfind.
    + apply find_some in Hfind. destruct Hfind as [Hin' Htest].
      cbn [fst snd] in Htest. apply andb_true_iff in Htest. destruct Htest as [_ Hs].
      unfold Py.startswith in Hs. apply prefix_spec in Hs. destruct Hs as [rest Hs].
      destruct (Huniq letter code' s rest Hin' Hs) as [_ [-> _]].
      now rewrite drop_append.
    + pose proof (List.find_none _ _ Hfind _ Hin) as Hnone. cbn [fst snd] in Hnone.
      unfold Py.startswith in Hnone.
      rewrite Ascii.eqb_refl, prefix_app in Hnone. discriminate.
Qed.

(** A way of writing the literal at the start of the text is matched, and
    what follows it is what is left. *)
Lemma imatch_written (literal text rest : string) :
  string_forall Py.isascii literal = true ->
  written_as literal text ->
  imatch literal (text +:+ rest) = Some rest.
Proof.
  intros Hascii Hw. induction Hw as [|p c literal text Hc Hw IH|p code literal text Hin Hw IH].
  - reflexivity.
  - cbn [string_forall] in Hascii. apply andb_true_iff in Hascii.
    destruct Hascii as [_ Hascii].
    rewrite append_cons. cbn [imatch]. rewrite (imatch_char_letter p c _ Hc).
    now apply IH.
  - cbn [string_forall] in Hascii. apply andb_true_iff in Hascii.
    destruct Hascii as [Hp Hascii].
    rewrite append_assoc. cbn [imatch]. rewrite (imatch_char_also p code _ Hp Hin).
    now apply IH.
Qed.

(** A match is a way of writing the literal at the start of the text. *)
Lemma imatch_sound (literal s rest : string) :
  imatch literal s = Some rest ->
  exists text, written_as literal text /\ s = text +:+ rest.
Proof.
  revert s. induction literal as [|p literal IH]; intros s; cbn [imatch].
  - intros H. injection H as <-. exists "". split; [constructor|reflexivity].
  - destruct (imatch_char p s) as [s'|] eqn:Hchar; [|discriminate].
    intros H. destruct (IH s' H) as [text [Hw ->]].
    destruct (imatch_char_sound p s _ Hchar) as [[c [-> Hc]]|[code [Hin ->]]].
    + exists (String c text). split; [now constructor|reflexivity].
    + exists (Py.chr code +:+ text). split; [now constructor|].
      now rewrite append_assoc.
Qed.

(** Two literals matched at the start of one text: one starts the other,
    up to the case of their letters. *)
Lemma imatch_comparable (l1 l2 s r1 r2 : string) :
  string_forall Py.isascii l1 = true -> string_forall Py.isascii l2 = true ->
  imatch l1 s = Some r1 -> imatch l2 s = Some r2 ->
  String.prefix (Py.lower l1) (Py.lower l2) = true \/
  String.prefix (Py.lower l2) (Py.lower l1) = true.
Proof.
  revert l2 s. induction l1 as [|p1 l1 IH]; intros l2 s Ha1 Ha2 H1 H2.
  - left. apply prefix_nil.
  - destruct l2 as [|p2 l2]; [right; apply prefix_nil|].
    cbn [imatch] in H1, H2.
    destruct (imatch_char p1 s) as [s1|] eqn:Hc1; [|discriminate].
    destruct (imatch_char p2 s) as [s2|] eqn:Hc2; [|discriminate].
    cbn [string_forall] in Ha1, Ha2.
    apply andb_true_iff in Ha1. destruct Ha1 as [Hp1 Ha1].
    apply andb_true_iff in Ha2. destruct Ha2 as [Hp2 Ha2].
    assert (Hsame : Py.lower_char p1 = Py.lower_char p2 /\ s1 = s2).
    { destruct (imatch_char_sound _ _ _ Hc1) as [[c1 [Hs1 Hl1]]|[code1 [Hin1 Hs1]]];
        destruct (imatch_char_sound _ _ _ Hc2) as [[c2 [Hs2 Hl2]]|[code2 [Hin2 Hs2]]].
      - rewrite Hs1 in Hs2. injection Hs2 as <- <-. split; congruence.
      - exfalso. destruct (IGNORECASE_ALSO_cases _ _ Hin2) as [c [tail [Hchr [Hc _]]]].
        rewrite Hs1, Hchr, append_cons in Hs2. injection Hs2 as -> _.
        pose proof (isascii_lower_char p1) as E1. pose proof (isascii_lower_char c) as E2.
        rewrite <- Hl1 in E1. congruence.
      - exfalso. destruct (IGNORECASE_ALSO_cases _ _ Hin1) as [c [tail [Hchr [Hc _]]]].
        rewrite Hs2, Hchr, append_cons in Hs1. injection Hs1 as -> _.
        pose proof (isascii_lower_char p2) as E1. pose proof (isascii_lower_char c) as E2.
        rewrite <- Hl2 in E1. congruence.
      - destruct (IGNORECASE_ALSO_cases _ _ Hin1) as [c [tail [_ [_ Huniq]]]].
        rewrite Hs1 in Hs2.
        destruct (Huniq _ _ _ _ Hin2 Hs2) as [E1 [_ E2]]. split; congruence. }
    destruct Hsame as [Hp <-].
    cbn [Py.lower]. rewrite !prefix_cons, Hp, Ascii.eqb_refl. cbn [andb].
    now apply (IH l2 s1).
Qed.

Lemma find_prefix_unique {A : Type} (key : A -> string) (l : list A) (s : string) (q : A) :
  (forall x y, In x l -> In y l -> String.prefix (key x) (key y) = true -> x = y) ->
  In q l -> String.prefix (key q) s = true ->
  List.find (fun x => String.prefix (key x) s) l = Some q.
Proof.
  intros Hfree Hin Hq. induction l as [|a l IH]; [destruct Hin|].
  cbn [List.find]. destruct (String.prefix (key a) s) eqn:Ha.
  - f_equal. destruct (prefix_comparable _ _ _ Ha Hq) as [H|H].
    + apply Hfree; [now left|exact Hin|exact H].
    + symmetry. apply Hfree; [exact Hin|now left|exact H].
  - destruct Hin as [->|Hin]; [congruence|].
    apply IH; [|exact Hin]. intros x y Hx Hy. apply Hfree; now right.
Qed.

Lemma chr_nonempty (n : Z) : Py.chr n <> "".
Proof.
  unfold Py.chr.
  repeat match goal with |- context [if ?b then _ else _] => destruct b end;
    discriminate.
Qed.

Lemma skip_space_sound (s rest : string) :
  Py.skip_space s = Some rest ->
  exists code, In code Py.WHITESPACE /\ s = Py.chr code +:+ rest.
Proof.
  unfold Py.skip_space.
  destruct (List.find _ Py.WHITESPACE) as [code|] eqn:Hfind; [|discriminate].
  intros H. injection H as <-. apply find_some in Hfind. destruct Hfind as [Hin Hs].
  exists code. split; [exact Hin|].
  unfold Py.startswith in Hs. apply prefix_spec in Hs. destruct Hs as [rest Hs].
  rewrite Hs at 2. now rewrite drop_append.
Qed.

(** No whitespace character is written with the start of another, so the
    one a text starts with is the one that is passed. *)
Lemma skip_space_chr (code : Z) (s : string) :
  In code Py.WHITESPACE -> Py.skip_space (Py.chr code +:+ s) = Some s.
Proof.
  intros Hin. unfold Py.skip_space, Py.startswith.
  rewrite (find_prefix_unique Py.chr Py.WHITESPACE _ code).
  - now rewrite drop_append.
  - apply prefix_free_on_spec. vm_compute. reflexivity.
  - exact Hin.
  - apply prefix_app.
Qed.

Lemma lstrip_steps_run (spaces rest : string) :
  whitespace_run spaces -> Py.skip_space rest = None ->
  forall n, (String.length spaces <= n)%nat ->
  Py.lstrip_steps n (spaces +:+ rest) = rest.
Proof.
  intros Hrun Hrest. induction Hrun as [|code s Hin Hrun IH]; intros n Hn.
  - cbn [String.append]. destruct n; cbn [Py.lstrip_steps]; [reflexivity|].
    now rewrite Hrest.
  - rewrite length_append in Hn.
    assert (Hlen : (0 < String.length (Py.chr code))%nat).
    { pose proof (chr_nonempty code). destruct (Py.chr code); [congruence|cbn; lia]. }
    destruct n as [|n]; [lia|]. cbn [Py.lstrip_steps].
    rewrite append_assoc, (skip_space_chr code _ Hin). apply IH. lia.
Qed.

(** A run of whitespace before a text that starts with none is what
    [lstrip_unicode] removes. *)
Lemma lstrip_unicode_run (spaces rest : string) :
  whitespace_run spaces -> Py.skip_space rest = None ->
  Py.lstrip_unicode (spaces +:+ rest) = rest.
Proof.
  intros Hrun Hrest. unfold Py.lstrip_unicode.
  apply lstrip_steps_run; [exact Hrun|exact Hrest|].
  rewrite length_append. lia.
Qed.

Lemma remove_common_prefix_find (prefixes : list string) (message : string) :
  remove_common_prefix prefixes message =
  match List.find (fun prefix => String.prefix (Py.lower prefix) (Py.lower message))
          prefixes with
  | Some prefix => Py.strip_unicode (Py.drop (String.length prefix) message)
  | None => message
  end.
Proof.
  induction prefixes as [|prefix rest IH]; [reflexivity|].
  cbn [remove_common_prefix List.find]. unfold Py.startswith.
  now destruct (String.prefix (Py.lower prefix) (Py.lower message)).
Qed.

Lemma find_none {A : Type} (f : A -> bool) (l : list A) :
  (forall x, In x l -> f x = false) -> List.find f l = None.
Proof.
  induction l as [|a l IH]; intros H; [reflexivity|].
  cbn. rewrite (H a (or_introl eq_refl)). apply IH. intros x Hx. apply H. now right.
Qed.

Lemma ascii_PREFIX_ALTERNATIVES (alt : string) :
  In alt PREFIX_ALTERNATIVES -> string_forall Py.isascii (alt +:+ ":") = true.
Proof.
  intros Hin. each_member Hin ltac:(reflexivity).
Qed.

Lemma lower_prefixes_to_remove (prefix : string) :
  In prefix prefixes_to_remove -> Py.lower prefix = prefix.
Proof.
  intros Hin. each_member Hin ltac:(reflexivity).
Qed.

(** The pattern removes nothing from a text that starts with no way of
    writing a ["<type>:"]. *)
Lemma re_sub_prefix_none (alternatives : list string) (message : string) :
  (forall alt written rest, In alt alternatives ->
     written_as (alt +:+ ":") written -> message <> written +:+ rest) ->
  re_sub_prefix alternatives message = message.
Proof.
  induction alternatives as [|alt alternatives IH]; intros Hno; [reflexivity|].
  cbn [re_sub_prefix].
  destruct (imatch (alt +:+ ":") message) as [after|] eqn:Hm.
  - exfalso. destruct (imatch_sound _ _ _ Hm) as [written [Hw Heq]].
    exact (Hno alt written after (or_introl eq_refl) Hw Heq).
  - apply IH. intros alt' written rest Hin. apply Hno. now right.
Qed.

(** Of alternatives none of which starts another, the one that matches is
    the one the pattern takes. *)
Lemma re_sub_prefix_first (alternatives : list string) (message alt after : string) :
  (forall x, In x alternatives -> string_forall Py.isascii (x +:+ ":") = true) ->
  (forall x y, In x alternatives -> In y alternatives ->
     String.prefix (Py.lower (x +:+ ":")) (Py.lower (y +:+ ":")) = true -> x = y) ->
  In alt alternatives ->
  imatch (alt +:+ ":") message = Some after ->
  re_sub_prefix alternatives message = Py.lstrip_unicode after.
Proof.
  intros Hascii Hfree Hin Hm.
  induction alternatives as [|a alternatives IH]; [destruct Hin|].
  cbn [re_sub_prefix].
  destruct (imatch (a +:+ ":") message) as [after'|] eqn:Ha.
  - assert (Heq : a = alt).
    { destruct (imatch_comparable _ _ _ _ _
                  (Hascii a (or_introl eq_refl)) (Hascii alt Hin) Ha Hm) as [H|H].
      - apply Hfree; [now left|exact Hin|exact H].
      - symmetry. apply Hfree; [exact Hin|now left|exact H]. }
    subst a. congruence.
  - destruct Hin as [->|Hin]; [congruence|].
    apply IH; [| |exact Hin].
    + intros x Hx. apply Hascii. now right.
    + intros x y Hx Hy. apply Hfree; now right.
Qed.

(** The pattern removes a leading way of writing ["<type>:"] and the
    whitespace after it. *)
Lemma re_sub_prefix_strip (alt written spaces rest : string) :
  In alt PREFIX_ALTERNATIVES ->
  written_as (alt +:+ ":") written ->
  whitespace_run spaces ->
  Py.skip_space rest = None ->
  re_sub_prefix PREFIX_ALTERNATIVES (written +:+ spaces +:+ rest) = rest.
Proof.
  intros Hin Hw Hspaces Hrest.
  rewrite (re_sub_prefix_first PREFIX_ALTERNATIVES _ alt (spaces +:+ rest)).
  - now apply lstrip_unicode_run.
  - exact ascii_PREFIX_ALTERNATIVES.
  - apply (prefix_free_on_spec (fun alt => Py.lower (alt +:+ ":"))). vm_compute. reflexivity.
  - exact Hin.
  - apply imatch_written; [now apply ascii_PREFIX_ALTERNATIVES|exact Hw].
Qed.

Lemma remove_common_prefix_none (message : string) :
  (forall prefix, In prefix prefixes_to_remove ->
     Py.startswith (Py.lower message) prefix = false) ->
  remove_common_prefix prefixes_to_remove message = message.
Proof.
  intros H. rewrite remove_common_prefix_find, find_none; [reflexivity|].
  intros prefix Hin. rewrite (lower_prefixes_to_remove prefix Hin). now apply H.
Qed.

Lemma remove_common_prefix_strip (type_name rest : string) :
  In (Py.lower type_name +:+ ":") prefixes_to_remove ->
  remove_common_prefix prefixes_to_remove (type_name +:+ ":" +:+ rest) =
  Py.strip_unicode rest.
Proof.
  intros Hin. rewrite remove_common_prefix_find.
  rewrite (find_prefix_unique Py.lower _ _ (Py.lower type_name +:+ ":")).
  - rewrite length_append, length_lower.
    replace (type_name +:+ ":" +:+ rest) with ((type_name +:+ ":") +:+ rest)
      by now rewrite append_assoc.
    replace (String.length type_name + String.length ":")%nat
      with (String.length (type_name +:+ ":")) by now rewrite length_append.
    now rewrite drop_append.
  - apply prefix_free_on_spec. vm_compute. reflexivity.
  - exact Hin.
  - rewrite (lower_prefixes_to_remove _ Hin), !lower_append.
    replace (Py.lower ":") with ":" by reflexivity.
    rewrite <- append_assoc. apply prefix_app.
Qed.

(** C4, as the code has it: a message that starts with no way of writing
    ["<type>:"] that the pattern accepts, and whose lower-cased form starts
    with none of the prefixes of the loop, is only capitalized; a leading
    ["<type>:"] for one of the fourteen types, written as [re.IGNORECASE]
    accepts, is removed together with the whitespace after it; when what
    remains starts with ["<type>:"] for one of [feat], [fix], [docs],
    [style], [refactor], [test], [chore], that second prefix is removed too
    and the text is stripped of surrounding whitespace; in every case the
    first character of what remains is capitalized and the rest is left as
    it is. *)
Theorem clean_commit_message_prefixes :
  forall message : string,
    ((forall alt written rest, In alt PREFIX_ALTERNATIVES ->
        written_as (alt +:+ ":") written -> message <> written +:+ rest) ->
     (forall prefix, In prefix prefixes_to_remove ->
        Py.startswith (Py.lower message) prefix = false) ->
     clean_commit_message message = capitalize_first message) /\
    (forall alt written spaces rest : string,
       message = written +:+ spaces +:+ rest ->
       In alt PREFIX_ALTERNATIVES ->
       written_as (alt +:+ ":") written ->
       whitespace_run spaces ->
       Py.skip_space rest = None ->
       ((forall prefix, In prefix prefixes_to_remove ->
           Py.startswith (Py.lower rest) prefix = false) ->
        clean_commit_message message = capitalize_first rest) /\
       (forall second rest2 : string,
          rest = second +:+ ":" +:+ rest2 ->
          In (Py.lower second +:+ ":") prefixes_to_remove ->
          clean_commit_message message = capitalize_first (Py.strip_unicode rest2))).
Proof.
  intros message. split.
  - intros Hno1 Hno2. unfold clean_commit_message.
    now rewrite re_sub_prefix_none, remove_common_prefix_none.
  - intros alt written spaces rest -> Hin Hw Hspaces Hrest. unfold clean_commit_message.
    rewrite (re_sub_prefix_strip alt) by assumption. split.
    + intros Hno. now rewrite remove_common_prefix_none.
    + intros second rest2 -> Hin2. now rewrite remove_common_prefix_strip.
Qed.

Lemma clean_commit_message_prefixes_witness :
  clean_commit_message "add the chart" = "Add the chart" /\
  clean_commit_message "FIX:  resolve crash on divide by zero" =
    "Resolve crash on divide by zero" /\
  clean_commit_message (Py.chr 0x017F +:+ "tyle:" +:+ Py.chr 0x00A0 +:+ "tidy") = "Tidy" /\
  clean_commit_message "perf: Fix: slow  loop " = "Slow  loop".
Proof.
  split; [|split; [|split]].
  - refine (proj1 (clean_commit_message_prefixes "add the chart") _ _).
    + intros alt written rest Hin Hw Heq.
      pose proof (imatch_written _ _ rest (ascii_PREFIX_ALTERNATIVES alt Hin) Hw) as Hm.
      rewrite <- Heq in Hm. each_member Hin ltac:(vm_compute in Hm; discriminate).
    + intros x Hin; each_member Hin ltac:(vm_compute; reflexivity).
  - refine (proj1 (proj2 (clean_commit_message_prefixes _) "fix" "FIX:" "  "
                     "resolve crash on divide by zero" _ _ _ _ _) _).
    + reflexivity.
    + cbn. tauto.
    + repeat (apply written_letter; [reflexivity|]). apply written_nil.
    + apply (run_cons 0x20 " "); [cbn; tauto|].
      apply (run_cons 0x20 ""); [cbn; tauto|]. apply run_nil.
    + vm_compute. reflexivity.
    + intros x Hin. each_member Hin ltac:(vm_compute; reflexivity).
  - refine (proj1 (proj2 (clean_commit_message_prefixes _) "style"
                     (Py.chr 0x017F +:+ "tyle:") (Py.chr 0x00A0) "tidy" _ _ _ _ _) _).
    + reflexivity.
    + cbn. tauto.
    + apply (written_also "s" 0x017F "tyle:" "tyle:"); [cbn; tauto|].
      repeat (apply written_letter; [reflexivity|]). apply written_nil.
    + apply (run_cons 0x00A0 ""); [cbn; tauto|]. apply run_nil.
    + vm_compute. reflexivity.
    + intros x Hin. each_member Hin ltac:(vm_compute; reflexivity).
  - refine (proj2 (proj2 (clean_commit_message_prefixes _) "perf" "perf:" " "
                     "Fix: slow  loop " _ _ _ _ _) "Fix" " slow  loop " _ _).
    + reflexivity.
    + cbn. tauto.
    + repeat (apply written_letter; [reflexivity|]). apply written_nil.
    + apply (run_cons 0x20 ""); [cbn; tauto|]. apply run_nil.
    + vm_compute. reflexivity.
    + reflexivity.
    + cbn. tauto.
Defined.

(** C4 as stated fails: two prefixes are removed from this message.  The
    result is neither the capitalized message nor the capitalized message
    without its first prefix. *)
Lemma clean_commit_message_two_prefixes :
  clean_commit_message "feat: fix: crash" = "Crash" /\
  "Crash" <> capitalize_first "feat: fix: crash" /\
  "Crash" <> capitalize_first "fix: crash" /\
  "Crash" <> capitalize_first " fix: crash".
Proof. repeat split; try discriminate. Qed.

(** A scoped prefix is removed up to its opening parenthesis only. *)
Lemma clean_commit_message_scoped :
  clean_commit_message "feat(ui): add button" = "Ui): add button" /\
  clean_commit_message "perf(core): speed up" = "Perf(core): speed up".
Proof. split; reflexivity. Qed.

(** Outside ASCII: the pattern takes U+017F for an [s] and U+0130 for an
    [i], whitespace such as U+2003 and U+00A0 is removed like a space, and
    [upper] can give two characters for one (U+0149, U+00DF). *)
Lemma clean_commit_message_outside_ascii :
  clean_commit_message (Py.chr 0x017F +:+ "tyle: tidy") = "Tidy" /\
  clean_commit_message ("F" +:+ Py.chr 0x0130 +:+ "X: crash") = "Crash" /\
  clean_commit_message ("fix:" +:+ Py.chr 0x2003 +:+ "crash") = "Crash" /\
  clean_commit_message ("ci: docs: notes " +:+ Py.chr 0x00A0) = "Notes" /\
  clean_commit_message (Py.chr 0x0149 +:+ "ew") = Py.chr 0x02BC +:+ "New" /\
  clean_commit_message (Py.chr 0x00DF +:+ "-Laute") = "SS-Laute".
Proof. repeat split. Qed.

End Cleaning.

(** ** Per-commit statistics *)

Section Statistics.

Lemma span_append (p : ascii -> bool) (run rest : string) :
  string_forall p run = true -> starts_without p rest ->
  span p (run +:+ rest) = (run, rest).
Proof.
  intros Hrun Hrest. induction run as [|c run IH].
  - destruct rest as [|c rest]; [reflexivity|]. cbn in *. now rewrite Hrest.
  - cbn [string_forall] in Hrun. apply andb_true_iff in Hrun. destruct Hrun as [Hc Hrun].
    rewrite append_cons. cbn [span]. rewrite Hc, (IH Hrun). reflexivity.
Qed.

Lemma span_inv (p : ascii -> bool) (s run rest : string) :
  span p s = (run, rest) ->
  s = run +:+ rest /\ string_forall p run = true /\ starts_without p rest.
Proof.
  revert run rest. induction s as [|c s IH]; intros run rest H.
  - cbn in H. injection H as <- <-. cbn. auto.
  - cbn [span] in H. destruct (p c) eqn:Hc.
    + destruct (span p s) as [run' rest'] eqn:Hs. injection H as <- <-.
      destruct (IH run' rest' eq_refl) as [-> [Hrun Hrest]].
      cbn [string_forall]. rewrite Hc, Hrun. auto.
    + injection H as <- <-. cbn. auto.
Qed.

Lemma isspace_not_isdigit (c : ascii) : Py.isspace c = true -> Py.isdigit c = false.
Proof. destruct c as [[] [] [] [] [] [] [] []]; vm_compute; congruence. Qed.

Lemma match_count_here_sound (word s digits : string) :
  match_count_here word s = Some digits -> count_match word s digits.
Proof.
  unfold match_count_here. destruct (span Py.isdigit s) as [ds r1] eqn:Hd.
  destruct ds as [|d ds]; [discriminate|].
  destruct (span Py.isspace r1) as [ws r2] eqn:Hw.
  destruct ws as [|w ws]; [discriminate|].
  destruct (Py.startswith r2 word) eqn:Hp; [|discriminate].
  intros H. injection H as <-.
  apply span_inv in Hd, Hw. destruct Hd as [-> [Hds _]], Hw as [-> [Hws _]].
  apply prefix_spec in Hp. destruct Hp as [rest ->].
  exists (String w ws), rest. repeat split; auto; discriminate.
Qed.

Lemma match_count_here_complete (w0 : ascii) (word' s digits : string) :
  Py.isspace w0 = false ->
  count_match (String w0 word') s digits ->
  match_count_here (String w0 word') s = Some digits.
Proof.
  intros Hw0 [spaces [rest [-> [Hne [Hds [Hnes Hws]]]]]].
  unfold match_count_here.
  assert (Hsp : starts_without Py.isdigit (spaces +:+ String w0 word' +:+ rest)).
  { destruct spaces as [|c spaces]; [congruence|].
    cbn in Hws |- *. apply andb_true_iff in Hws. now apply isspace_not_isdigit. }
  rewrite (span_append Py.isdigit digits _ Hds Hsp).
  destruct digits as [|d digits]; [congruence|].
  assert (Hw : starts_without Py.isspace (String w0 word' +:+ rest)) by exact Hw0.
  rewrite (span_append Py.isspace spaces _ Hws Hw).
  destruct spaces as [|c spaces]; [congruence|].
  unfold Py.startswith. now rewrite prefix_app.
Qed.

Lemma match_count_here_None (w0 : ascii) (word' s : string) :
  Py.isspace w0 = false ->
  match_count_here (String w0 word') s = None <->
  (forall digits, ~ count_match (String w0 word') s digits).
Proof.
  intros Hw0. split.
  - intros H digits Hm. apply (match_count_here_complete w0) in Hm; congruence.
  - intros H. destruct (match_count_here (String w0 word') s) as [ds|] eqn:Hm; [|reflexivity].
    apply match_count_here_sound in Hm. now apply H in Hm.
Qed.

Lemma re_search_count_None (word s : string) :
  re_search_count word s = None ->
  forall pre suf, s = pre +:+ suf -> match_count_here word suf = None.
Proof.
  induction s as [|c s IH]; intros H pre suf Heq.
  - destruct pre; [|discriminate]. cbn in Heq. subst suf.
    cbn [re_search_count] in H. now destruct (match_count_here word "").
  - cbn [re_search_count] in H.
    destruct (match_count_here word (String c s)) eqn:Hm; [discriminate|].
    destruct pre as [|x pre].
    + cbn in Heq. now subst suf.
    + rewrite append_cons in Heq. injection Heq as _ Heq. now apply (IH H pre).
Qed.

Lemma re_search_count_first (word pre suf digits : string) :
  match_count_here word suf = Some digits ->
  (forall a b, pre = a +:+ b -> b <> "" -> match_count_here word (b +:+ suf) = None) ->
  re_search_count word (pre +:+ suf) = Some digits.
Proof.
  intros Hhit. induction pre as [|c pre IH]; intros Hmiss.
  - cbn [String.append]. destruct suf; cbn [re_search_count]; now rewrite Hhit.
  - rewrite append_cons. cbn [re_search_count]. rewrite <- append_cons.
    rewrite (Hmiss "" (String c pre)) by (try reflexivity; discriminate).
    apply IH. intros a b -> Hb. apply (Hmiss (String c a) b); [reflexivity|exact Hb].
Qed.

Lemma re_search_no_count (w0 : ascii) (word' line : string) :
  Py.isspace w0 = false ->
  no_count (String w0 word') line ->
  re_search_count (String w0 word') line = None.
Proof.
  intros Hw0 Hno.
  destruct (re_search_count (String w0 word') line) as [ds|] eqn:Hs; [|reflexivity].
  exfalso. revert Hno Hs. induction line as [|c line IH]; intros Hno Hs.
  - cbn [re_search_count] in Hs.
    destruct (match_count_here (String w0 word') "") eqn:Hm; [|discriminate].
    apply match_count_here_sound in Hm. exact (Hno "" "" _ eq_refl Hm).
  - cbn [re_search_count] in Hs.
    destruct (match_count_here (String w0 word') (String c line)) eqn:Hm.
    + apply match_count_here_sound in Hm. exact (Hno "" _ _ eq_refl Hm).
    + apply IH; [|exact Hs]. intros pre suf ds' ->.
      apply (Hno (String c pre) suf ds'). reflexivity.
Qed.

Lemma re_search_first_count (w0 : ascii) (word' line digits : string) :
  Py.isspace w0 = false ->
  first_count (String w0 word') line digits ->
  re_search_count (String w0 word') line = Some digits.
Proof.
  intros Hw0 [pre [suf [-> [Hhit Hmiss]]]].
  apply re_search_count_first.
  - now apply (match_count_here_complete w0).
  - intros a b Hab Hb. apply (match_count_here_None w0); [exact Hw0|].
    intros ds'. now apply (Hmiss a b ds').
Qed.

Lemma has_marker_spec (line : string) :
  (Py.contains "files changed" line || Py.contains "file changed" line)%bool = true <->
  has_marker line.
Proof. unfold has_marker. now rewrite orb_true_iff, !contains_spec. Qed.

Lemma find_stats_line_None (lines : list string) :
  (forall line, In line lines -> ~ has_marker line) -> find_stats_line lines = None.
Proof.
  induction lines as [|l lines IH]; intros H; [reflexivity|].
  cbn [find_stats_line].
  destruct (Py.contains "files changed" l || Py.contains "file changed" l)%bool eqn:Hm.
  - apply has_marker_spec in Hm. exfalso. apply (H l); [now left|exact Hm].
  - apply IH. intros line Hin. apply H. now right.
Qed.

Lemma find_stats_line_first (before after : list string) (line : string) :
  (forall l, In l before -> ~ has_marker l) -> has_marker line ->
  find_stats_line (before ++ line :: after) = Some line.
Proof.
  intros Hb Hl. induction before as [|l before IH]; cbn [find_stats_line List.app app].
  - apply has_marker_spec in Hl. now rewrite Hl.
  - destruct (Py.contains "files changed" l || Py.contains "file changed" l)%bool eqn:Hm.
    + apply has_marker_spec in Hm. exfalso. apply (Hb l); [now left|exact Hm].
    + apply IH. intros l' Hin. apply Hb. now right.
Qed.

Lemma fold_digits_nonneg (digits : string) (acc : Z) :
  0 <= acc -> string_forall Py.isdigit digits = true ->
  0 <= fold_left (fun acc c => 10 * acc + digit_value c) (list_ascii_of_string digits) acc.
Proof.
  revert acc. induction digits as [|c digits IH]; intros acc Hacc Hd;
    cbn [list_ascii_of_string fold_left].
  - exact Hacc.
  - cbn [string_forall] in Hd. apply andb_true_iff in Hd. destruct Hd as [Hc Hd].
    apply IH; [|exact Hd]. unfold digit_value.
    unfold Py.isdigit in Hc. apply andb_true_iff in Hc. destruct Hc as [Hc _].
    apply Nat.leb_le in Hc. lia.
Qed.

Lemma int_of_digits_nonneg (digits : string) :
  string_forall Py.isdigit digits = true -> 0 <= int_of_digits digits.
Proof. apply fold_digits_nonneg. lia. Qed.

Lemma fold_digits_revapp (d d' : Decimal.uint) :
  fold_left (fun acc c => 10 * acc + digit_value c)
    (list_ascii_of_string (NilEmpty.string_of_uint d))
    (Z.of_N (Unsigned.of_lu d')) =
  Z.of_N (Unsigned.of_lu (Decimal.revapp d d')).
Proof.
  revert d'.
  induction d as [|d IH|d IH|d IH|d IH|d IH|d IH|d IH|d IH|d IH|d IH]; intros d';
    cbn [NilEmpty.string_of_uint list_ascii_of_string fold_left Decimal.revapp];
    [reflexivity|..];
    rewrite <- IH; f_equal; cbn [Unsigned.of_lu]; unfold digit_value;
    match goal with
    | |- context [nat_of_ascii ?c] =>
        let v := eval vm_compute in (nat_of_ascii c) in change (nat_of_ascii c) with v
    end; lia.
Qed.

(** Reading back the decimal numeral of a non-negative integer gives the
    integer. *)
Lemma int_of_digits_str_of_int (n : Z) :
  0 <= n -> int_of_digits (Py.str_of_int n) = n.
Proof.
  intros Hn. unfold int_of_digits, Py.str_of_int.
  destruct n as [|p|p]; [reflexivity| |lia].
  cbn [Z.to_int NilZero.string_of_int]. unfold NilZero.string_of_uint.
  pose proof (Unsigned.to_uint_nonnil p) as Hnil.
  pose proof (fold_digits_revapp (Pos.to_uint p) Decimal.Nil) as H.
  cbn [Unsigned.of_lu Z.of_N] in H.
  destruct (Pos.to_uint p) eqn:Hp; [congruence|..];
    (rewrite H; fold (Decimal.rev (Pos.to_uint p)) in *;
     rewrite <- Hp; fold (Decimal.rev (Pos.to_uint p));
     now rewrite <- Unsigned.of_uint_alt, Unsigned.of_to).
Qed.

Lemma tails_unmatched_spec (word pre suf : string) :
  tails_unmatched word pre suf = true ->
  forall a b, pre = a +:+ b -> b <> "" -> match_count_here word (b +:+ suf) = None.
Proof.
  induction pre as [|c pre IH]; intros H a b Heq Hb.
  - destruct a; [|discriminate]. cbn in Heq. congruence.
  - cbn [tails_unmatched] in H. apply andb_true_iff in H. destruct H as [Hhere Hrest].
    destruct a as [|x a].
    + cbn in Heq. subst b. now destruct (match_count_here word (String c pre +:+ suf)).
    + rewrite append_cons in Heq. injection Heq as _ Heq. now apply (IH Hrest a).
Qed.

Lemma not_has_marker_nil : ~ has_marker "".
Proof. intros H. apply has_marker_spec in H. discriminate. Qed.

Lemma int_of_str_Some (digits : string) :
  (String.length digits <= INT_MAX_STR_DIGITS)%nat ->
  int_of_str digits = Some (int_of_digits digits).
Proof.
  intros H. unfold int_of_str. apply Nat.leb_le in H. now rewrite H.
Qed.

Lemma int_of_str_None (digits : string) :
  ~ (String.length digits <= INT_MAX_STR_DIGITS)%nat -> int_of_str digits = None.
Proof.
  intros H. unfold int_of_str.
  destruct (String.length digits <=? INT_MAX_STR_DIGITS)%nat eqn:Hle; [|reflexivity].
  apply Nat.leb_le in Hle. contradiction.
Qed.

(** What [get_commit_stats] makes of the line it selects: both conversions
    succeed, or the result is [(0, 0)]. *)
Lemma get_commit_stats_line (stats line : string) :
  find_stats_line (split_lines (Py.strip stats)) = Some line ->
  has_marker line ->
  get_commit_stats stats =
  match
    match re_search_count "insertion" line with
    | Some group1 => int_of_str group1
    | None => Some 0
    end,
    match re_search_count "deletion" line with
    | Some group1 => int_of_str group1
    | None => Some 0
    end
  with
  | Some insertions, Some deletions => (insertions, deletions)
  | _, _ => (0, 0)
  end.
Proof.
  intros Hfind Hmark. unfold get_commit_stats.
  destruct stats as [|c stats].
  - vm_compute in Hfind. discriminate.
  - rewrite Hfind. destruct line; [now apply not_has_marker_nil in Hmark|].
    destruct (match re_search_count "insertion" _ with Some _ => _ | None => _ end);
      [|reflexivity].
    now destruct (match re_search_count "deletion" _ with Some _ => _ | None => _ end).
Qed.

Lemma re_search_count_read (w0 : ascii) (word' line : string) (group1 : option string) :
  Py.isspace w0 = false ->
  count_read (String w0 word') line group1 ->
  re_search_count (String w0 word') line = group1.
Proof.
  intros Hw0 Hread. destruct group1 as [digits|]; cbn [count_read] in Hread.
  - now apply re_search_first_count.
  - now apply re_search_no_count.
Qed.

Lemma count_read_nonneg (word line : string) (group1 : option string) :
  count_read word line group1 -> 0 <= count_value group1.
Proof.
  destruct group1 as [digits|]; cbn [count_read count_value]; [|lia].
  intros [pre [suf [_ [[spaces [rest [_ [_ [Hd _]]]]] _]]]].
  now apply int_of_digits_nonneg.
Qed.

Lemma read_convertible (group1 : option string) :
  convertible group1 ->
  match group1 with
  | Some digits => int_of_str digits
  | None => Some 0
  end = Some (count_value group1).
Proof.
  destruct group1 as [digits|]; cbn [convertible count_value]; [|reflexivity].
  apply int_of_str_Some.
Qed.

Lemma read_not_convertible (group1 : option string) :
  ~ convertible group1 ->
  match group1 with
  | Some digits => int_of_str digits
  | None => Some 0
  end = None.
Proof.
  destruct group1 as [digits|]; cbn [convertible]; [|intros H; now destruct H].
  apply int_of_str_None.
Qed.

(** C9: a statistics text none of whose lines names the changed files gives
    zero insertions and zero deletions.  When exactly one line names them
    and it is a line of ASCII characters (where [\d] and [\s] match what
    [isdigit] and [isspace] model), that line decides: a count the line
    does not have stands for zero, a count it has for the integer its
    digits write in decimal, which is not negative; these two integers are
    returned when neither numeral has more digits than [int] converts, and
    [(0, 0)] is returned when one has.  The decimal numeral of a
    non-negative integer is read back as that integer. *)
Theorem get_commit_stats_parse :
  forall stats : string,
    ((forall line, In line (split_lines (Py.strip stats)) -> ~ has_marker line) ->
     get_commit_stats stats = (0, 0)) /\
    (forall (before after : list string) (line : string),
       split_lines (Py.strip stats) = before ++ line :: after ->
       (forall l, In l before -> ~ has_marker l) ->
       (forall l, In l after -> ~ has_marker l) ->
       has_marker line ->
       string_forall Py.isascii line = true ->
       forall ins dels : option string,
         count_read "insertion" line ins ->
         count_read "deletion" line dels ->
         (convertible ins -> convertible dels ->
          get_commit_stats stats = (count_value ins, count_value dels) /\
          0 <= count_value ins /\ 0 <= count_value dels) /\
         (~ (convertible ins /\ convertible dels) ->
          get_commit_stats stats = (0, 0))) /\
    (forall n : Z, 0 <= n -> int_of_digits (Py.str_of_int n) = n).
Proof.
  intros stats. split; [|split].
  - intros Hno. unfold get_commit_stats. destruct stats; [reflexivity|].
    now rewrite find_stats_line_None.
  - intros before after line Hlines Hbefore _ Hline _ ins dels Hins Hdels.
    assert (Hfind : find_stats_line (split_lines (Py.strip stats)) = Some line).
    { rewrite Hlines. now apply find_stats_line_first. }
    rewrite (get_commit_stats_line stats line Hfind Hline).
    rewrite (re_search_count_read "i" "nsertion" line ins eq_refl Hins).
    rewrite (re_search_count_read "d" "eletion" line dels eq_refl Hdels).
    split.
    + intros Hi Hd. rewrite (read_convertible ins Hi), (read_convertible dels Hd).
      split; [reflexivity|]. split; eapply count_read_nonneg; eassumption.
    + intros Hnot.
      destruct (match ins with Some digits => int_of_str digits | None => Some 0 end)
        as [i|] eqn:Hi; [|reflexivity].
      destruct (match dels with Some digits => int_of_str digits | None => Some 0 end)
        as [d|] eqn:Hd; [|reflexivity].
      exfalso. apply Hnot. split.
      * destruct ins as [digits|]; cbn [convertible]; [|exact I].
        unfold int_of_str in Hi.
        destruct (String.length digits <=? INT_MAX_STR_DIGITS)%nat eqn:Hle;
          [now apply Nat.leb_le|discriminate].
      * destruct dels as [digits|]; cbn [convertible]; [|exact I].
        unfold int_of_str in Hd.
        destruct (String.length digits <=? INT_MAX_STR_DIGITS)%nat eqn:Hle;
          [now apply Nat.leb_le|discriminate].
  - exact int_of_digits_str_of_int.
Qed.

(** A line of the commit message that holds the words is taken for the
    shortstat line: the counts of the real one are not read. *)
Lemma get_commit_stats_message_line :
  get_commit_stats
    ("commit 1f3a9c" +:+ Py.nl +:+
     "Author: A <a@example.org>" +:+ Py.nl +:+
     Py.nl +:+
     "    Count each file changed" +:+ Py.nl +:+
     Py.nl +:+
     " 1 file changed, 7 insertions(+), 2 deletions(-)") = (0, 0).
Proof. vm_compute. reflexivity. Qed.

End Statistics.

(** ** Splicing the release section into the changelog *)

Section Splice.

Lemma occurs_at_0 (sub s : string) : occurs_at sub s 0 <-> String.prefix sub s = true.
Proof.
  unfold occurs_at. rewrite prefix_spec. split.
  - intros [pre [post [-> Hlen]]]. destruct pre; [|discriminate]. now exists post.
  - intros [rest ->]. now exists "", rest.
Qed.

Lemma occurs_at_S (sub s : string) (c : ascii) (i : nat) :
  occurs_at sub (String c s) (S i) <-> occurs_at sub s i.
Proof.
  unfold occurs_at. split.
  - intros [[|x pre] [post [H Hlen]]]; [discriminate|].
    rewrite append_cons in H. injection H as -> ->. cbn in Hlen.
    exists pre, post. split; [reflexivity|congruence].
  - intros [pre [post [-> <-]]]. now exists (String c pre), post.
Qed.

Lemma occurs_at_length (sub s : string) (i : nat) :
  occurs_at sub s i -> (i + String.length sub <= String.length s)%nat.
Proof. intros [pre [post [-> <-]]]. rewrite !length_append. lia. Qed.

Lemma occurrences_from_spec (i : nat) (sub s : string) (j : nat) :
  In j (occurrences_from i sub s) <-> (i <= j)%nat /\ occurs_at sub s (j - i).
Proof.
  revert i. induction s as [|c s IH]; intros i; cbn [occurrences_from]; rewrite in_app_iff.
  - split.
    + intros [H|[]]. destruct (String.prefix sub "") eqn:Hp; [|destruct H].
      destruct H as [<-|[]]. rewrite Nat.sub_diag. split; [lia|now apply occurs_at_0].
    + intros [Hle Hocc]. left. pose proof (occurs_at_length _ _ _ Hocc) as Hlen.
      cbn in Hlen. replace (j - i)%nat with 0%nat in Hocc by lia.
      apply occurs_at_0 in Hocc. rewrite Hocc. left. lia.
  - rewrite IH. split.
    + intros [H|[Hle Hocc]].
      * destruct (String.prefix sub (String c s)) eqn:Hp; [|destruct H].
        destruct H as [<-|[]]. rewrite Nat.sub_diag. split; [lia|now apply occurs_at_0].
      * split; [lia|]. replace (j - i)%nat with (S (j - S i)) by lia.
        now apply occurs_at_S.
    + intros [Hle Hocc]. destruct (Nat.eq_dec i j) as [->|Hne].
      * left. rewrite Nat.sub_diag in Hocc. apply occurs_at_0 in Hocc.
        rewrite Hocc. now left.
      * right. split; [lia|]. replace (j - i)%nat with (S (j - S i)) in Hocc by lia.
        now apply occurs_at_S in Hocc.
Qed.

(** [occurrences] lists exactly the offsets at which the text occurs. *)
Lemma occurrences_spec (sub s : string) (j : nat) :
  In j (occurrences sub s) <-> occurs_at sub s j.
Proof.
  unfold occurrences. rewrite occurrences_from_spec, Nat.sub_0_r.
  split; [tauto|]. intros H. split; [lia|exact H].
Qed.

Lemma index_Some (n : nat) (sub s : string) (m : nat) :
  String.index n sub s = Some m -> first_at sub s n m.
Proof.
  unfold first_at. revert n m. induction s as [|c s IH]; intros n m H.
  - destruct n; [|discriminate]. destruct sub; [|discriminate].
    injection H as <-. split; [lia|]. split; [now exists "", ""|lia].
  - destruct n as [|n].
    + cbn [String.index] in H. destruct (String.prefix sub (String c s)) eqn:Hp.
      * injection H as <-. split; [lia|]. split; [now apply occurs_at_0|lia].
      * destruct (String.index 0 sub s) as [k|] eqn:Hk; [|discriminate].
        injection H as <-. destruct (IH 0%nat k Hk) as [_ [Hocc Hmin]].
        split; [lia|]. split; [now apply occurs_at_S|].
        intros [|q] _ Hq.
        -- rewrite occurs_at_0. congruence.
        -- rewrite occurs_at_S. apply Hmin; lia.
    + cbn [String.index] in H.
      destruct (String.index n sub s) as [k|] eqn:Hk; [|discriminate].
      injection H as <-. destruct (IH n k Hk) as [Hle [Hocc Hmin]].
      split; [lia|]. split; [now apply occurs_at_S|].
      intros [|q] Hn Hq; [lia|]. rewrite occurs_at_S. apply Hmin; lia.
Qed.

Lemma index_None (n : nat) (sub s : string) :
  String.index n sub s = None -> sub <> "" -> absent_from sub s n.
Proof.
  unfold absent_from. intros H Hsub. revert n H. induction s as [|c s IH]; intros n H q Hq Hocc.
  - apply occurs_at_length in Hocc. destruct sub; [congruence|]. cbn in Hocc. lia.
  - destruct n as [|n].
    + cbn [String.index] in H. destruct (String.prefix sub (String c s)) eqn:Hp; [discriminate|].
      destruct (String.index 0 sub s) as [k|] eqn:Hk; [discriminate|].
      destruct q as [|q].
      * apply occurs_at_0 in Hocc. congruence.
      * apply occurs_at_S in Hocc. apply (IH 0%nat Hk q); [lia|exact Hocc].
    + cbn [String.index] in H.
      destruct (String.index n sub s) as [k|] eqn:Hk; [discriminate|].
      destruct q as [|q]; [lia|].
      apply occurs_at_S in Hocc. apply (IH n Hk q); [lia|exact Hocc].
Qed.

Lemma index_first (sub s : string) (start p : nat) :
  sub <> "" -> first_at sub s start p -> String.index start sub s = Some p.
Proof.
  intros Hsub [Hle [Hocc Hmin]].
  destruct (String.index start sub s) as [m|] eqn:Hi.
  - apply index_Some in Hi. destruct Hi as [Hle' [Hocc' Hmin']]. f_equal.
    destruct (Nat.lt_trichotomy m p) as [Hlt|[Heq|Hgt]]; [|exact Heq|].
    + exfalso. now apply (Hmin m).
    + exfalso. now apply (Hmin' p).
  - exfalso. exact (index_None _ _ _ Hi Hsub p Hle Hocc).
Qed.

Lemma index_absent (sub s : string) (start : nat) :
  absent_from sub s start -> String.index start sub s = None.
Proof.
  intros Habs. destruct (String.index start sub s) as [m|] eqn:Hi; [|reflexivity].
  apply index_Some in Hi. destruct Hi as [Hle [Hocc _]]. now apply Habs in Hocc.
Qed.

Lemma take_drop (n : nat) (s : string) : Py.take n s +:+ Py.drop n s = s.
Proof.
  revert s. induction n as [|n IH]; intros s; [reflexivity|].
  destruct s as [|c s]; [reflexivity|]. cbn. now rewrite IH.
Qed.

Lemma length_take (n : nat) (s : string) :
  String.length (Py.take n s) = Nat.min n (String.length s).
Proof.
  revert s. induction n as [|n IH]; intros s; [reflexivity|].
  destruct s as [|c s]; [reflexivity|]. cbn. now rewrite IH.
Qed.

Lemma find_0 (s sub : string) : find s sub 0 = match String.index 0 sub s with
                                               | Some i => Z.of_nat i
                                               | None => -1
                                               end.
Proof. reflexivity. Qed.

Lemma find_nat (s sub : string) (start : nat) :
  find s sub (Z.of_nat start) = match String.index start sub s with
                                | Some i => Z.of_nat i
                                | None => -1
                                end.
Proof.
  unfold find. destruct (Z.ltb_spec (Z.of_nat start) 0); [lia|].
  now rewrite Nat2Z.id.
Qed.

(** Searching for the marker when the heading was not found. *)
Lemma find_marker_from_minus_one (s : string) : find s RULE_MARKER (-1) = -1.
Proof.
  unfold find. cbn [Z.ltb Z.compare].
  rewrite index_absent; [reflexivity|].
  intros q Hq Hocc. apply occurs_at_length in Hocc.
  change (String.length RULE_MARKER) with 5%nat in Hocc. lia.
Qed.

Lemma new_content_append (existing_content release_section : string) :
  find existing_content RULE_MARKER (find existing_content UNRELEASED_HEADING 0) = -1 ->
  new_content existing_content release_section =
  existing_content +:+ Py.nl +:+ release_section.
Proof. intros H. unfold new_content. now rewrite H. Qed.

Lemma generate_release_section_title (tag : string) (commits : list commit)
    (release_date : string) :
  exists rest,
    generate_release_section tag commits release_date = "## [" +:+ tag +:+ rest.
Proof.
  destruct commits as [|c commits].
  - eexists. unfold generate_release_section. reflexivity.
  - rewrite generate_release_section_render by discriminate.
    eexists. unfold render_section. reflexivity.
Qed.

Lemma UNRELEASED_HEADING_nonempty : UNRELEASED_HEADING <> "".
Proof. discriminate. Qed.

Lemma RULE_MARKER_nonempty : RULE_MARKER <> "".
Proof. discriminate. Qed.

(** The skeleton ends with the first rule that follows its Unreleased
    heading. *)
Lemma DEFAULT_CHANGELOG_marker :
  exists h p : nat,
    first_at UNRELEASED_HEADING DEFAULT_CHANGELOG 0 h /\
    first_at RULE_MARKER DEFAULT_CHANGELOG h p /\
    (p + String.length RULE_MARKER)%nat = String.length DEFAULT_CHANGELOG.
Proof.
  exists 273%nat, 357%nat. split; [|split].
  - apply index_Some. vm_compute. reflexivity.
  - apply index_Some. vm_compute. reflexivity.
  - vm_compute. reflexivity.
Qed.

Lemma new_content_DEFAULT (release_section : string) :
  new_content DEFAULT_CHANGELOG release_section =
  DEFAULT_CHANGELOG +:+ release_section.
Proof.
  unfold new_content.
  replace (find DEFAULT_CHANGELOG RULE_MARKER (find DEFAULT_CHANGELOG UNRELEASED_HEADING 0))
    with 357 by (vm_compute; reflexivity).
  cbn [Z.eqb Z.add Pos.add Pos.succ].
  replace (slice_to DEFAULT_CHANGELOG 363) with DEFAULT_CHANGELOG by (vm_compute; reflexivity).
  replace (slice_from DEFAULT_CHANGELOG 363) with "" by (vm_compute; reflexivity).
  now rewrite append_nil_r.
Qed.

(** C3, as the code has it: without an Unreleased heading, or without a rule
    at or after it, the section is appended to the document after a line
    break; otherwise the section is inserted at one place of the document
    that lies after the first rule following the heading, and the document is
    otherwise unchanged.  Without a changelog file the section follows the
    skeleton, whose end is the end of that rule, and the tag occurs at offset
    4 of the section. *)
Theorem update_changelog_for_tag_position :
  forall (new_tag : string) (commits : list commit) (release_date : string),
    let release_section := generate_release_section new_tag commits release_date in
    (forall existing_content : string,
       absent_from UNRELEASED_HEADING existing_content 0 ->
       update_changelog_for_tag new_tag commits release_date (Some existing_content) =
       existing_content +:+ Py.nl +:+ release_section) /\
    (forall (existing_content : string) (h : nat),
       first_at UNRELEASED_HEADING existing_content 0 h ->
       absent_from RULE_MARKER existing_content h ->
       update_changelog_for_tag new_tag commits release_date (Some existing_content) =
       existing_content +:+ Py.nl +:+ release_section) /\
    (forall (existing_content : string) (h p : nat),
       first_at UNRELEASED_HEADING existing_content 0 h ->
       first_at RULE_MARKER existing_content h p ->
       exists pre post,
         existing_content = pre +:+ post /\
         (p + String.length RULE_MARKER <= String.length pre)%nat /\
         update_changelog_for_tag new_tag commits release_date (Some existing_content) =
         pre +:+ release_section +:+ post) /\
    (update_changelog_for_tag new_tag commits release_date None =
     DEFAULT_CHANGELOG +:+ release_section /\
     (exists h p : nat,
        first_at UNRELEASED_HEADING DEFAULT_CHANGELOG 0 h /\
        first_at RULE_MARKER DEFAULT_CHANGELOG h p /\
        (p + String.length RULE_MARKER)%nat = String.length DEFAULT_CHANGELOG) /\
     occurs_at new_tag
       (update_changelog_for_tag new_tag commits release_date None)
       (String.length DEFAULT_CHANGELOG + 4)).
Proof.
  intros new_tag commits release_date release_section.
  unfold update_changelog_for_tag. fold release_section.
  split; [|split; [|split]].
  - intros existing_content Habs. apply new_content_append.
    rewrite find_0, (index_absent _ _ _ Habs). apply find_marker_from_minus_one.
  - intros existing_content h Hh Habs. apply new_content_append.
    rewrite find_0, (index_first _ _ _ _ UNRELEASED_HEADING_nonempty Hh).
    now rewrite find_nat, (index_absent _ _ _ Habs).
  - intros existing_content h p Hh Hp. unfold new_content.
    rewrite find_0, (index_first _ _ _ _ UNRELEASED_HEADING_nonempty Hh).
    rewrite find_nat, (index_first _ _ _ _ RULE_MARKER_nonempty Hp).
    destruct (Z.eqb_spec (Z.of_nat p) (-1)); [lia|].
    unfold slice_to, slice_from.
    destruct (Z.ltb_spec (Z.of_nat p + 6) 0); [lia|].
    exists (Py.take (Z.to_nat (Z.of_nat p + 6)) existing_content),
           (Py.drop (Z.to_nat (Z.of_nat p + 6)) existing_content).
    split; [now rewrite take_drop|]. split; [|reflexivity].
    destruct Hp as [_ [Hocc _]]. apply occurs_at_length in Hocc.
    rewrite length_take. change (String.length RULE_MARKER) with 5%nat in *. lia.
  - rewrite new_content_DEFAULT.
    split; [reflexivity|]. split; [exact DEFAULT_CHANGELOG_marker|].
    unfold release_section.
    destruct (generate_release_section_title new_tag commits release_date) as [rest ->].
    exists (DEFAULT_CHANGELOG +:+ "## ["), rest. split.
    + now rewrite !append_assoc.
    + now rewrite length_append.
Qed.

Lemma update_changelog_for_tag_position_witness :
  (exists pre post,
     "## [Unreleased]" +:+ Py.nl +:+ Py.nl +:+ "---" +:+ Py.nl +:+ Py.nl +:+
     Py.nl +:+ "## [v0.9.0]" +:+ Py.nl = pre +:+ post /\
     (17 + String.length RULE_MARKER <= String.length pre)%nat /\
     update_changelog_for_tag "v1.0.0" [] "2024-05-01"
       (Some ("## [Unreleased]" +:+ Py.nl +:+ Py.nl +:+ "---" +:+ Py.nl +:+ Py.nl +:+
              Py.nl +:+ "## [v0.9.0]" +:+ Py.nl)) =
     pre +:+ generate_release_section "v1.0.0" [] "2024-05-01" +:+ post) /\
  update_changelog_for_tag "v1.0.0" [] "2024-05-01" (Some "# Changelog") =
    "# Changelog" +:+ Py.nl +:+ generate_release_section "v1.0.0" [] "2024-05-01" /\
  update_changelog_for_tag "v1.0.0" [] "2024-05-01" (Some "## [Unreleased]") =
    "## [Unreleased]" +:+ Py.nl +:+ generate_release_section "v1.0.0" [] "2024-05-01".
Proof.
  pose proof (update_changelog_for_tag_position "v1.0.0" [] "2024-05-01") as H.
  cbv zeta in H. destruct H as [Habsent [Hnorule [Hrule _]]].
  split; [|split].
  - refine (Hrule _ 0%nat 17%nat _ _); apply index_Some; vm_compute; reflexivity.
  - apply Habsent. apply index_None; [vm_compute; reflexivity|discriminate].
  - refine (Hnorule _ 0%nat _ _).
    + apply index_Some. vm_compute. reflexivity.
    + apply index_None; [vm_compute; reflexivity|discriminate].
Defined.

(** C3 as stated fails: without a changelog file, the release of the tag
    [v2.0.0] gives a document in which the tag occurs twice, the first time in
    the link to the versioning scheme, before the Unreleased heading. *)
Lemma update_changelog_for_tag_counterexample :
  List.length
    (occurrences "v2.0.0"
       (update_changelog_for_tag "v2.0.0" [] "2024-05-01" None)) = 2%nat /\
  List.hd_error
    (occurrences "v2.0.0"
       (update_changelog_for_tag "v2.0.0" [] "2024-05-01" None)) = Some 258%nat /\
  occurrences UNRELEASED_HEADING
    (update_changelog_for_tag "v2.0.0" [] "2024-05-01" None) = [273]%nat.
Proof. repeat split; vm_compute; reflexivity. Qed.

(** With text after the rule, the section is inserted one character into
    that text. *)
Lemma update_changelog_for_tag_after_rule :
  update_changelog_for_tag "v1.0.0" [] "2024-05-01"
    (Some ("## [Unreleased]" +:+ Py.nl +:+ Py.nl +:+ "---" +:+ Py.nl +:+ Py.nl +:+
           "## [v0.9.0] - 2024-01-01" +:+ Py.nl)) =
  "## [Unreleased]" +:+ Py.nl +:+ Py.nl +:+ "---" +:+ Py.nl +:+ Py.nl +:+
  "#" +:+ generate_release_section "v1.0.0" [] "2024-05-01" +:+
  "# [v0.9.0] - 2024-01-01" +:+ Py.nl.
Proof. vm_compute. reflexivity. Qed.

End Splice.

(** * Further properties *)

(** ** Running git: surrounding whitespace *)

Section Whitespace.

Lemma lstrip_starts_without (s : string) : starts_without Py.isspace (Py.lstrip s).
Proof.
  induction s as [|c s IH]; cbn [Py.lstrip]; [exact I|].
  destruct (Py.isspace c) eqn:Hc; [exact IH|exact Hc].
Qed.

Lemma lstrip_fixed (s : string) : starts_without Py.isspace s -> Py.lstrip s = s.
Proof. destruct s as [|c s]; cbn; [reflexivity|]. now intros ->. Qed.

Lemma rstrip_starts_without (s : string) :
  starts_without Py.isspace s -> starts_without Py.isspace (Py.rstrip s).
Proof.
  destruct s as [|c s]; cbn [Py.rstrip starts_without]; [auto|]. intros Hc.
  destruct (Py.rstrip s); [now rewrite Hc|exact Hc].
Qed.

Lemma rstrip_cons (c : ascii) (s : string) :
  Py.rstrip (String c s) =
  match Py.rstrip s with
  | EmptyString => if Py.isspace c then EmptyString else String c EmptyString
  | r => String c r
  end.
Proof. reflexivity. Qed.

Lemma rstrip_idempotent (s : string) : Py.rstrip (Py.rstrip s) = Py.rstrip s.
Proof.
  induction s as [|c s IH]; [reflexivity|]. rewrite rstrip_cons.
  destruct (Py.rstrip s) as [|d r] eqn:Hr.
  - destruct (Py.isspace c) eqn:Hc; [reflexivity|]. cbn. now rewrite Hc.
  - now rewrite rstrip_cons, IH.
Qed.

(** The last character of a right-stripped text is not whitespace. *)
Lemma rstrip_last (s pre : string) (c : ascii) :
  Py.rstrip s = pre +:+ String c "" -> Py.isspace c = false.
Proof.
  revert pre. induction s as [|x s IH]; intros pre H.
  - destruct pre; discriminate.
  - cbn [Py.rstrip] in H. destruct (Py.rstrip s) as [|d r] eqn:Hr.
    + destruct (Py.isspace x) eqn:Hx; [destruct pre; discriminate|].
      destruct pre as [|y pre]; [cbn in H; congruence|].
      rewrite append_cons in H. injection H as _ H. destruct pre; discriminate.
    + destruct pre as [|y pre]; [discriminate|].
      rewrite append_cons in H. injection H as _ H. now apply (IH pre).
Qed.

Lemma strip_idempotent (s : string) : Py.strip (Py.strip s) = Py.strip s.
Proof.
  unfold Py.strip.
  rewrite (lstrip_fixed (Py.rstrip (Py.lstrip s)))
    by apply rstrip_starts_without, lstrip_starts_without.
  apply rstrip_idempotent.
Qed.

(** X1: whatever [subprocess.run] gives, the text [run_git_command] returns
    neither begins nor ends with a whitespace character, and stripping it
    again leaves it as it is. *)
Theorem run_git_command_stripped :
  forall outcome : option completed_process,
    Py.strip (run_git_command outcome) = run_git_command outcome /\
    (forall c rest, run_git_command outcome = String c rest -> Py.isspace c = false) /\
    (forall pre c, run_git_command outcome = pre +:+ String c "" -> Py.isspace c = false).
Proof.
  intros [result|]; cbn [run_git_command].
  2: { repeat split; [intros; discriminate|intros [|? ?]; discriminate]. }
  destruct (negb (returncode result =? 0)).
  { repeat split; [intros; discriminate|intros [|? ?]; discriminate]. }
  destruct (stdout result) as [|x out] eqn:Hout.
  { repeat split; [intros; discriminate|intros [|? ?]; discriminate]. }
  split; [apply strip_idempotent|]. split.
  - intros c rest H.
    pose proof (rstrip_starts_without _ (lstrip_starts_without (String x out))) as Hs.
    unfold Py.strip in H. rewrite H in Hs. exact Hs.
  - intros pre c H. unfold Py.strip in H. exact (rstrip_last _ _ _ H).
Qed.

Lemma run_git_command_stripped_witness :
  run_git_command
    (Some {| returncode := 0; stdout := "  1f3a9c" +:+ Py.nl; stderr := "" |}) = "1f3a9c" /\
  Py.isspace "1"%char = false /\ Py.isspace "c"%char = false.
Proof.
  split; [reflexivity|].
  destruct (run_git_command_stripped
              (Some {| returncode := 0; stdout := "  1f3a9c" +:+ Py.nl; stderr := "" |}))
    as [_ [Hfirst Hlast]].
  split.
  - apply (Hfirst "1"%char "f3a9c"). reflexivity.
  - apply (Hlast "1f3a9" "c"%char). reflexivity.
Defined.

End Whitespace.

(** ** Per-commit statistics: further properties *)

Section StatisticsInvariants.

Lemma re_search_count_digits (word s digits : string) :
  re_search_count word s = Some digits -> string_forall Py.isdigit digits = true.
Proof.
  induction s as [|c s IH]; cbn [re_search_count].
  - destruct (match_count_here word "") eqn:Hm; [|discriminate].
    intros H. injection H as <-. apply match_count_here_sound in Hm.
    now destruct Hm as [spaces [rest [_ [_ [Hd _]]]]].
  - destruct (match_count_here word (String c s)) eqn:Hm; [|exact IH].
    intros H. injection H as <-. apply match_count_here_sound in Hm.
    now destruct Hm as [spaces [rest [_ [_ [Hd _]]]]].
Qed.

Lemma search_value_nonneg (word line : string) (value : Z) :
  match re_search_count word line with
  | Some group1 => int_of_str group1
  | None => Some 0
  end = Some value ->
  0 <= value.
Proof.
  destruct (re_search_count word line) as [ds|] eqn:Hs.
  - unfold int_of_str.
    destruct (String.length ds <=? INT_MAX_STR_DIGITS)%nat; [|discriminate].
    intros H. injection H as <-.
    apply int_of_digits_nonneg. exact (re_search_count_digits _ _ _ Hs).
  - intros H. injection H as <-. lia.
Qed.

Lemma get_commit_stats_nonneg (stats : string) :
  0 <= fst (get_commit_stats stats) /\ 0 <= snd (get_commit_stats stats).
Proof.
  unfold get_commit_stats. destruct stats as [|c stats]; [cbn; lia|].
  destruct (find_stats_line _) as [[|x line]|]; cbn [fst snd]; try lia.
  destruct (match re_search_count "insertion" _ with Some _ => _ | None => _ end)
    as [i|] eqn:Hi; [|cbn; lia].
  destruct (match re_search_count "deletion" _ with Some _ => _ | None => _ end)
    as [d|] eqn:Hd; [|cbn; lia].
  cbn [fst snd]. split; eapply search_value_nonneg; eassumption.
Qed.

(** X2: for every text, well formed or not, both counts [get_commit_stats]
    returns are non-negative; so are the counts for any commit hash in any
    repository. *)
Theorem get_commit_stats_never_negative :
  (forall stats : string,
     0 <= fst (get_commit_stats stats) /\ 0 <= snd (get_commit_stats stats)) /\
  (forall (repo : repository) (commit_hash : string),
     0 <= fst (get_commit_stats_of repo commit_hash) /\
     0 <= snd (get_commit_stats_of repo commit_hash)).
Proof.
  split; [exact get_commit_stats_nonneg|].
  intros repo commit_hash. apply get_commit_stats_nonneg.
Qed.

(** X3: surrounding whitespace does not count: a text and the same text
    stripped give the same counts. *)
Theorem get_commit_stats_strip :
  forall stats : string, get_commit_stats (Py.strip stats) = get_commit_stats stats.
Proof.
  intros stats. unfold get_commit_stats at 1. rewrite strip_idempotent.
  destruct (Py.strip stats) as [|c s] eqn:Hs.
  - unfold get_commit_stats. destruct stats; [reflexivity|]. now rewrite Hs.
  - rewrite <- Hs. unfold get_commit_stats.
    destruct stats; [discriminate|reflexivity].
Qed.

End StatisticsInvariants.

(** ** Per-commit statistics: reading the shortstat line *)

Section Shortstat.

Lemma match_count_here_nondigit (word : string) (c : ascii) (s : string) :
  Py.isdigit c = false -> match_count_here word (String c s) = None.
Proof. intros Hc. unfold match_count_here. cbn [span]. now rewrite Hc. Qed.

Lemma match_count_here_number (word digits rest : string) :
  digits <> "" -> string_forall Py.isdigit digits = true ->
  starts_without Py.isdigit rest ->
  match_count_here word (digits +:+ rest) =
  if count_follows word rest then Some digits else None.
Proof.
  intros Hne Hd Hrest. unfold match_count_here, count_follows.
  rewrite (span_append Py.isdigit digits rest Hd Hrest).
  destruct digits as [|d digits]; [congruence|].
  destruct (span Py.isspace rest) as [spaces rest'].
  now destruct spaces.
Qed.

Lemma search_skip_nondigits (word text rest : string) :
  string_forall not_digit text = true ->
  re_search_count word (text +:+ rest) = re_search_count word rest.
Proof.
  induction text as [|c text IH]; [reflexivity|].
  cbn [string_forall]. rewrite andb_true_iff. intros [Hc Ht].
  rewrite append_cons. cbn [re_search_count].
  rewrite match_count_here_nondigit by (unfold not_digit in Hc; now destruct (Py.isdigit c)).
  now apply IH.
Qed.

Lemma search_skip_number (word digits rest : string) :
  string_forall Py.isdigit digits = true ->
  starts_without Py.isdigit rest ->
  count_follows word rest = false ->
  re_search_count word (digits +:+ rest) = re_search_count word rest.
Proof.
  intros Hd Hrest Hno. induction digits as [|d digits IH]; [reflexivity|].
  pose proof Hd as Hd'. cbn [string_forall] in Hd'. apply andb_true_iff in Hd'.
  destruct Hd' as [_ Hd'].
  rewrite append_cons. cbn [re_search_count]. rewrite <- append_cons.
  rewrite match_count_here_number by (try discriminate; assumption).
  rewrite Hno. now apply IH.
Qed.

Lemma search_hit_number (word digits rest : string) :
  digits <> "" -> string_forall Py.isdigit digits = true ->
  starts_without Py.isdigit rest ->
  count_follows word rest = true ->
  re_search_count word (digits +:+ rest) = Some digits.
Proof.
  intros Hne Hd Hrest Hyes.
  pose proof (match_count_here_number word digits rest Hne Hd Hrest) as Hm.
  rewrite Hyes in Hm.
  destruct digits as [|d digits]; [congruence|].
  rewrite append_cons in *. cbn [re_search_count]. now rewrite Hm.
Qed.

Lemma string_of_uint_digits (d : Decimal.uint) :
  string_forall Py.isdigit (NilEmpty.string_of_uint d) = true.
Proof.
  induction d; cbn [NilEmpty.string_of_uint string_forall]; [reflexivity|..];
    rewrite IHd; reflexivity.
Qed.

(** The decimal numeral of a non-negative integer is a non-empty run of
    digits. *)
Lemma str_of_int_digits (n : Z) :
  0 <= n ->
  Py.str_of_int n <> "" /\ string_forall Py.isdigit (Py.str_of_int n) = true.
Proof.
  intros Hn. unfold Py.str_of_int.
  destruct n as [|p|p]; [split; [discriminate|reflexivity]| |lia].
  cbn [Z.to_int NilZero.string_of_int]. unfold NilZero.string_of_uint.
  pose proof (Unsigned.to_uint_nonnil p) as Hnil.
  pose proof (string_of_uint_digits (Pos.to_uint p)) as Hd.
  destruct (Pos.to_uint p); [congruence|..]; (split; [discriminate|exact Hd]).
Qed.

Lemma count_follows_word (w0 : ascii) (word' rest : string) :
  Py.isspace w0 = false ->
  count_follows (String w0 word') (" " +:+ String w0 word' +:+ rest) = true.
Proof.
  intros Hw0. unfold count_follows.
  rewrite (span_append Py.isspace " " (String w0 word' +:+ rest) eq_refl Hw0).
  unfold Py.startswith. apply prefix_app.
Qed.

Lemma has_marker_shortstat (indent tail : string) (files ins dels : Z)
    (many_files many_ins many_dels : bool) :
  has_marker (indent +:+ shortstat_line files ins dels many_files many_ins many_dels +:+ tail).
Proof.
  unfold has_marker, shortstat_line. destruct many_files; [left|right].
  - exists (indent +:+ Py.str_of_int files +:+ " "). eexists.
    rewrite !append_assoc. cbn [plural String.append]. reflexivity.
  - exists (indent +:+ Py.str_of_int files +:+ " "). eexists.
    rewrite !append_assoc. cbn [plural String.append]. reflexivity.
Qed.

Lemma search_insertion_shortstat (indent tail : string) (files ins dels : Z)
    (many_files many_ins many_dels : bool) :
  0 <= files -> 0 <= ins ->
  string_forall not_digit indent = true ->
  re_search_count "insertion"
    (indent +:+ shortstat_line files ins dels many_files many_ins many_dels +:+ tail) =
  Some (Py.str_of_int ins).
Proof.
  intros Hf Hi Hindent.
  destruct (str_of_int_digits files Hf) as [_ Hfd].
  destruct (str_of_int_digits ins Hi) as [Hine Hid].
  unfold shortstat_line. rewrite !append_assoc.
  rewrite (search_skip_nondigits _ indent) by exact Hindent.
  rewrite (search_skip_number _ (Py.str_of_int files)) by (try exact Hfd; reflexivity).
  rewrite (search_skip_nondigits _ " file") by reflexivity.
  rewrite (search_skip_nondigits _ (plural many_files)) by (now destruct many_files).
  rewrite (search_skip_nondigits _ " changed, ") by reflexivity.
  apply search_hit_number; try assumption; [reflexivity|].
  now apply (count_follows_word "i" "nsertion").
Qed.

Lemma search_deletion_shortstat (indent tail : string) (files ins dels : Z)
    (many_files many_ins many_dels : bool) :
  0 <= files -> 0 <= ins -> 0 <= dels ->
  string_forall not_digit indent = true ->
  re_search_count "deletion"
    (indent +:+ shortstat_line files ins dels many_files many_ins many_dels +:+ tail) =
  Some (Py.str_of_int dels).
Proof.
  intros Hf Hi Hd Hindent.
  destruct (str_of_int_digits files Hf) as [_ Hfd].
  destruct (str_of_int_digits ins Hi) as [_ Hid].
  destruct (str_of_int_digits dels Hd) as [Hdne Hdd].
  unfold shortstat_line. rewrite !append_assoc.
  rewrite (search_skip_nondigits _ indent) by exact Hindent.
  rewrite (search_skip_number _ (Py.str_of_int files)) by (try exact Hfd; reflexivity).
  rewrite (search_skip_nondigits _ " file") by reflexivity.
  rewrite (search_skip_nondigits _ (plural many_files)) by (now destruct many_files).
  rewrite (search_skip_nondigits _ " changed, ") by reflexivity.
  rewrite (search_skip_number _ (Py.str_of_int ins)) by (try exact Hid; reflexivity).
  rewrite (search_skip_nondigits _ " insertion") by reflexivity.
  rewrite (search_skip_nondigits _ (plural many_ins)) by (now destruct many_ins).
  rewrite (search_skip_nondigits _ "(+), ") by reflexivity.
  apply search_hit_number; try assumption; [reflexivity|].
  now apply (count_follows_word "d" "eletion").
Qed.

(** X4: when the first line that names the changed files is a shortstat
    line, possibly indented by ASCII characters other than digits and
    followed by more text, [get_commit_stats] returns exactly the insertion
    and deletion counts the line writes, whatever the three counts and
    whether the nouns are singular or plural, as long as the numerals of the
    two counts are not longer than [int] converts. *)
Theorem get_commit_stats_shortstat :
  forall (stats : string) (before after : list string) (indent tail : string)
         (files ins dels : Z) (many_files many_ins many_dels : bool),
    0 <= files -> 0 <= ins -> 0 <= dels ->
    (String.length (Py.str_of_int ins) <= INT_MAX_STR_DIGITS)%nat ->
    (String.length (Py.str_of_int dels) <= INT_MAX_STR_DIGITS)%nat ->
    string_forall Py.isascii indent = true ->
    string_forall not_digit indent = true ->
    split_lines (Py.strip stats) =
      before ++
      (indent +:+ shortstat_line files ins dels many_files many_ins many_dels +:+ tail)
      :: after ->
    (forall l, In l before -> ~ has_marker l) ->
    get_commit_stats stats = (ins, dels).
Proof.
  intros stats before after indent tail files ins dels mf mi md
         Hf Hi Hd Hilen Hdlen _ Hindent Hlines Hbefore.
  pose proof (has_marker_shortstat indent tail files ins dels mf mi md) as Hmark.
  rewrite (get_commit_stats_line stats _
             ltac:(rewrite Hlines; now apply find_stats_line_first) Hmark).
  rewrite search_insertion_shortstat, search_deletion_shortstat by assumption.
  rewrite !int_of_str_Some by assumption.
  now rewrite !int_of_digits_str_of_int by assumption.
Qed.

Lemma get_commit_stats_shortstat_witness :
  get_commit_stats
    ("commit 1f3a9c" +:+ Py.nl +:+
     "Author: A <a@example.org>" +:+ Py.nl +:+
     Py.nl +:+
     "    Rename the module" +:+ Py.nl +:+
     Py.nl +:+
     " 1 file changed, 120 insertions(+), 1 deletion(-)" +:+ Py.nl) = (120, 1).
Proof.
  apply (get_commit_stats_shortstat _
           ["commit 1f3a9c"; "Author: A <a@example.org>"; ""; "    Rename the module"; ""]
           [] " " "" 1 120 1 false true false).
  - lia.
  - lia.
  - lia.
  - apply Nat.leb_le. vm_compute. reflexivity.
  - apply Nat.leb_le. vm_compute. reflexivity.
  - reflexivity.
  - reflexivity.
  - vm_compute. reflexivity.
  - intros l Hin Hm. apply has_marker_spec in Hm.
    each_member Hin ltac:(vm_compute in Hm; discriminate).
Defined.

End Shortstat.

(** ** Per-commit statistics: the longest numeral *)

Section LongestNumeral.

Lemma length_repeat_string (s : string) (n : nat) :
  String.length (repeat_string s n) = (n * String.length s)%nat.
Proof.
  induction n as [|n IH]; cbn [repeat_string]; [reflexivity|].
  rewrite length_append, IH. cbn [Nat.mul]. lia.
Qed.

Lemma repeat_string_digits (n : nat) :
  string_forall Py.isdigit (repeat_string "7" n) = true.
Proof.
  induction n as [|n IH]; cbn [repeat_string]; [reflexivity|].
  cbn [String.append string_forall]. now rewrite IH.
Qed.

Lemma fold_sevens (n : nat) (acc : Z) :
  0 <= acc ->
  acc <= fold_left (fun acc c => 10 * acc + digit_value c)
           (list_ascii_of_string (repeat_string "7" n)) acc.
Proof.
  revert acc. induction n as [|n IH]; intros acc Hacc; cbn [repeat_string].
  - cbn. lia.
  - cbn [String.append list_ascii_of_string fold_left].
    assert (Hd : digit_value "7" = 7) by reflexivity. rewrite Hd.
    specialize (IH (10 * acc + 7) ltac:(lia)). lia.
Qed.

Lemma int_of_digits_sevens (n : nat) : 0 < int_of_digits (repeat_string "7" (S n)).
Proof.
  unfold int_of_digits. cbn [repeat_string String.append list_ascii_of_string fold_left].
  assert (Hd : digit_value "7" = 7) by reflexivity. rewrite Hd.
  pose proof (fold_sevens n (10 * 0 + 7) ltac:(lia)). lia.
Qed.

Lemma long_count_too_long : ~ (String.length long_count <= INT_MAX_STR_DIGITS)%nat.
Proof.
  unfold long_count. rewrite length_repeat_string. intros H.
  apply Nat.leb_le in H. vm_compute in H. discriminate.
Qed.

Lemma search_insertion_long_count :
  re_search_count "insertion" long_count_stats = Some long_count.
Proof.
  change long_count_stats
    with ("1" +:+ " file changed, " +:+ long_count +:+ " insertions(+)").
  rewrite (search_skip_number _ "1") by reflexivity.
  rewrite (search_skip_nondigits _ " file changed, ") by reflexivity.
  apply search_hit_number; [discriminate|apply repeat_string_digits|reflexivity|reflexivity].
Qed.

Lemma search_deletion_long_count :
  re_search_count "deletion" long_count_stats = None.
Proof.
  change long_count_stats
    with ("1" +:+ " file changed, " +:+ long_count +:+ " insertions(+)").
  rewrite (search_skip_number _ "1") by reflexivity.
  rewrite (search_skip_nondigits _ " file changed, ") by reflexivity.
  rewrite (search_skip_number _ long_count)
    by (try apply repeat_string_digits; reflexivity).
  reflexivity.
Qed.

Lemma find_stats_line_long_count :
  find_stats_line (split_lines (Py.strip long_count_stats)) = Some long_count_stats.
Proof. vm_compute. reflexivity. Qed.

Lemma has_marker_long_count : has_marker long_count_stats.
Proof. right. now exists "1 ", (", " +:+ long_count +:+ " insertions(+)"). Qed.

Lemma get_commit_stats_parse_witness :
  get_commit_stats
    ("commit 1f3a9c" +:+ Py.nl +:+
     "Author: A <a@example.org>" +:+ Py.nl +:+
     Py.nl +:+
     "    Add the chart" +:+ Py.nl +:+
     Py.nl +:+
     " 2 files changed, 15 insertions(+), 3 deletions(-)") = (15, 3) /\
  get_commit_stats long_count_stats = (0, 0) /\
  get_commit_stats "fatal: bad object" = (0, 0).
Proof.
  split; [|split].
  - match goal with |- get_commit_stats ?s = _ =>
      refine (proj1 (proj1 (proj1 (proj2 (get_commit_stats_parse s))
                 ["commit 1f3a9c"; "Author: A <a@example.org>"; ""; "    Add the chart"; ""]
                 []
                 " 2 files changed, 15 insertions(+), 3 deletions(-)"
                 _ _ _ _ _ (Some "15") (Some "3") _ _) _ _))
    end.
    + vm_compute. reflexivity.
    + intros l Hin Hm. apply has_marker_spec in Hm.
      each_member Hin ltac:(vm_compute in Hm; discriminate).
    + intros l [].
    + apply has_marker_spec. vm_compute. reflexivity.
    + reflexivity.
    + exists " 2 files changed, ", "15 insertions(+), 3 deletions(-)".
      split; [reflexivity|split].
      * exists " ", "s(+), 3 deletions(-)". repeat split; discriminate.
      * intros a b ds Hab Hb. apply (match_count_here_None "i"); [reflexivity|].
        revert a b Hab Hb. apply tails_unmatched_spec. vm_compute. reflexivity.
    + exists " 2 files changed, 15 insertions(+), ", "3 deletions(-)".
      split; [reflexivity|split].
      * exists " ", "s(-)". repeat split; discriminate.
      * intros a b ds Hab Hb. apply (match_count_here_None "d"); [reflexivity|].
        revert a b Hab Hb. apply tails_unmatched_spec. vm_compute. reflexivity.
    + apply Nat.leb_le. vm_compute. reflexivity.
    + apply Nat.leb_le. vm_compute. reflexivity.
  - refine (proj2 (proj1 (proj2 (get_commit_stats_parse long_count_stats))
               [] [] long_count_stats _ _ _ _ _ (Some long_count) None _ _) _).
    + vm_compute. reflexivity.
    + intros l [].
    + intros l [].
    + exact has_marker_long_count.
    + vm_compute. reflexivity.
    + exists "1 file changed, ", (long_count +:+ " insertions(+)").
      split; [reflexivity|split].
      * exists " ", "s(+)". split; [reflexivity|].
        split; [discriminate|]. split; [apply repeat_string_digits|].
        split; [discriminate|reflexivity].
      * intros a b ds Hab Hb. apply (match_count_here_None "i"); [reflexivity|].
        revert a b Hab Hb. apply tails_unmatched_spec. vm_compute. reflexivity.
    + intros pre suf ds Hsplit. apply (match_count_here_None "d"); [reflexivity|].
      exact (re_search_count_None "deletion" long_count_stats
               search_deletion_long_count pre suf Hsplit).
    + intros [H _]. exact (long_count_too_long H).
  - apply (proj1 (get_commit_stats_parse "fatal: bad object")).
    intros l Hin Hm. apply has_marker_spec in Hm. cbn in Hin.
    destruct Hin as [<-|[]]. vm_compute in Hm. discriminate.
Defined.

(** The claim fails on a count of 4301 digits: the line has an insertion
    count, which names a positive integer, and the result is [(0, 0)]. *)
Lemma get_commit_stats_long_count :
  re_search_count "insertion" long_count_stats = Some long_count /\
  0 < int_of_digits long_count /\
  get_commit_stats long_count_stats = (0, 0).
Proof.
  split; [exact search_insertion_long_count|].
  split; [exact (int_of_digits_sevens 4300)|].
  rewrite (get_commit_stats_line _ _ find_stats_line_long_count has_marker_long_count).
  rewrite search_insertion_long_count.
  now rewrite (int_of_str_None long_count long_count_too_long).
Qed.

End LongestNumeral.

(** ** Commit fetcher *)

Section Fetcher.

Lemma string_forall_append (p : ascii -> bool) (a b : string) :
  string_forall p (a +:+ b) = (string_forall p a && string_forall p b)%bool.
Proof.
  induction a as [|c a IH]; [reflexivity|].
  rewrite append_cons. cbn [string_forall]. now rewrite IH, andb_assoc.
Qed.

Lemma split_max_0 (sep : ascii) (s : string) : split_max sep s 0 = [s].
Proof. now destruct s. Qed.

Lemma split_max_no_sep (sep : ascii) (s : string) (n : nat) :
  no_char sep s = true -> split_max sep s n = [s].
Proof.
  unfold no_char. induction s as [|c s IH]; intros H; [reflexivity|].
  cbn [string_forall] in H. apply andb_true_iff in H. destruct H as [Hc Hs].
  cbn [split_max]. destruct n as [|n]; [reflexivity|].
  apply negb_true_iff in Hc. now rewrite Hc, (IH Hs).
Qed.

(** Splitting takes the text before the first separator as the first part. *)
Lemma split_max_field (sep : ascii) (field rest : string) (n : nat) :
  no_char sep field = true ->
  split_max sep (field +:+ String sep rest) (S n) = field :: split_max sep rest n.
Proof.
  unfold no_char. induction field as [|c field IH]; intros H.
  - cbn. now rewrite Ascii.eqb_refl.
  - cbn [string_forall] in H. apply andb_true_iff in H. destruct H as [Hc Hf].
    rewrite append_cons. cbn [split_max]. apply negb_true_iff in Hc.
    now rewrite Hc, (IH Hf).
Qed.

(** Either nothing is split off, or the first part ends at the first
    separator and the rest is split with one split less. *)
Lemma split_max_cases (sep : ascii) (s : string) (n : nat) :
  (split_max sep s n = [s] /\ (n = 0%nat \/ no_char sep s = true)) \/
  (exists field rest n',
     n = S n' /\ no_char sep field = true /\ s = field +:+ String sep rest /\
     split_max sep s n = field :: split_max sep rest n').
Proof.
  destruct n as [|n]; [left; split; [apply split_max_0|now left]|].
  induction s as [|c s IH].
  - left. split; [reflexivity|now right].
  - destruct (Ascii.eqb c sep) eqn:Hc.
    + right. apply Ascii.eqb_eq in Hc. subst c. exists "", s, n.
      repeat split. cbn. now rewrite Ascii.eqb_refl.
    + destruct IH as [[Hs [Hn|Hno]]|[field [rest [n' [Hn [Hf [Heq Hs]]]]]]].
      * discriminate.
      * left. split; [|right]; [apply split_max_no_sep|];
          unfold no_char in *; cbn [string_forall]; now rewrite Hc, Hno.
      * right. injection Hn as <-. exists (String c field), rest, n.
        repeat split.
        -- unfold no_char in *. cbn [string_forall]. now rewrite Hc, Hf.
        -- now rewrite Heq.
        -- cbn [split_max]. now rewrite Hc, Hs.
Qed.

Lemma strip_empty (s : string) : Py.strip s = "" -> string_forall Py.isspace s = true.
Proof.
  unfold Py.strip. intros H.
  assert (Hl : Py.lstrip s = "").
  { pose proof (lstrip_starts_without s) as Hs.
    destruct (Py.lstrip s) as [|c t]; [reflexivity|].
    rewrite rstrip_cons in H. cbn [starts_without] in Hs. rewrite Hs in H.
    destruct (Py.rstrip t); discriminate. }
  clear H. induction s as [|c s IH]; [reflexivity|].
  cbn [Py.lstrip] in Hl. cbn [string_forall].
  destruct (Py.isspace c); [now apply IH|discriminate].
Qed.

(** A line that holds a [|] is not blank. *)
Lemma strip_commit_line (a b : string) : Py.strip (a +:+ String "|" b) <> "".
Proof.
  intros H. apply strip_empty in H. rewrite string_forall_append in H.
  apply andb_true_iff in H. destruct H as [_ H]. cbn in H. discriminate.
Qed.

Lemma split_max_commit_line (c : commit) :
  no_char "|" (hash c) = true -> no_char "|" (message c) = true ->
  no_char "|" (author c) = true -> no_char "|" (date c) = true ->
  split_max "|" (commit_line c) 4 = [hash c; message c; author c; date c; body c].
Proof.
  intros Hh Hm Ha Hd. unfold commit_line.
  change (split_max "|"
            (hash c +:+ String "|" (message c +:+ String "|" (author c +:+
               String "|" (date c +:+ String "|" (body c))))) 4 = 
          [hash c; message c; author c; date c; body c]).
  rewrite !split_max_field by assumption. now rewrite split_max_0.
Qed.

Lemma commit_list_lines (repo : repository) (cs : list commit) :
  (forall c, In c cs -> one_line_fields c) ->
  commit_list repo (map commit_line cs) = map (with_stats repo) cs.
Proof.
  induction cs as [|c cs IH]; intros H; [reflexivity|].
  cbn [map commit_list].
  destruct (H c (or_introl eq_refl)) as (Hh & _ & Hm & _ & Ha & _ & Hd & _).
  destruct (Py.strip (commit_line c)) eqn:Hs;
    [exfalso; revert Hs; apply strip_commit_line|].
  rewrite split_max_commit_line by assumption.
  rewrite IH by (intros x Hx; apply H; now right).
  unfold with_stats. now destruct (get_commit_stats_of repo (hash c)).
Qed.

Lemma no_char_nl (s : string) : no_char "010" s = true -> ~ occurs_in Py.nl s.
Proof.
  unfold no_char. induction s as [|c s IH]; intros H Hocc.
  - destruct Hocc as [[|? ?] [post Heq]]; discriminate.
  - cbn [string_forall] in H. apply andb_true_iff in H. destruct H as [Hc Hs].
    apply occurs_nl_cons in Hocc. destruct Hocc as [->|Hocc]; [discriminate|].
    now apply IH.
Qed.

Lemma split_lines_single (s : string) : no_char "010" s = true -> split_lines s = [s].
Proof.
  unfold no_char. induction s as [|c s IH]; intros H; [reflexivity|].
  cbn [string_forall] in H. apply andb_true_iff in H. destruct H as [Hc Hs].
  cbn [split_lines]. apply negb_true_iff in Hc. now rewrite Hc, (IH Hs).
Qed.

(** Joining lines with line breaks and splitting again gives the lines. *)
Lemma split_lines_join (lines : list string) :
  lines <> [] -> (forall l, In l lines -> no_char "010" l = true) ->
  split_lines (Py.join Py.nl lines) = lines.
Proof.
  induction lines as [|l lines IH]; intros Hne H; [congruence|].
  destruct lines as [|l' lines].
  - cbn [Py.join]. apply split_lines_single, H. now left.
  - change (Py.join Py.nl (l :: l' :: lines))
      with (l +:+ Py.nl +:+ Py.join Py.nl (l' :: lines)).
    rewrite split_lines_line by (apply no_char_nl, H; now left).
    rewrite IH; [reflexivity|discriminate|]. intros x Hx. apply H. now right.
Qed.

Lemma split_lines_no_nl (s : string) :
  forall l, In l (split_lines s) -> no_char "010" l = true.
Proof.
  unfold no_char. induction s as [|c s IH]; intros l Hin.
  - destruct Hin as [<-|[]]. reflexivity.
  - cbn [split_lines] in Hin. destruct (Ascii.eqb c "010") eqn:Hc.
    + destruct Hin as [<-|Hin]; [reflexivity|now apply IH].
    + destruct (split_lines s) as [|line lines].
      * destruct Hin as [<-|[]]. cbn. now rewrite Hc.
      * destruct Hin as [<-|Hin].
        -- cbn [string_forall]. rewrite Hc. cbn. apply IH. now left.
        -- apply IH. now right.
Qed.

Lemma commit_line_no_nl (c : commit) :
  one_line_fields c -> no_char "010" (commit_line c) = true.
Proof.
  intros (_ & Hh & _ & Hm & _ & Ha & _ & Hd & Hb). unfold commit_line, no_char in *.
  rewrite !string_forall_append, Hh, Hm, Ha, Hd, Hb. reflexivity.
Qed.

Lemma commit_list_join (repo : repository) (cs : list commit) :
  (forall c, In c cs -> one_line_fields c) ->
  match Py.join Py.nl (map commit_line cs) with
  | EmptyString => []
  | commits => commit_list repo (split_lines commits)
  end = map (with_stats repo) cs.
Proof.
  intros H. destruct cs as [|c cs]; [reflexivity|].
  assert (Hlines : split_lines (Py.join Py.nl (map commit_line (c :: cs))) =
                   map commit_line (c :: cs)).
  { apply split_lines_join; [discriminate|].
    intros l Hl. apply in_map_iff in Hl. destruct Hl as [x [<- Hx]].
    now apply commit_line_no_nl, H. }
  destruct (Py.join Py.nl (map commit_line (c :: cs))) eqn:Hj.
  - cbn in Hlines. injection Hlines as Hl _. unfold commit_line in Hl.
    destruct (hash c); discriminate.
  - rewrite Hlines. now apply commit_list_lines.
Qed.

(** X5: when the log that git prints holds one line per commit, with no [|]
    in hash, subject, author and date and no line break in any field, both
    fetchers return exactly these commits, in the order of the log, each with
    the counts of its hash; an empty log gives no commit. *)
Theorem get_commits_round_trip :
  forall (repo : repository) (cs : list commit),
    (forall c, In c cs -> one_line_fields c) ->
    (forall tag : string,
       git repo ["git"; "rev-parse"; tag] <> "" ->
       git repo (log_command (git repo ["git"; "rev-parse"; tag])) =
         Py.join Py.nl (map commit_line cs) ->
       get_commits_for_tag repo tag = map (with_stats repo) cs) /\
    (forall from_tag to_tag : string,
       from_tag <> "" ->
       git repo ["git"; "rev-parse"; from_tag] <> "" ->
       git repo ["git"; "rev-parse"; to_tag] <> "" ->
       git repo (log_command (git repo ["git"; "rev-parse"; from_tag] +:+ ".." +:+
                              git repo ["git"; "rev-parse"; to_tag])) =
         Py.join Py.nl (map commit_line cs) ->
       get_commits_between_tags repo from_tag to_tag = map (with_stats repo) cs).
Proof.
  intros repo cs Hcs. split.
  - intros tag Hhash Hlog. unfold get_commits_for_tag.
    destruct (git repo ["git"; "rev-parse"; tag]) as [|x h] eqn:Hh; [congruence|].
    fold (log_command (String x h)). rewrite Hlog. now apply commit_list_join.
  - intros from_tag to_tag Hfrom Hfh Hth Hlog. unfold get_commits_between_tags.
    destruct from_tag as [|f from_tag]; [congruence|].
    destruct (git repo ["git"; "rev-parse"; String f from_tag]) as [|x h] eqn:Hh;
      [congruence|].
    destruct (git repo ["git"; "rev-parse"; to_tag]) as [|y h'] eqn:Hh'; [congruence|].
    fold (log_command (String x h +:+ ".." +:+ String y h')). rewrite Hlog.
    now apply commit_list_join.
Qed.

Lemma get_commits_round_trip_witness :
  get_commits_between_tags
    (repository_with_log (Py.join Py.nl (map commit_line example_commits)))
    "v1.0.0" "HEAD" =
  [ {| hash := "a1"; message := "feat: add chart"; author := "Ann"; date := "Mon May 6";
       body := ""; insertions := 15; deletions := 3 |};
    {| hash := "b2"; message := "Fix crash"; author := "Bob"; date := "Tue May 7";
       body := "see #12 | urgent"; insertions := 1; deletions := 0 |} ].
Proof.
  refine (eq_trans
            (proj2 (get_commits_round_trip _ example_commits _) "v1.0.0" "HEAD" _ _ _ _) _).
  - intros c Hin. each_member Hin ltac:(repeat split).
  - discriminate.
  - vm_compute. discriminate.
  - vm_compute. discriminate.
  - vm_compute. reflexivity.
  - vm_compute. reflexivity.
Defined.

(** Five parts after at most four splits: the first four hold no separator
    and the parts spell the text. *)
Lemma split_max_five (s h m a d b : string) (tl : list string) :
  split_max "|" s 4 = h :: m :: a :: d :: b :: tl ->
  tl = [] /\
  no_char "|" h = true /\ no_char "|" m = true /\
  no_char "|" a = true /\ no_char "|" d = true /\
  s = h +:+ "|" +:+ m +:+ "|" +:+ a +:+ "|" +:+ d +:+ "|" +:+ b.
Proof.
  intros H.
  destruct (split_max_cases "|" s 4) as [[H1 _]|(f1 & r1 & n1 & Hn1 & Hf1 & -> & H1)];
    rewrite H1 in H; [discriminate|]. injection Hn1 as <-. injection H as <- H.
  destruct (split_max_cases "|" r1 3) as [[H2 _]|(f2 & r2 & n2 & Hn2 & Hf2 & -> & H2)];
    rewrite H2 in H; [discriminate|]. injection Hn2 as <-. injection H as <- H.
  destruct (split_max_cases "|" r2 2) as [[H3 _]|(f3 & r3 & n3 & Hn3 & Hf3 & -> & H3)];
    rewrite H3 in H; [discriminate|]. injection Hn3 as <-. injection H as <- H.
  destruct (split_max_cases "|" r3 1) as [[H4 _]|(f4 & r4 & n4 & Hn4 & Hf4 & -> & H4)];
    rewrite H4 in H; [discriminate|]. injection Hn4 as <-. injection H as <- H.
  rewrite split_max_0 in H. injection H as <- <-.
  repeat split; assumption.
Qed.

Lemma commit_list_In (repo : repository) (lines : list string) (c : commit) :
  In c (commit_list repo lines) ->
  In (commit_line c) lines /\
  no_char "|" (hash c) = true /\ no_char "|" (message c) = true /\
  no_char "|" (author c) = true /\ no_char "|" (date c) = true /\
  (insertions c, deletions c) = get_commit_stats_of repo (hash c).
Proof.
  induction lines as [|l lines IH]; cbn [commit_list]; [intros []|].
  assert (Hrest : In c (commit_list repo lines) ->
                  In (commit_line c) (l :: lines) /\
                  no_char "|" (hash c) = true /\ no_char "|" (message c) = true /\
                  no_char "|" (author c) = true /\ no_char "|" (date c) = true /\
                  (insertions c, deletions c) = get_commit_stats_of repo (hash c)).
  { intros Hin. destruct (IH Hin) as [Hl Hf]. split; [now right|exact Hf]. }
  destruct (Py.strip l) as [|x0 stripped]; [exact Hrest|].
  destruct (split_max "|" l 4) as [|h [|m [|a [|d [|b tl]]]]] eqn:Hs; try exact Hrest.
  apply split_max_five in Hs. destruct Hs as (_ & Hh & Hm & Ha & Hd & ->).
  destruct (get_commit_stats_of repo h) as [i dl] eqn:Hst.
  intros [<-|Hin]; [|now apply Hrest].
  cbn [hash message author date body insertions deletions commit_line].
  rewrite Hst. repeat split; try assumption. now left.
Qed.

Lemma fetched_record_of_lines (repo : repository) (text : string) (c : commit) :
  In c (commit_list repo (split_lines text)) -> fetched_record repo c.
Proof.
  intros Hin. apply commit_list_In in Hin.
  destruct Hin as (Hl & Hh & Hm & Ha & Hd & Hst). unfold fetched_record.
  pose proof (get_commit_stats_nonneg
                (git repo ["git"; "show"; "--shortstat"; hash c])) as Hnn.
  fold (get_commit_stats_of repo (hash c)) in Hnn. rewrite <- Hst in Hnn.
  repeat split; try assumption; try apply Hnn.
  now apply (split_lines_no_nl text).
Qed.

(** X6: every record the fetchers return has a hash, a subject, an author
    and a date without [|], no line break in any field, and the counts that
    [get_commit_stats] gives for its hash, which are not negative. *)
Theorem fetched_records_well_formed :
  forall repo : repository,
    (forall (tag : string) (c : commit),
       In c (get_commits_for_tag repo tag) -> fetched_record repo c) /\
    (forall (from_tag to_tag : string) (c : commit),
       In c (get_commits_between_tags repo from_tag to_tag) -> fetched_record repo c).
Proof.
  intros repo.
  assert (Hfor : forall tag c, In c (get_commits_for_tag repo tag) -> fetched_record repo c).
  { intros tag c. unfold get_commits_for_tag.
    destruct (git repo ["git"; "rev-parse"; tag]); [intros []|].
    destruct (git repo _) eqn:Hlog; [intros []|]. apply fetched_record_of_lines. }
  split; [exact Hfor|].
  intros from_tag to_tag c. unfold get_commits_between_tags.
  destruct from_tag; [apply Hfor|].
  destruct (git repo ["git"; "rev-parse"; String _ _]); [intros []|].
  destruct (git repo ["git"; "rev-parse"; to_tag]); [intros []|].
  destruct (git repo _) eqn:Hlog; [intros []|]. apply fetched_record_of_lines.
Qed.

Lemma fetched_records_well_formed_witness :
  fetched_record example_repository
    {| hash := "b2"; message := "Fix crash"; author := "Bob"; date := "Tue May 7";
       body := "see #12 | urgent"; insertions := 1; deletions := 0 |}.
Proof.
  apply (proj2 (fetched_records_well_formed example_repository) "v1.0.0" "HEAD").
  vm_compute. right. left. reflexivity.
Defined.

Lemma length_split_max (sep : ascii) (s : string) (n : nat) :
  List.length (split_max sep s n) = S (Nat.min (count_char sep s) n).
Proof.
  revert n. induction s as [|c s IH]; intros n; [reflexivity|].
  cbn [split_max count_char]. destruct n as [|n]; [now rewrite Nat.min_0_r|].
  destruct (Ascii.eqb c sep).
  - cbn [List.length]. rewrite IH. reflexivity.
  - pose proof (IH (S n)) as Hlen.
    destruct (split_max sep s (S n)); [discriminate|]. exact Hlen.
Qed.

Lemma count_char_spaces (s : string) :
  string_forall Py.isspace s = true -> count_char "|" s = 0%nat.
Proof.
  induction s as [|c s IH]; [reflexivity|].
  cbn [string_forall count_char]. rewrite andb_true_iff. intros [Hc Hs].
  rewrite (IH Hs). destruct (Ascii.eqb_spec c "|") as [->|_]; [discriminate|reflexivity].
Qed.

(** X7: the loop of the fetchers makes one record of every line that holds
    at least four [|] and none of any other line, so the further lines of a
    body of several lines give no record unless they hold four [|]. *)
Theorem commit_list_length :
  forall (repo : repository) (lines : list string),
    List.length (commit_list repo lines) =
    List.length (List.filter (fun line => (4 <=? count_char "|" line)%nat) lines).
Proof.
  intros repo lines. induction lines as [|l lines IH]; [reflexivity|].
  cbn [commit_list List.filter].
  pose proof (length_split_max "|" l 4) as Hlen.
  destruct (Py.strip l) as [|x0 stripped] eqn:Hstrip.
  - apply strip_empty, count_char_spaces in Hstrip. rewrite Hstrip. exact IH.
  - destruct (split_max "|" l 4) as [|h [|m [|a [|d [|b tl]]]]];
      cbn [List.length] in Hlen;
      destruct (Nat.leb_spec 4 (count_char "|" l)); try lia; try exact IH.
    destruct (get_commit_stats_of repo h). cbn [List.length]. now rewrite IH.
Qed.

(** The second line of the body of the example gives no record. *)
Lemma get_commits_between_tags_example :
  map message (get_commits_between_tags example_repository "v1.0.0" "HEAD") =
  ["feat: add chart"; "Fix crash"].
Proof. vm_compute. reflexivity. Qed.

End Fetcher.

(** ** The tags of the repository *)

Section Tags.

Lemma list_remove_filter (x : string) (l : list string) :
  NoDup l ->
  (if existsb (String.eqb x) l then list_remove x l else l) =
  List.filter (fun t => negb (String.eqb t x)) l.
Proof.
  induction l as [|y l IH]; intros Hnd; [reflexivity|].
  inversion Hnd as [|? ? Hnotin Hnd']; subst.
  cbn [existsb list_remove List.filter]. rewrite (String.eqb_sym x y).
  destruct (String.eqb_spec y x) as [->|Hne]; cbn [orb negb].
  - symmetry. clear IH Hnd. induction l as [|z l IHl]; [reflexivity|].
    cbn [List.filter]. inversion Hnd' as [|? ? Hz Hl]; subst.
    destruct (String.eqb_spec z x) as [->|_].
    + exfalso. apply Hnotin. now left.
    + cbn [negb]. f_equal. apply IHl; [|exact Hl].
      intros Hin. apply Hnotin. now right.
  - specialize (IH Hnd'). destruct (existsb (String.eqb x) l); [now rewrite IH|].
    now rewrite <- IH.
Qed.

Lemma listed_tags_stripped (repo : repository) (tag : string) :
  In tag (listed_tags repo) -> tag <> "" /\ Py.strip tag = tag.
Proof.
  unfold listed_tags. destruct (git repo _) as [|x out]; [intros []|].
  intros Hin. apply in_map_iff in Hin. destruct Hin as [line [<- Hin]].
  apply filter_In in Hin. destruct Hin as [_ Hne].
  split; [|apply strip_idempotent].
  now destruct (String.eqb_spec (Py.strip line) "").
Qed.

Lemma list_remove_In (x y : string) (l : list string) :
  In y (list_remove x l) -> In y l.
Proof.
  induction l as [|z l IH]; cbn [list_remove]; [auto|].
  destruct (String.eqb z x); [now right|]. intros [<-|Hin]; [now left|right; auto].
Qed.

(** X8: every tag the release is compared with is a non-blank name without
    surrounding whitespace; and when git lists no name twice, removing the
    new tag leaves exactly the other names in the order git listed them, so
    the previous tag is the first listed name other than the new tag, or the
    whole history is taken when there is none. *)
Theorem existing_tags_others :
  forall (repo : repository) (new_tag : string),
    (forall tag, In tag (existing_tags repo new_tag) -> tag <> "" /\ Py.strip tag = tag) /\
    (NoDup (listed_tags repo) ->
     existing_tags repo new_tag =
       List.filter (fun tag => negb (String.eqb tag new_tag)) (listed_tags repo) /\
     unreleased_commits repo new_tag =
       match List.filter (fun tag => negb (String.eqb tag new_tag)) (listed_tags repo) with
       | last_tag :: _ => get_commits_between_tags repo last_tag "HEAD"
       | [] => get_commits_for_tag repo "HEAD"
       end).
Proof.
  intros repo new_tag. split.
  - intros tag Hin. apply listed_tags_stripped with (repo := repo).
    unfold existing_tags in Hin.
    destruct (existsb _ _); [now apply list_remove_In in Hin|exact Hin].
  - intros Hnd.
    assert (H : existing_tags repo new_tag =
                List.filter (fun tag => negb (String.eqb tag new_tag)) (listed_tags repo))
      by (unfold existing_tags; now apply list_remove_filter).
    split; [exact H|]. unfold unreleased_commits. now rewrite H.
Qed.

Lemma existing_tags_others_witness :
  existing_tags example_repository "v1.0.0" = ["v0.9.0"] /\
  unreleased_commits example_repository "v1.0.0" =
    get_commits_between_tags example_repository "v0.9.0" "HEAD".
Proof.
  assert (Hnd : NoDup (listed_tags example_repository)).
  { apply (bool_decide_unpack _). vm_compute. exact I. }
  destruct (proj2 (existing_tags_others example_repository "v1.0.0") Hnd) as [Ht Hc].
  split.
  - rewrite Ht. vm_compute. reflexivity.
  - rewrite Hc. reflexivity.
Defined.

End Tags.

(** ** Classifier: categories without trigger words *)

Section ExplicitOnly.

Lemma conventional_prefix_starts (s : string) (types : list (string * (string * string)))
    (commit_type emoji description : string) :
  conventional_prefix s types = Some (commit_type, emoji, description) ->
  Py.startswith s (commit_type +:+ ":") = true.
Proof.
  induction types as [|[k [e d]] types IH]; cbn [conventional_prefix]; [discriminate|].
  destruct (Py.startswith s (k +:+ ":")) eqn:Hk; [|exact IH].
  intros H. injection H as <- _ _. exact Hk.
Qed.

(** X9: the categories [build], [ci] and [revert] have no trigger words: a
    commit is classified under one of them only when its lower-cased message
    starts with that type and a colon. *)
Theorem categorize_commit_explicit_only :
  forall (c : commit) (commit_type : string),
    In commit_type ["build"; "ci"; "revert"] ->
    commit_type_of c = commit_type ->
    Py.startswith (Py.lower (message c)) (commit_type +:+ ":") = true.
Proof.
  intros c ty Hin Hty. unfold commit_type_of, categorize_commit in Hty.
  destruct (conventional_prefix (Py.lower (message c)) COMMIT_TYPES)
    as [[[ty' e] d]|] eqn:Hp.
  - cbn [fst] in Hty. subst ty'. exact (conventional_prefix_starts _ _ _ _ _ Hp).
  - exfalso.
    repeat (match type of Hty with
            | context [if Py.any_in ?ws ?m then _ else _] => destruct (Py.any_in ws m)
            end);
      cbn [fst] in Hty; subst ty; cbn in Hin;
      repeat (destruct Hin as [Hin|Hin]; [discriminate Hin|]); destruct Hin.
Qed.

Lemma categorize_commit_explicit_only_witness :
  Py.startswith (Py.lower (message (commit_of_message "CI: cache the packages")))
    ("ci" +:+ ":") = true.
Proof.
  apply categorize_commit_explicit_only.
  - cbn. tauto.
  - vm_compute. reflexivity.
Defined.

End ExplicitOnly.

(** ** Formatter: cleaning only trims *)

Section Trimming.

Lemma lstrip_suffix (s : string) : exists pre, s = pre +:+ Py.lstrip s.
Proof.
  induction s as [|c s [pre IH]]; [now exists ""|]. cbn [Py.lstrip].
  destruct (Py.isspace c); [|now exists ""].
  exists (String c pre). rewrite append_cons. now rewrite <- IH.
Qed.

Lemma rstrip_prefix (s : string) : exists post, s = Py.rstrip s +:+ post.
Proof.
  induction s as [|c s [post IH]]; [now exists ""|]. rewrite rstrip_cons.
  destruct (Py.rstrip s) as [|d r] eqn:Hr.
  - destruct (Py.isspace c); [now exists (String c s)|].
    exists s. reflexivity.
  - exists post. rewrite append_cons. now rewrite <- IH.
Qed.

Lemma strip_infix (s : string) : exists pre post, s = pre +:+ Py.strip s +:+ post.
Proof.
  unfold Py.strip. destruct (lstrip_suffix s) as [pre Hpre].
  destruct (rstrip_prefix (Py.lstrip s)) as [post Hpost].
  exists pre, post. now rewrite <- Hpost.
Qed.

Lemma drop_suffix (n : nat) (s : string) : exists pre, s = pre +:+ Py.drop n s.
Proof. exists (Py.take n s). now rewrite take_drop. Qed.

Lemma lstrip_steps_suffix (n : nat) (s : string) :
  exists pre, s = pre +:+ Py.lstrip_steps n s.
Proof.
  revert s. induction n as [|n IH]; intros s; cbn [Py.lstrip_steps]; [now exists ""|].
  destruct (Py.skip_space s) as [rest|] eqn:Hskip; [|now exists ""].
  destruct (skip_space_sound _ _ Hskip) as [code [_ ->]].
  destruct (IH rest) as [pre Hpre].
  exists (Py.chr code +:+ pre). rewrite append_assoc. now rewrite <- Hpre.
Qed.

Lemma drop_space_sound (s rest : string) :
  Py.drop_space s = Some rest ->
  exists code, In code Py.WHITESPACE /\ s = rest +:+ Py.chr code.
Proof.
  unfold Py.drop_space.
  destruct (List.find _ Py.WHITESPACE) as [code|] eqn:Hfind; [|discriminate].
  intros H. injection H as <-. apply find_some in Hfind. destruct Hfind as [Hin Hs].
  exists code. split; [exact Hin|].
  unfold Py.endswith in Hs. apply andb_true_iff in Hs. destruct Hs as [_ Hs].
  apply String.eqb_eq in Hs.
  pose proof (take_drop (String.length s - String.length (Py.chr code)) s) as Hsplit.
  rewrite Hs in Hsplit. now symmetry.
Qed.

Lemma rstrip_steps_prefix (n : nat) (s : string) :
  exists post, s = Py.rstrip_steps n s +:+ post.
Proof.
  revert s. induction n as [|n IH]; intros s; cbn [Py.rstrip_steps].
  - exists "". now rewrite append_nil_r.
  - destruct (Py.drop_space s) as [rest|] eqn:Hdrop.
    + destruct (drop_space_sound _ _ Hdrop) as [code [_ ->]].
      destruct (IH rest) as [post Hpost].
      exists (post +:+ Py.chr code). rewrite <- append_assoc. now rewrite <- Hpost.
    + exists "". now rewrite append_nil_r.
Qed.

Lemma strip_unicode_infix (s : string) :
  exists pre post, s = pre +:+ Py.strip_unicode s +:+ post.
Proof.
  unfold Py.strip_unicode, Py.rstrip_unicode, Py.lstrip_unicode.
  destruct (lstrip_steps_suffix (String.length s) s) as [pre Hpre].
  destruct (rstrip_steps_prefix (String.length (Py.lstrip_steps (String.length s) s))
              (Py.lstrip_steps (String.length s) s)) as [post Hpost].
  exists pre, post. now rewrite <- Hpost.
Qed.

(** The steps [lstrip_unicode] and [rstrip_unicode] take are enough: what
    they give neither starts nor ends with a whitespace character. *)
Lemma lstrip_steps_done (n : nat) (s : string) :
  (String.length s <= n)%nat -> Py.skip_space (Py.lstrip_steps n s) = None.
Proof.
  revert s. induction n as [|n IH]; intros s Hn; cbn [Py.lstrip_steps].
  - destruct s; [reflexivity|cbn in Hn; lia].
  - destruct (Py.skip_space s) as [rest|] eqn:Hskip; [|exact Hskip].
    apply IH. destruct (skip_space_sound _ _ Hskip) as [code [_ ->]].
    rewrite length_append in Hn. pose proof (chr_nonempty code) as Hne.
    destruct (Py.chr code); [congruence|cbn in Hn; lia].
Qed.

Lemma rstrip_steps_done (n : nat) (s : string) :
  (String.length s <= n)%nat -> Py.drop_space (Py.rstrip_steps n s) = None.
Proof.
  revert s. induction n as [|n IH]; intros s Hn; cbn [Py.rstrip_steps].
  - destruct s; [reflexivity|cbn in Hn; lia].
  - destruct (Py.drop_space s) as [rest|] eqn:Hdrop; [|exact Hdrop].
    apply IH. destruct (drop_space_sound _ _ Hdrop) as [code [_ ->]].
    rewrite length_append in Hn. pose proof (chr_nonempty code) as Hne.
    destruct (Py.chr code); [congruence|cbn in Hn; lia].
Qed.

Lemma strip_unicode_done (s : string) :
  Py.skip_space (Py.lstrip_unicode s) = None /\
  Py.drop_space (Py.rstrip_unicode s) = None.
Proof.
  split; [now apply lstrip_steps_done|now apply rstrip_steps_done].
Qed.

Lemma re_sub_prefix_suffix (alternatives : list string) (message : string) :
  exists pre, message = pre +:+ re_sub_prefix alternatives message.
Proof.
  induction alternatives as [|alt rest IH]; cbn [re_sub_prefix]; [now exists ""|].
  destruct (imatch (alt +:+ ":") message) as [after|] eqn:Hm; [|exact IH].
  destruct (imatch_sound _ _ _ Hm) as [written [_ H1]].
  destruct (lstrip_steps_suffix (String.length after) after) as [pre2 H2].
  exists (written +:+ pre2). unfold Py.lstrip_unicode.
  rewrite append_assoc, <- H2. exact H1.
Qed.

Lemma remove_common_prefix_infix (prefixes : list string) (message : string) :
  exists pre post, message = pre +:+ remove_common_prefix prefixes message +:+ post.
Proof.
  induction prefixes as [|prefix rest IH]; cbn [remove_common_prefix].
  - exists "", "". now rewrite append_nil_r.
  - destruct (Py.startswith (Py.lower message) (Py.lower prefix)); [|exact IH].
    destruct (drop_suffix (String.length prefix) message) as [pre1 H1].
    destruct (strip_unicode_infix (Py.drop (String.length prefix) message))
      as [pre2 [post H2]].
    exists (pre1 +:+ pre2), post. rewrite append_assoc, <- H2. exact H1.
Qed.

Lemma upper_char_fixed (c : ascii) : Py.upper_char (Py.upper_char c) = Py.upper_char c.
Proof. destruct c as [[] [] [] [] [] [] [] []]; reflexivity. Qed.

Lemma upper_char_outside_ascii (c : ascii) : Py.isascii c = false -> Py.upper_char c = c.
Proof. destruct c as [[] [] [] [] [] [] [] []]; intros H; try reflexivity; discriminate H. Qed.

(** No character of the table becomes a text that begins with a lower-case
    letter of the ASCII range. *)
Lemma UPPER_OUTSIDE_ASCII_first (code : Z) (upper : list Z) :
  In (code, upper) Py.UPPER_OUTSIDE_ASCII ->
  exists c tail, Py.text_of upper = String c tail /\ Py.upper_char c = c.
Proof.
  intros Hin.
  assert (Hall : forallb
                   (fun entry => match Py.text_of (snd entry) with
                                 | EmptyString => false
                                 | String c _ => Ascii.eqb (Py.upper_char c) c
                                 end) Py.UPPER_OUTSIDE_ASCII = true)
    by (vm_compute; reflexivity).
  rewrite forallb_forall in Hall. specialize (Hall _ Hin). cbn [snd] in Hall.
  destruct (Py.text_of upper) as [|c tail]; [discriminate|].
  exists c, tail. split; [reflexivity|]. now apply Ascii.eqb_eq.
Qed.

Lemma capitalize_first_not_lower (s : string) (c : ascii) (rest : string) :
  capitalize_first s = String c rest -> Py.upper_char c = c.
Proof.
  unfold capitalize_first. destruct s as [|x r]; [discriminate|].
  destruct (Py.isascii x) eqn:Hx.
  - intros H. injection H as <- _. apply upper_char_fixed.
  - destruct (List.find _ Py.UPPER_OUTSIDE_ASCII) as [[code upper]|] eqn:Hfind.
    + apply find_some in Hfind. destruct Hfind as [Hin _].
      destruct (UPPER_OUTSIDE_ASCII_first _ _ Hin) as [b [tail [-> Hb]]].
      rewrite append_cons. intros H. now injection H as <- _.
    + intros H. injection H as <- _. now apply upper_char_outside_ascii.
Qed.

Lemma length_capitalize_first (s : string) :
  string_forall Py.isascii s = true ->
  String.length (capitalize_first s) = String.length s.
Proof.
  destruct s as [|c s]; [reflexivity|]. cbn [string_forall capitalize_first].
  rewrite andb_true_iff. intros [-> _]. reflexivity.
Qed.

(** X10: cleaning never adds or reorders text: the cleaned message is a
    contiguous piece of the message with its first character capitalized; it
    never begins with a lower-case letter of the ASCII range; and the
    cleaned form of a message of ASCII characters is not longer than the
    message. *)
Theorem clean_commit_message_trims :
  forall message : string,
    (exists pre rest post,
       message = pre +:+ rest +:+ post /\
       clean_commit_message message = capitalize_first rest) /\
    (forall c rest,
       clean_commit_message message = String c rest -> Py.upper_char c = c) /\
    (string_forall Py.isascii message = true ->
     (String.length (clean_commit_message message) <= String.length message)%nat).
Proof.
  intros message.
  destruct (re_sub_prefix_suffix PREFIX_ALTERNATIVES message) as [pre1 H1].
  destruct (remove_common_prefix_infix prefixes_to_remove
              (re_sub_prefix PREFIX_ALTERNATIVES message)) as [pre2 [post H2]].
  assert (Hparts : message =
            (pre1 +:+ pre2) +:+
            remove_common_prefix prefixes_to_remove
              (re_sub_prefix PREFIX_ALTERNATIVES message) +:+ post).
  { rewrite append_assoc, <- H2. exact H1. }
  split; [|split].
  - eexists _, _, _. split; [exact Hparts|reflexivity].
  - unfold clean_commit_message. intros c rest. apply capitalize_first_not_lower.
  - intros Hascii. unfold clean_commit_message.
    rewrite Hparts in Hascii. rewrite !string_forall_append in Hascii.
    apply andb_true_iff in Hascii. destruct Hascii as [_ Hascii].
    apply andb_true_iff in Hascii. destruct Hascii as [Hascii _].
    rewrite (length_capitalize_first _ Hascii).
    rewrite Hparts at 2. rewrite !length_append. lia.
Qed.

Lemma clean_commit_message_trims_witness :
  clean_commit_message "fix: crash on start" = "Crash on start" /\
  Py.upper_char "C" = "C"%char /\
  (String.length (clean_commit_message "fix: crash on start") <=
   String.length "fix: crash on start")%nat.
Proof.
  split; [reflexivity|]. split.
  - apply (proj1 (proj2 (clean_commit_message_trims "fix: crash on start"))
             "C"%char "rash on start").
    reflexivity.
  - apply (proj2 (proj2 (clean_commit_message_trims "fix: crash on start"))).
    reflexivity.
Defined.

End Trimming.

(** ** Section renderer: what reaches the section *)

Section Rendered.

Lemma occurs_in_middle (sub s pre post : string) :
  occurs_in sub s -> occurs_in sub (pre +:+ s +:+ post).
Proof.
  intros [a [b ->]]. exists (pre +:+ a), (b +:+ post). now rewrite !append_assoc.
Qed.

Lemma occurs_in_concat_all (x : string) (parts : list string) :
  In x parts -> occurs_in x (concat_all parts).
Proof.
  induction parts as [|y parts IH]; [intros []|].
  cbn [concat_all fold_right]. fold (concat_all parts). intros [->|Hin].
  - now exists "", (concat_all parts).
  - destruct (IH Hin) as [a [b ->]]. exists (y +:+ a), b. now rewrite append_assoc.
Qed.

Lemma In_COMMIT_TYPES_key (commit_type : string) :
  In commit_type (map fst COMMIT_TYPES) ->
  exists item, In item COMMIT_TYPES /\ fst item = commit_type.
Proof.
  intros Hin. apply in_map_iff in Hin. destruct Hin as [item [Hk Hin]]. eauto.
Qed.

Lemma bullet_line_occurs :
  forall (tag : string) (commits : list commit) (release_date : string) (c : commit),
    In c commits ->
    occurs_in (bullet_line c +:+ Py.nl)
      (generate_release_section tag commits release_date).
Proof.
  intros tag commits release_date c Hin.
  rewrite generate_release_section_render by (intros ->; destruct Hin).
  unfold render_section.
  destruct (In_COMMIT_TYPES_key _ (commit_type_of_In c)) as [item [Hitem Hkey]].
  assert (Hgroup : In c (group_of (fst item) commits)).
  { unfold group_of. apply filter_In. split; [exact Hin|].
    rewrite Hkey. apply String.eqb_refl. }
  assert (Hblock : occurs_in (bullet_line c +:+ Py.nl) (group_block commits item)).
  { unfold group_block. destruct (group_of (fst item) commits) as [|g group] eqn:Hg;
      [destruct Hgroup|].
    rewrite <- (append_assoc (heading_line item) Py.nl).
    apply occurs_in_middle. apply occurs_in_concat_all.
    apply (in_map (fun c => bullet_line c +:+ Py.nl)). exact Hgroup. }
  pose proof (occurs_in_concat_all _ _ (in_map (group_block commits) _ _ Hitem)) as Hall.
  destruct Hblock as [a [b Hb]]. destruct Hall as [p [q Hq]].
  rewrite Hq, Hb.
  exists ("## [" +:+ tag +:+ "] - " +:+ release_date +:+ Py.nl +:+ Py.nl +:+ p +:+ a).
  eexists. rewrite !append_assoc. reflexivity.
Qed.

(** X11: no commit is left out of the section: for every commit of the
    list, its bullet line, line break included, occurs in the rendered
    section. *)
Theorem generate_release_section_lists_every_commit :
  forall (tag : string) (commits : list commit) (release_date : string) (c : commit),
    In c commits ->
    occurs_in (bullet_line c +:+ Py.nl)
      (generate_release_section tag commits release_date).
Proof. exact bullet_line_occurs. Qed.

Lemma generate_release_section_lists_every_commit_witness :
  occurs_in ("- Fix crash `+1`" +:+ Py.nl)
    (generate_release_section "v1.1.0"
       (get_commits_between_tags example_repository "v1.0.0" "HEAD") "2024-05-08").
Proof.
  refine (generate_release_section_lists_every_commit _ _ _
            {| hash := "b2"; message := "Fix crash"; author := "Bob"; date := "Tue May 7";
               body := "see #12 | urgent"; insertions := 1; deletions := 0 |} _).
  vm_compute. right. left. reflexivity.
Defined.

Lemma commit_type_of_message (c c' : commit) :
  message c = message c' -> commit_type_of c = commit_type_of c'.
Proof. intros H. unfold commit_type_of, categorize_commit. now rewrite H. Qed.

Lemma group_of_shown (commit_type : string) (cs cs' : list commit) :
  map shown cs = map shown cs' ->
  map shown (group_of commit_type cs) = map shown (group_of commit_type cs').
Proof.
  revert cs'. induction cs as [|c cs IH]; intros [|c' cs'] H; try discriminate;
    [reflexivity|].
  cbn [map] in H.
  assert (Hc : shown c = shown c') by congruence.
  assert (Hcs : map shown cs = map shown cs') by congruence.
  unfold group_of. cbn [List.filter]. fold (group_of commit_type cs) (group_of commit_type cs').
  assert (Hm : message c = message c') by (unfold shown in Hc; congruence).
  rewrite (commit_type_of_message c c' Hm).
  destruct (String.eqb (commit_type_of c') commit_type); cbn [map];
    [rewrite Hc; f_equal|]; now apply IH.
Qed.

Lemma bullet_lines_shown (group group' : list commit) :
  map shown group = map shown group' ->
  map (fun c => bullet_line c +:+ Py.nl) group =
  map (fun c => bullet_line c +:+ Py.nl) group'.
Proof.
  revert group'. induction group as [|c group IH]; intros [|c' group'] H;
    try discriminate; [reflexivity|].
  cbn [map] in *.
  assert (Hc : shown c = shown c') by congruence.
  assert (Hrest : map shown group = map shown group') by congruence.
  rewrite (IH _ Hrest). f_equal.
  unfold bullet_line. unfold shown in Hc. now injection Hc as -> -> ->.
Qed.

Lemma group_block_shown (cs cs' : list commit) (item : string * (string * string)) :
  map shown cs = map shown cs' -> group_block cs item = group_block cs' item.
Proof.
  intros H. unfold group_block.
  pose proof (group_of_shown (fst item) cs cs' H) as Hg.
  pose proof (bullet_lines_shown _ _ Hg) as Hb.
  destruct (group_of (fst item) cs), (group_of (fst item) cs'); try discriminate;
    [reflexivity|]. now rewrite Hb.
Qed.

(** X12: only the message and the two counts of a commit reach the section:
    two lists of commits that agree on these give the same section, whatever
    their hashes, authors, dates and bodies. *)
Theorem generate_release_section_shown_only :
  forall (tag : string) (commits commits' : list commit) (release_date : string),
    map shown commits = map shown commits' ->
    generate_release_section tag commits release_date =
    generate_release_section tag commits' release_date.
Proof.
  intros tag cs cs' release_date H.
  destruct cs as [|c cs], cs' as [|c' cs']; try discriminate; [reflexivity|].
  rewrite !generate_release_section_render by discriminate. unfold render_section.
  rewrite (map_ext _ _ (fun item => group_block_shown _ _ item H)).
  replace (List.length (c' :: cs')) with (List.length (c :: cs)); [reflexivity|].
  rewrite <- (length_map shown (c :: cs)), H. apply length_map.
Qed.

Lemma generate_release_section_shown_only_witness :
  generate_release_section "v1.1.0"
    (get_commits_between_tags example_repository "v1.0.0" "HEAD") "2024-05-08" =
  generate_release_section "v1.1.0"
    [ {| hash := ""; message := "feat: add chart"; author := ""; date := ""; body := "";
         insertions := 15; deletions := 3 |};
      {| hash := ""; message := "Fix crash"; author := ""; date := ""; body := "";
         insertions := 1; deletions := 0 |} ] "2024-05-08".
Proof.
  apply generate_release_section_shown_only. vm_compute. reflexivity.
Defined.

End Rendered.

(** ** Splicing: what happens to the existing document *)

Section Existing.

Lemma update_keeps_content :
  forall (new_tag : string) (commits : list commit) (release_date : string)
         (changelog : option string),
    let old_content := default DEFAULT_CHANGELOG changelog in
    let release_section := generate_release_section new_tag commits release_date in
    exists pre post,
      old_content = pre +:+ post /\
      (update_changelog_for_tag new_tag commits release_date changelog =
         pre +:+ release_section +:+ post \/
       (post = "" /\
        update_changelog_for_tag new_tag commits release_date changelog =
          pre +:+ Py.nl +:+ release_section)).
Proof.
  intros new_tag commits release_date changelog old_content release_section.
  unfold update_changelog_for_tag.
  replace (match changelog with Some content => content | None => DEFAULT_CHANGELOG end)
    with old_content by now destruct changelog.
  fold release_section. unfold new_content.
  destruct (find old_content RULE_MARKER (find old_content UNRELEASED_HEADING 0) =? -1).
  - exists old_content, "". split; [now rewrite append_nil_r|]. now right.
  - eexists _, _. split; [|left; reflexivity].
    unfold slice_to, slice_from. now rewrite take_drop.
Qed.

(** X13: the update never drops or rewrites text of the changelog it finds
    (or of the skeleton when there is none): the old content is cut in two at
    one place and the section inserted there, or the section is appended
    after a line break. *)
Theorem update_changelog_for_tag_keeps_content :
  forall (new_tag : string) (commits : list commit) (release_date : string)
         (changelog : option string),
    let old_content := default DEFAULT_CHANGELOG changelog in
    let release_section := generate_release_section new_tag commits release_date in
    exists pre post,
      old_content = pre +:+ post /\
      (update_changelog_for_tag new_tag commits release_date changelog =
         pre +:+ release_section +:+ post \/
       (post = "" /\
        update_changelog_for_tag new_tag commits release_date changelog =
          pre +:+ Py.nl +:+ release_section)).
Proof. exact update_keeps_content. Qed.

Lemma prefix_append_short (sub d x : string) :
  String.prefix sub (d +:+ x) = true ->
  (String.length sub <= String.length d)%nat ->
  String.prefix sub d = true.
Proof.
  revert d. induction sub as [|c sub IH]; intros d H Hlen; [apply prefix_nil|].
  destruct d as [|y d]; [cbn in Hlen; lia|].
  rewrite append_cons, prefix_cons in H. rewrite prefix_cons.
  apply andb_true_iff in H. destruct H as [Hc H]. rewrite Hc. cbn [andb].
  apply IH; [exact H|cbn in Hlen; lia].
Qed.

Lemma occurs_at_append_short (sub d x : string) (q : nat) :
  occurs_at sub (d +:+ x) q ->
  (q + String.length sub <= String.length d)%nat ->
  occurs_at sub d q.
Proof.
  revert d. induction q as [|q IH]; intros d H Hlen.
  - apply occurs_at_0. apply occurs_at_0 in H. now apply (prefix_append_short sub d x).
  - destruct d as [|y d]; [cbn in Hlen; lia|].
    rewrite append_cons in H. apply occurs_at_S in H. apply occurs_at_S.
    apply IH; [exact H|cbn in Hlen; lia].
Qed.

Lemma occurs_at_append (sub d x : string) (q : nat) :
  occurs_at sub d q -> occurs_at sub (d +:+ x) q.
Proof.
  intros [pre [post [-> Hlen]]]. exists pre, (post +:+ x).
  split; [now rewrite !append_assoc|exact Hlen].
Qed.

(** The first occurrence of a text in a document stays the first when the
    document is continued. *)
Lemma first_at_append (sub d x : string) (start p : nat) :
  first_at sub d start p -> first_at sub (d +:+ x) start p.
Proof.
  intros [Hle [Hocc Hmin]]. split; [exact Hle|]. split; [now apply occurs_at_append|].
  intros q Hq Hlt Hocc'. apply (Hmin q Hq Hlt).
  apply (occurs_at_append_short sub d x); [exact Hocc'|].
  apply occurs_at_length in Hocc. lia.
Qed.

Lemma take_append (d x : string) (k : nat) :
  Py.take (String.length d + k) (d +:+ x) = d +:+ Py.take k x.
Proof. induction d as [|c d IH]; [reflexivity|]. cbn. now rewrite IH. Qed.

Lemma drop_append_more (d x : string) (k : nat) :
  Py.drop (String.length d + k) (d +:+ x) = Py.drop k x.
Proof. induction d as [|c d IH]; [reflexivity|]. cbn. exact IH. Qed.

(** X14: two releases in a row, starting without a changelog: the second
    section is not put between the skeleton and the first section but one
    character into the first section, so the first [#] of the first heading
    ends up in front of the second heading. *)
Theorem update_changelog_for_tag_twice :
  forall (tag1 : string) (commits1 : list commit) (date1 : string)
         (tag2 : string) (commits2 : list commit) (date2 : string),
    let section1 := generate_release_section tag1 commits1 date1 in
    let section2 := generate_release_section tag2 commits2 date2 in
    update_changelog_for_tag tag2 commits2 date2
      (Some (update_changelog_for_tag tag1 commits1 date1 None)) =
    DEFAULT_CHANGELOG +:+ "#" +:+ section2 +:+ Py.drop 1 section1 /\
    section1 = "#" +:+ Py.drop 1 section1.
Proof.
  intros tag1 commits1 date1 tag2 commits2 date2 section1 section2.
  assert (Hs1 : section1 = "#" +:+ Py.drop 1 section1).
  { unfold section1.
    destruct (generate_release_section_title tag1 commits1 date1) as [rest ->].
    reflexivity. }
  split; [|exact Hs1].
  unfold update_changelog_for_tag. fold section1 section2.
  rewrite new_content_DEFAULT. unfold new_content.
  assert (Hh : first_at UNRELEASED_HEADING DEFAULT_CHANGELOG 0 273)
    by (apply index_Some; vm_compute; reflexivity).
  assert (Hp : first_at RULE_MARKER DEFAULT_CHANGELOG 273 357)
    by (apply index_Some; vm_compute; reflexivity).
  rewrite find_0,
    (index_first _ _ _ _ UNRELEASED_HEADING_nonempty (first_at_append _ _ section1 _ _ Hh)).
  rewrite find_nat,
    (index_first _ _ _ _ RULE_MARKER_nonempty (first_at_append _ _ section1 _ _ Hp)).
  change (Z.of_nat 357 =? -1) with false. cbv iota.
  unfold slice_to, slice_from.
  change (Z.of_nat 357 + 6 <? 0) with false. cbv iota.
  replace (Z.to_nat (Z.of_nat 357 + 6)) with (String.length DEFAULT_CHANGELOG + 1)%nat
    by (vm_compute; reflexivity).
  rewrite take_append, drop_append_more.
  rewrite Hs1 at 1. cbn [Py.take]. now rewrite !append_assoc.
Qed.

(** X15: from the repository to the file: every commit fetched for the
    release has its bullet line, line break included, in the content written
    to the changelog, whatever the changelog held before. *)
Theorem update_changelog_for_tag_lists_unreleased :
  forall (repo : repository) (new_tag release_date : string) (changelog : option string)
         (c : commit),
    In c (unreleased_commits repo new_tag) ->
    occurs_in (bullet_line c +:+ Py.nl)
      (update_changelog_for_tag new_tag (unreleased_commits repo new_tag)
         release_date changelog).
Proof.
  intros repo new_tag release_date changelog c Hin.
  pose proof (bullet_line_occurs new_tag _ release_date c Hin) as Hocc.
  destruct (update_keeps_content new_tag (unreleased_commits repo new_tag)
              release_date changelog) as [pre [post [_ [->|[_ ->]]]]].
  - now apply occurs_in_middle.
  - rewrite <- (append_nil_r (generate_release_section _ _ _)).
    rewrite <- append_assoc. now apply occurs_in_middle.
Qed.

Lemma update_changelog_for_tag_lists_unreleased_witness :
  occurs_in ("- Add chart `+15, -3`" +:+ Py.nl)
    (update_changelog_for_tag "v1.1.0" (unreleased_commits example_repository "v1.1.0")
       "2024-05-08" None).
Proof.
  refine (update_changelog_for_tag_lists_unreleased example_repository "v1.1.0"
            "2024-05-08" None
            {| hash := "a1"; message := "feat: add chart"; author := "Ann";
               date := "Mon May 6"; body := ""; insertions := 15; deletions := 3 |} _).
  vm_compute. left. reflexivity.
Defined.

End Existing.

(** ** Failing softly *)

Section SoftFailure.

Lemma strip_spaces (s : string) : string_forall Py.isspace s = true -> Py.strip s = "".
Proof.
  intros H. unfold Py.strip.
  assert (Hl : Py.lstrip s = "").
  { induction s as [|c s IH]; [reflexivity|].
    cbn [string_forall] in H. apply andb_true_iff in H. destruct H as [Hc Hs].
    cbn [Py.lstrip]. rewrite Hc. now apply IH. }
  now rewrite Hl.
Qed.

(** X16: [run_git_command] returns the empty text exactly when the call
    raised, git exited with a non-zero code, or git printed nothing but
    whitespace; and a fetcher whose revision cannot be resolved in this sense,
    or whose log is empty in this sense, returns no commit. *)
Theorem fetchers_fail_softly :
  forall repo : repository,
    (forall command : list string,
       git repo command = "" <->
       (repo command = None \/
        exists result,
          repo command = Some result /\
          (returncode result <> 0 \/ string_forall Py.isspace (stdout result) = true))) /\
    (forall tag : string,
       git repo ["git"; "rev-parse"; tag] = "" \/
       git repo (log_command (git repo ["git"; "rev-parse"; tag])) = "" ->
       get_commits_for_tag repo tag = []) /\
    (forall from_tag to_tag : string,
       from_tag <> "" ->
       git repo ["git"; "rev-parse"; from_tag] = "" \/
       git repo ["git"; "rev-parse"; to_tag] = "" \/
       git repo (log_command (git repo ["git"; "rev-parse"; from_tag] +:+ ".." +:+
                              git repo ["git"; "rev-parse"; to_tag])) = "" ->
       get_commits_between_tags repo from_tag to_tag = []).
Proof.
  intros repo. split; [|split].
  - intros command. unfold git, run_git_command.
    destruct (repo command) as [result|]; [|split; [now left|reflexivity]].
    destruct (Z.eqb_spec (returncode result) 0) as [Hz|Hnz]; cbn [negb].
    + split.
      * intros H. right. exists result. split; [reflexivity|]. right.
        destruct (stdout result) as [|x out]; [reflexivity|]. now apply strip_empty.
      * intros [H|[r [Hr [Hcode|Hout]]]]; [discriminate|..];
          injection Hr as <-; [congruence|].
        destruct (stdout result) as [|x out]; [reflexivity|]. now apply strip_spaces.
    + split; [|reflexivity]. intros _. right. exists result. split; [reflexivity|now left].
  - intros tag H. unfold get_commits_for_tag.
    destruct (git repo ["git"; "rev-parse"; tag]) as [|x h] eqn:Hh; [reflexivity|].
    destruct H as [H|H]; [discriminate|]. fold (log_command (String x h)). now rewrite H.
  - intros from_tag to_tag Hfrom H. unfold get_commits_between_tags.
    destruct from_tag as [|f from_tag]; [congruence|].
    destruct (git repo ["git"; "rev-parse"; String f from_tag]) as [|x h] eqn:Hh;
      [reflexivity|].
    destruct (git repo ["git"; "rev-parse"; to_tag]) as [|y h'] eqn:Hh'; [reflexivity|].
    destruct H as [H|[H|H]]; [discriminate|discriminate|].
    fold (log_command (String x h +:+ ".." +:+ String y h')). now rewrite H.
Qed.

Lemma fetchers_fail_softly_witness :
  get_commits_for_tag example_repository "v9.9.9" = [] /\
  get_commits_between_tags example_repository "v1.0.0" "v9.9.9" = [].
Proof.
  destruct (fetchers_fail_softly example_repository) as [_ [Hfor Hbetween]].
  split.
  - apply Hfor. left. vm_compute. reflexivity.
  - apply Hbetween; [discriminate|]. right. left. vm_compute. reflexivity.
Defined.

End SoftFailure.
